(** * Facial monitoring agent: blink detector, gaze tracker, head direction,
      calibration and attention scoring

    A shallow embedding of [face/enhanced_head_monitor.py].  Python floats are
    idealised as rationals ([Q]); every call of [time.time()] becomes an
    explicit clock reading handed to the function that makes the call; the
    instance attributes of a class become a record that is passed in and
    returned.  Library functions without a rational counterpart (square root,
    [atan2], OpenCV's Kalman filter) are interfaces (type classes).
    Rendering and console output have no effect on the state and are left
    out. *)

From Stdlib Require Import QArith Qabs Qpower ZArith List Bool Lia Lqa Sorted.
Import ListNotations.

Open Scope Q_scope.

(** ** Python-level helpers *)

(** [x < y] on floats, as a boolean. *)
Definition Qltb (x y : Q) : bool := negb (Qle_bool y x).

(** [min(a, b)] and [max(a, b)]: the first argument wins a tie. *)
Definition py_min (a b : Q) : Q := if Qltb b a then b else a.
Definition py_max (a b : Q) : Q := if Qltb a b then b else a.

(** [int] to [float]. *)
Definition Qnat (n : nat) : Q := inject_Z (Z.of_nat n).

(** [sum(l)] over floats, the accumulator starting at 0. *)
Definition py_sum (l : list Q) : Q := fold_left Qplus l 0.

(** [l[-n:]]: the last [n] items of [l]. *)
Definition last_n {A} (n : nat) (l : list A) : list A :=
  skipn (length l - n) l.

(** [collections.deque(maxlen=n).append(x)]: a full deque drops its oldest
    item. *)
Definition deque_append {A} (maxlen : nat) (x : A) (d : list A) : list A :=
  last_n maxlen (d ++ [x]).

(** Exceptions the modelled code can raise. *)
Inductive exn : Type :=
| IndexError
| ZeroDivisionError.

Inductive result (A : Type) : Type :=
| Ok (a : A)
| Raise (e : exn).
Arguments Ok {A} a.
Arguments Raise {A} e.

Definition bind {A B} (m : result A) (k : A -> result B) : result B :=
  match m with
  | Ok a => k a
  | Raise e => Raise e
  end.

Notation "x <- m ;; k" := (bind m (fun x => k))
  (at level 61, m at next level, right associativity).
Notation "' p <- m ;; k" := (bind m (fun p => k))
  (at level 61, p pattern, m at next level, right associativity).

(** Float division: [x / 0] raises [ZeroDivisionError]. *)
Definition py_div (x y : Q) : result Q :=
  if Qeq_bool y 0 then Raise ZeroDivisionError else Ok (x / y).

(** ** External numeric libraries *)

(** [numpy.sqrt] / [math.sqrt] and [math.atan2(dy, dx) * 180 / math.pi]. *)
Class MathLib : Type := {
  sqrtQ : Q -> Q;
  atan2_deg : Q -> Q -> Q
}.

(** What the proofs use of a square root: its result is never negative. *)
Class MathLibOk (M : MathLib) : Prop :=
  sqrtQ_nonneg : forall x, 0 <= sqrtQ x.

(** ** Landmark frames *)

(** A MediaPipe landmark: normalised image coordinates. *)
Record Landmark : Type := mkLandmark { lm_x : Q; lm_y : Q }.

(** [landmarks.landmark]: the repeated field, indexed from 0. *)
Definition Landmarks : Type := list Landmark.

(** [landmarks.landmark[idx]]; out of range raises [IndexError]. *)
Definition landmark_at (landmarks : Landmarks) (idx : nat) : result Landmark :=
  match nth_error landmarks idx with
  | Some p => Ok p
  | None => Raise IndexError
  end.

Definition Point : Type := (Q * Q)%type.

(** ** class BlinkDetector *)
Module BlinkDetector.

(* Landmarks for eyes *)
Definition left_eye_top : nat := 159.
Definition left_eye_bottom : nat := 145.
Definition left_eye_left : nat := 33.
Definition left_eye_right : nat := 133.
Definition right_eye_top : nat := 386.
Definition right_eye_bottom : nat := 374.
Definition right_eye_left : nat := 362.
Definition right_eye_right : nat := 263.

(** The instance attributes set by [__init__]. *)
Record t : Type := mk {
  ear_threshold : Q;
  blink_count : nat;
  blink_in_progress : bool;
  blink_start_time : Q;
  blink_duration : Q;
  frames_below_threshold : nat;
  consecutive_frames : nat;
  blink_timestamps : list Q;
  blink_durations : list Q;
  micro_sleep_count : nat;
  start_time : Q
}.

(** [__init__], [now] being the reading of [time.time()]. *)
Definition init (now : Q) : t :=
  {| ear_threshold := 2 # 10;
     blink_count := 0;
     blink_in_progress := false;
     blink_start_time := 0;
     blink_duration := 0;
     frames_below_threshold := 0;
     consecutive_frames := 2;
     blink_timestamps := [];
     blink_durations := [];
     micro_sleep_count := 0;
     start_time := now |}.

(** The dictionary [process_landmarks] returns.  The dictionary of the
    [except] branch has no ["micro_sleeps"] and no ["durations"] key. *)
Record Info : Type := mkInfo {
  blinking : bool;
  left_closed : bool;
  right_closed : bool;
  count : nat;
  rate_per_minute : Q;
  avg_duration : Q;
  last_duration : Q;
  micro_sleeps : option nat;
  durations : option (list Q);
  left_closed_ratio : Q;
  right_closed_ratio : Q
}.

(** The eight points read at the top of the [try] block. *)
Record EyePoints : Type := mkEyePoints {
  left_eye_top_pt : Point;
  left_eye_bottom_pt : Point;
  left_eye_left_pt : Point;
  left_eye_right_pt : Point;
  right_eye_top_pt : Point;
  right_eye_bottom_pt : Point;
  right_eye_left_pt : Point;
  right_eye_right_pt : Point
}.

Definition point_at (landmarks : Landmarks) (idx : nat) : result Point :=
  p <- landmark_at landmarks idx ;; Ok (lm_x p, lm_y p).

Definition read_eye_points (landmarks : Landmarks) : result EyePoints :=
  lt <- point_at landmarks left_eye_top ;;
  lb <- point_at landmarks left_eye_bottom ;;
  ll <- point_at landmarks left_eye_left ;;
  lr <- point_at landmarks left_eye_right ;;
  rt <- point_at landmarks right_eye_top ;;
  rb <- point_at landmarks right_eye_bottom ;;
  rl <- point_at landmarks right_eye_left ;;
  rr <- point_at landmarks right_eye_right ;;
  Ok (mkEyePoints lt lb ll lr rt rb rl rr).

Section WithMath.
Context {M : MathLib}.

(** [distance]: Euclidean distance between two points.  Its own [except]
    branch (return 0.0) cannot be reached with numeric points. *)
Definition distance (point1 point2 : Point) : Q :=
  let '(x1, y1) := point1 in
  let '(x2, y2) := point2 in
  sqrtQ ((x1 - x2) ^ 2 + (y1 - y2) ^ 2).

(** Eye aspect ratio (height/width), 0.0 unless the width is positive. *)
Definition eye_aspect_ratio (eye_width eye_height : Q) : Q :=
  if Qltb 0 eye_width then eye_height / eye_width else 0.

Definition left_ear (pts : EyePoints) : Q :=
  eye_aspect_ratio
    (distance (left_eye_left_pt pts) (left_eye_right_pt pts))
    (distance (left_eye_top_pt pts) (left_eye_bottom_pt pts)).

Definition right_ear (pts : EyePoints) : Q :=
  eye_aspect_ratio
    (distance (right_eye_left_pt pts) (right_eye_right_pt pts))
    (distance (right_eye_top_pt pts) (right_eye_bottom_pt pts)).

(** The blink state machine: the [if left_closed and right_closed] /
    [else] statement. *)
Definition detect_blink (both_closed : bool) (current_time : Q) (self : t)
  : t :=
  if both_closed then
    let frames := S (frames_below_threshold self) in
    (* Start of a blink *)
    if negb (blink_in_progress self) && (consecutive_frames self <=? frames)%nat
    then
      {| ear_threshold := ear_threshold self;
         blink_count := blink_count self;
         blink_in_progress := true;
         blink_start_time := current_time;
         blink_duration := blink_duration self;
         frames_below_threshold := frames;
         consecutive_frames := consecutive_frames self;
         blink_timestamps := blink_timestamps self;
         blink_durations := blink_durations self;
         micro_sleep_count := micro_sleep_count self;
         start_time := start_time self |}
    else
      {| ear_threshold := ear_threshold self;
         blink_count := blink_count self;
         blink_in_progress := blink_in_progress self;
         blink_start_time := blink_start_time self;
         blink_duration := blink_duration self;
         frames_below_threshold := frames;
         consecutive_frames := consecutive_frames self;
         blink_timestamps := blink_timestamps self;
         blink_durations := blink_durations self;
         micro_sleep_count := micro_sleep_count self;
         start_time := start_time self |}
  else if blink_in_progress self then
    (* End of a blink *)
    let blink_duration' := (current_time - blink_start_time self) * 1000 in
    let durations' := blink_durations self ++ [blink_duration'] in
    {| ear_threshold := ear_threshold self;
       blink_count := S (blink_count self);
       blink_in_progress := false;
       blink_start_time := blink_start_time self;
       blink_duration := blink_duration';
       frames_below_threshold := 0;
       consecutive_frames := consecutive_frames self;
       blink_timestamps :=
         filter (fun t0 => Qle_bool (current_time - t0) 60)
                (blink_timestamps self ++ [current_time]);
       blink_durations :=
         if (20 <? length durations')%nat then last_n 20 durations'
         else durations';
       micro_sleep_count :=
         if Qltb 400 blink_duration' then S (micro_sleep_count self)
         else micro_sleep_count self;
       start_time := start_time self |}
  else
    {| ear_threshold := ear_threshold self;
       blink_count := blink_count self;
       blink_in_progress := blink_in_progress self;
       blink_start_time := blink_start_time self;
       blink_duration := blink_duration self;
       frames_below_threshold := 0;
       consecutive_frames := consecutive_frames self;
       blink_timestamps := blink_timestamps self;
       blink_durations := blink_durations self;
       micro_sleep_count := micro_sleep_count self;
       start_time := start_time self |}.

(** Blinks per minute, over at most the last minute. *)
Definition blink_rate (current_time : Q) (self : t) : Q :=
  let session_duration := (current_time - start_time self) / 60 in
  if Qltb 0 session_duration
  then Qnat (length (blink_timestamps self)) / py_min session_duration 1
  else 0.

Definition avg_blink_duration (self : t) : Q :=
  match blink_durations self with
  | [] => 0
  | _ => py_sum (blink_durations self) / Qnat (length (blink_durations self))
  end.

(** The dictionary of the [except] branch. *)
Definition error_info (self : t) : Info :=
  {| blinking := false;
     left_closed := false;
     right_closed := false;
     count := blink_count self;
     rate_per_minute := 0;
     avg_duration := 0;
     last_duration := 0;
     micro_sleeps := None;
     durations := None;
     left_closed_ratio := 0;
     right_closed_ratio := 0 |}.

(** [process_landmarks]: the landmark reads are the only statements of
    the [try] block that can raise, and they come before every
    assignment to [self]. *)
Definition process_landmarks (landmarks : Landmarks) (current_time : Q)
           (self : t) : Info * t :=
  match read_eye_points landmarks with
  | Raise _ => (error_info self, self)
  | Ok pts =>
      let l_ear := left_ear pts in
      let r_ear := right_ear pts in
      let l_closed := Qltb l_ear (ear_threshold self) in
      let r_closed := Qltb r_ear (ear_threshold self) in
      let self' := detect_blink (l_closed && r_closed) current_time self in
      ({| blinking := blink_in_progress self';
          left_closed := l_closed;
          right_closed := r_closed;
          count := blink_count self';
          rate_per_minute := blink_rate current_time self';
          avg_duration := avg_blink_duration self';
          last_duration := blink_duration self';
          micro_sleeps := Some (micro_sleep_count self');
          durations := Some (blink_durations self');
          left_closed_ratio := l_ear;
          right_closed_ratio := r_ear |}, self')
  end.

(** A session of the detector: one call per landmark frame, each with
    its clock reading; the states after each call. *)
Fixpoint run (frames : list (Landmarks * Q)) (self : t) : list t :=
  match frames with
  | [] => []
  | (landmarks, now) :: rest =>
      let self' := snd (process_landmarks landmarks now self) in
      self' :: run rest self'
  end.

End WithMath.
End BlinkDetector.

(** ** class HeadPoseKalmanFilter *)

(** The wrapper around [cv2.KalmanFilter(6, 3)]: [kalman_update] is its
    [update(yaw, pitch, roll)] (predict, then correct), returning the new
    filter and the corrected angles. *)
Class PoseFilter : Type := {
  kalman_state : Type;
  kalman_init : kalman_state;
  kalman_update : kalman_state -> Q -> Q -> Q -> kalman_state * (Q * Q * Q)
}.

(** ** class FacialMonitoringAgent *)
Module FacialMonitoringAgent.

Inductive Direction : Type := CENTER | LEFT | RIGHT | UP | DOWN.

Definition Direction_eqb (a b : Direction) : bool :=
  match a, b with
  | CENTER, CENTER | LEFT, LEFT | RIGHT, RIGHT | UP, UP | DOWN, DOWN => true
  | _, _ => false
  end.

Inductive Emotion : Type := neutral.

(** An entry of [gaze_tracking["fixation_history"]]. *)
Record Fixation : Type := mkFixation {
  fx_point : option Point;
  fx_duration : Q;
  fx_time : Q
}.

(** The dictionary [self.gaze_tracking].  The last four keys are absent
    until they are first assigned. *)
Record GazeTracking : Type := mkGaze {
  current_x : Q;
  current_y : Q;
  fixation_point : option Point;
  fixation_start_time : Q;
  fixation_duration : Q;
  fixation_count : nat;
  total_fixation_time : Q;
  avg_fixation_time : Q;
  saccade_count : nat;
  saccade_times : list Q;
  fixation_history : list Fixation;
  screen_attention_ratio : Q;
  last_known_in_bounds : bool;
  fixation_threshold : Q;
  saccade_threshold : Q;
  prev_x : option Q;
  prev_y : option Q;
  prev_time : option Q;
  saccade_count_prev : option nat
}.

Definition init_gaze_tracking : GazeTracking :=
  {| current_x := 0; current_y := 0;
     fixation_point := None;
     fixation_start_time := 0;
     fixation_duration := 0;
     fixation_count := 0;
     total_fixation_time := 0;
     avg_fixation_time := 0;
     saccade_count := 0;
     saccade_times := [];
     fixation_history := [];
     screen_attention_ratio := 0;
     last_known_in_bounds := true;
     fixation_threshold := 5 # 100;
     saccade_threshold := 1 # 10;
     prev_x := None; prev_y := None; prev_time := None;
     saccade_count_prev := None |}.

(** The dictionary [self.blink_metrics]. *)
Record BlinkMetrics : Type := mkBlinkMetrics {
  blink_durations : list Q;
  blink_intervals : list Q;
  blink_last_time : Q;
  variability_score : Q;
  normal_pattern : bool
}.

(** Head pose variables, filtered and raw. *)
Record HeadPose : Type := mkHeadPose {
  head_yaw : Q; head_pitch : Q; head_roll : Q;
  raw_yaw : Q; raw_pitch : Q; raw_roll : Q
}.

(** Head pose calibration. *)
Record Calibration : Type := mkCalibration {
  calibrated : bool;
  calibration_samples : list (Q * Q * Q);
  calibration_yaw_offset : Q;
  calibration_pitch_offset : Q;
  calibration_roll_offset : Q;
  calibration_countdown : Q;
  calibration_start_time : Q
}.

(** Screen attention tracking and the current head direction. *)
Record ScreenAttention : Type := mkScreenAttention {
  looking_at_monitor : bool;
  screen_attention_history : list bool;   (* deque(maxlen=30) *)
  attention_threshold : Q;
  current_direction : Direction
}.

(** Previous state tracking for event detection. *)
Record Previous : Type := mkPrevious {
  prev_head_yaw : Q;
  prev_head_pitch : Q;
  prev_head_direction : Direction;
  prev_looking_at_monitor : bool
}.

(** Movement event counters. *)
Record Counters : Type := mkCounters {
  head_movement_count : nat;
  micro_movement_count : nat;
  gaze_shift_count : nat
}.

(** The sample lists of an entry of [self.trial_data]. *)
Record TrialSamples : Type := mkTrialSamples {
  gaze_on_screen_samples : list bool;
  head_direction_samples : list Direction;
  emotion_samples : list Emotion;
  attention_samples : list Q
}.

(** An entry of [self.current_trial_frames]. *)
Record TrialFrame : Type := mkTrialFrame {
  tf_trial_duration : Q;
  tf_blinks : bool;
  tf_blink_duration : Q;
  tf_gaze_on_screen : Q;
  tf_head_direction : Direction;
  tf_emotion : Emotion;
  tf_attention_score : Q;
  tf_stress_score : Q
}.

(** Trial tracking.  [current_trial_frames] is an attribute that exists
    only once it has been assigned. *)
Record Trials : Type := mkTrials {
  current_trial_id : nat;
  current_trial_start_time : Q;
  current_trial_frames : option (list TrialFrame);
  trial_data : list (nat * TrialSamples);
  is_trial_active : bool
}.

(** Performance metrics and frame skipping.  [set_processing_frequency]
    clamps the frequency to 1..10, so it is never 0. *)
Record Performance : Type := mkPerformance {
  frame_count : nat;
  frame_times : list Q;                    (* deque(maxlen=30) *)
  processing_frequency : positive;
  frame_skip_counter : nat
}.

(** The values written to one row of the CSV log, before formatting. *)
Record LogRow : Type := mkLogRow {
  row_face_detected : bool;
  row_blink_rate : Q;
  row_blink_count : nat;
  row_blink_duration_ms : Q;
  row_is_blinking : bool;
  row_micro_sleep_detected : bool;
  row_gaze_x : Q;
  row_gaze_y : Q;
  row_gaze_on_screen_ratio : Q;
  row_gaze_shift : bool;
  row_fixation_duration : Q;
  row_in_fixation : bool;
  row_fixation_count : nat;
  row_saccade_detected : bool;
  row_saccade_count : nat;
  row_pose : HeadPose;
  row_head_direction : Direction;
  row_looking_at_monitor : bool;
  row_head_movement : bool;
  row_micro_movement : bool;
  row_emotion : Emotion;
  row_attention_score : Q;
  row_stress_score : Q
}.

Section WithLibraries.
Context {M : MathLib} {K : PoseFilter}.

(** The attributes of the agent that the frame pipeline reads or writes. *)
Record t : Type := mk {
  blink_detector : BlinkDetector.t;
  current_blink : BlinkDetector.Info;
  gaze_tracking : GazeTracking;
  blink_metrics : BlinkMetrics;
  kalman_filter : kalman_state;
  use_kalman_filter : bool;
  smooth_factor : Q;
  pose : HeadPose;
  calibration : Calibration;
  yaw_threshold : Q;
  pitch_threshold : Q;
  attention : ScreenAttention;
  previous : Previous;
  counters : Counters;
  trials : Trials;
  performance : Performance;
  current_emotion : Emotion;
  show_debug_info : bool;
  face_detected : bool;
  log_file : list LogRow
}.

(** [__init__], [now] being the reading of [time.time()]. *)
Definition init (now : Q) : t :=
  {| blink_detector := BlinkDetector.init now;
     current_blink :=
       BlinkDetector.mkInfo false false false 0 0 0 0 None None 0 0;
     gaze_tracking := init_gaze_tracking;
     blink_metrics := mkBlinkMetrics [] [] 0 0 true;
     kalman_filter := kalman_init;
     use_kalman_filter := true;
     smooth_factor := 8 # 10;
     pose := mkHeadPose 0 0 0 0 0 0;
     calibration := mkCalibration false [] 0 0 0 3 0;
     yaw_threshold := 10;
     pitch_threshold := 10;
     attention := mkScreenAttention true [] (7 # 10) CENTER;
     previous := mkPrevious 0 0 CENTER true;
     counters := mkCounters 0 0 0;
     trials := mkTrials 0 0 None [] false;
     performance := mkPerformance 0 [] 1 0;
     current_emotion := neutral;
     show_debug_info := true;
     face_detected := false;
     log_file := [] |}.

(** Assignments to one attribute group. *)
Definition set_blink_detector v (s : t) : t :=
  mk v (current_blink s) (gaze_tracking s) (blink_metrics s)
     (kalman_filter s) (use_kalman_filter s) (smooth_factor s) (pose s)
     (calibration s) (yaw_threshold s) (pitch_threshold s) (attention s)
     (previous s) (counters s) (trials s) (performance s)
     (current_emotion s) (show_debug_info s) (face_detected s)
     (log_file s).
Definition set_current_blink v (s : t) : t :=
  mk (blink_detector s) v (gaze_tracking s) (blink_metrics s)
     (kalman_filter s) (use_kalman_filter s) (smooth_factor s) (pose s)
     (calibration s) (yaw_threshold s) (pitch_threshold s) (attention s)
     (previous s) (counters s) (trials s) (performance s)
     (current_emotion s) (show_debug_info s) (face_detected s)
     (log_file s).
Definition set_gaze_tracking v (s : t) : t :=
  mk (blink_detector s) (current_blink s) v (blink_metrics s)
     (kalman_filter s) (use_kalman_filter s) (smooth_factor s) (pose s)
     (calibration s) (yaw_threshold s) (pitch_threshold s) (attention s)
     (previous s) (counters s) (trials s) (performance s)
     (current_emotion s) (show_debug_info s) (face_detected s)
     (log_file s).
Definition set_blink_metrics v (s : t) : t :=
  mk (blink_detector s) (current_blink s) (gaze_tracking s) v
     (kalman_filter s) (use_kalman_filter s) (smooth_factor s) (pose s)
     (calibration s) (yaw_threshold s) (pitch_threshold s) (attention s)
     (previous s) (counters s) (trials s) (performance s)
     (current_emotion s) (show_debug_info s) (face_detected s)
     (log_file s).
Definition set_kalman_filter v (s : t) : t :=
  mk (blink_detector s) (current_blink s) (gaze_tracking s)
     (blink_metrics s) v (use_kalman_filter s) (smooth_factor s) (pose s)
     (calibration s) (yaw_threshold s) (pitch_threshold s) (attention s)
     (previous s) (counters s) (trials s) (performance s)
     (current_emotion s) (show_debug_info s) (face_detected s)
     (log_file s).
Definition set_pose v (s : t) : t :=
  mk (blink_detector s) (current_blink s) (gaze_tracking s)
     (blink_metrics s) (kalman_filter s) (use_kalman_filter s)
     (smooth_factor s) v (calibration s) (yaw_threshold s)
     (pitch_threshold s) (attention s) (previous s) (counters s)
     (trials s) (performance s) (current_emotion s) (show_debug_info s)
     (face_detected s) (log_file s).
Definition set_calibration v (s : t) : t :=
  mk (blink_detector s) (current_blink s) (gaze_tracking s)
     (blink_metrics s) (kalman_filter s) (use_kalman_filter s)
     (smooth_factor s) (pose s) v (yaw_threshold s) (pitch_threshold s)
     (attention s) (previous s) (counters s) (trials s) (performance s)
     (current_emotion s) (show_debug_info s) (face_detected s)
     (log_file s).
Definition set_attention v (s : t) : t :=
  mk (blink_detector s) (current_blink s) (gaze_tracking s)
     (blink_metrics s) (kalman_filter s) (use_kalman_filter s)
     (smooth_factor s) (pose s) (calibration s) (yaw_threshold s)
     (pitch_threshold s) v (previous s) (counters s) (trials s)
     (performance s) (current_emotion s) (show_debug_info s)
     (face_detected s) (log_file s).
Definition set_previous v (s : t) : t :=
  mk (blink_detector s) (current_blink s) (gaze_tracking s)
     (blink_metrics s) (kalman_filter s) (use_kalman_filter s)
     (smooth_factor s) (pose s) (calibration s) (yaw_threshold s)
     (pitch_threshold s) (attention s) v (counters s) (trials s)
     (performance s) (current_emotion s) (show_debug_info s)
     (face_detected s) (log_file s).
Definition set_counters v (s : t) : t :=
  mk (blink_detector s) (current_blink s) (gaze_tracking s)
     (blink_metrics s) (kalman_filter s) (use_kalman_filter s)
     (smooth_factor s) (pose s) (calibration s) (yaw_threshold s)
     (pitch_threshold s) (attention s) (previous s) v (trials s)
     (performance s) (current_emotion s) (show_debug_info s)
     (face_detected s) (log_file s).
Definition set_trials v (s : t) : t :=
  mk (blink_detector s) (current_blink s) (gaze_tracking s)
     (blink_metrics s) (kalman_filter s) (use_kalman_filter s)
     (smooth_factor s) (pose s) (calibration s) (yaw_threshold s)
     (pitch_threshold s) (attention s) (previous s) (counters s) v
     (performance s) (current_emotion s) (show_debug_info s)
     (face_detected s) (log_file s).
Definition set_performance v (s : t) : t :=
  mk (blink_detector s) (current_blink s) (gaze_tracking s)
     (blink_metrics s) (kalman_filter s) (use_kalman_filter s)
     (smooth_factor s) (pose s) (calibration s) (yaw_threshold s)
     (pitch_threshold s) (attention s) (previous s) (counters s)
     (trials s) v (current_emotion s) (show_debug_info s)
     (face_detected s) (log_file s).
Definition set_current_emotion v (s : t) : t :=
  mk (blink_detector s) (current_blink s) (gaze_tracking s)
     (blink_metrics s) (kalman_filter s) (use_kalman_filter s)
     (smooth_factor s) (pose s) (calibration s) (yaw_threshold s)
     (pitch_threshold s) (attention s) (previous s) (counters s)
     (trials s) (performance s) v (show_debug_info s) (face_detected s)
     (log_file s).
Definition set_face_detected v (s : t) : t :=
  mk (blink_detector s) (current_blink s) (gaze_tracking s)
     (blink_metrics s) (kalman_filter s) (use_kalman_filter s)
     (smooth_factor s) (pose s) (calibration s) (yaw_threshold s)
     (pitch_threshold s) (attention s) (previous s) (counters s)
     (trials s) (performance s) (current_emotion s) (show_debug_info s)
     v (log_file s).
Definition set_log_file v (s : t) : t :=
  mk (blink_detector s) (current_blink s) (gaze_tracking s)
     (blink_metrics s) (kalman_filter s) (use_kalman_filter s)
     (smooth_factor s) (pose s) (calibration s) (yaw_threshold s)
     (pitch_threshold s) (attention s) (previous s) (counters s)
     (trials s) (performance s) (current_emotion s) (show_debug_info s)
     (face_detected s) v.

(** [get_landmark_position]: a normalised landmark in pixel coordinates. *)
Definition get_landmark_position (landmarks : Landmarks) (idx : nat)
           (img_w img_h : Q) : result Point :=
  landmark <- landmark_at landmarks idx ;;
  Ok (lm_x landmark * img_w, lm_y landmark * img_h).

(** *** Calibration *)

(** [start_calibration], [now] being the reading of [time.time()]. *)
Definition start_calibration (now : Q) (self : t) : t :=
  let c := calibration self in
  set_calibration
    (mkCalibration false [] (calibration_yaw_offset c)
       (calibration_pitch_offset c) (calibration_roll_offset c)
       (calibration_countdown c) now) self.

(** The [for y, p, r in self.calibration_samples] loop: the three running
    sums, each starting at 0.0. *)
Definition sum_samples (samples : list (Q * Q * Q)) : Q * Q * Q :=
  fold_left (fun acc s =>
               let '(yaw_sum, pitch_sum, roll_sum) := acc in
               let '(y, p, r) := s in
               (yaw_sum + y, pitch_sum + p, roll_sum + r))
            samples (0, 0, 0).

(** [process_calibration(yaw, pitch, roll)]: the returned boolean and the
    agent afterwards. *)
Definition process_calibration (yaw pitch roll : Q) (current_time : Q)
           (self : t) : bool * t :=
  let c := calibration self in
  let elapsed := current_time - calibration_start_time c in
  (* If still in countdown period, collect samples *)
  if Qltb elapsed (calibration_countdown c) then
    (false,
     set_calibration
       (mkCalibration (calibrated c)
          (calibration_samples c ++ [(yaw, pitch, roll)])
          (calibration_yaw_offset c) (calibration_pitch_offset c)
          (calibration_roll_offset c) (calibration_countdown c)
          (calibration_start_time c)) self)
  (* If we have enough samples, compute average positions *)
  else if (0 <? length (calibration_samples c))%nat then
    let '(yaw_sum, pitch_sum, roll_sum) := sum_samples (calibration_samples c) in
    let n := Qnat (length (calibration_samples c)) in
    (true,
     set_calibration
       (mkCalibration true (calibration_samples c)
          (yaw_sum / n) (pitch_sum / n) (roll_sum / n)
          (calibration_countdown c) (calibration_start_time c)) self)
  else (false, self).

(** *** Head pose *)

(** [detect_head_pose]: raw yaw, pitch and roll from the landmark geometry.
    [None] stands for a falsy [landmarks] argument. *)
Definition detect_head_pose (landmarks : option Landmarks) (img_w img_h : Q)
           (self : t) : result ((Q * Q * Q) * t) :=
  match landmarks with
  | None => Ok ((0, 0, 0), set_face_detected false self)
  | Some landmarks =>
      let self := set_face_detected true self in
      left_eye <- get_landmark_position landmarks 33 img_w img_h ;;
      left_eye2 <- get_landmark_position landmarks 133 img_w img_h ;;
      right_eye <- get_landmark_position landmarks 362 img_w img_h ;;
      right_eye2 <- get_landmark_position landmarks 263 img_w img_h ;;
      nose <- get_landmark_position landmarks 4 img_w img_h ;;
      left_mouth <- get_landmark_position landmarks 61 img_w img_h ;;
      right_mouth <- get_landmark_position landmarks 291 img_w img_h ;;
      let left_eye_center :=
        ((fst left_eye + fst left_eye2) / 2, (snd left_eye + snd left_eye2) / 2) in
      let right_eye_center :=
        ((fst right_eye + fst right_eye2) / 2,
         (snd right_eye + snd right_eye2) / 2) in
      (* Roll (tilting head) - angle between eyes *)
      let dx_eyes := fst right_eye_center - fst left_eye_center in
      let dy_eyes := snd right_eye_center - snd left_eye_center in
      let roll := atan2_deg dy_eyes dx_eyes in
      (* Pitch (up/down) - using nose relative to eyes and mouth *)
      let eye_center_y := (snd left_eye_center + snd right_eye_center) / 2 in
      let mouth_center_y := (snd left_mouth + snd right_mouth) / 2 in
      let face_center_y := (eye_center_y + mouth_center_y) / 2 in
      let pitch := (snd nose - face_center_y) * 2 in
      (* Yaw (left/right) - using nose relative to eyes *)
      let eye_center_x := (fst left_eye_center + fst right_eye_center) / 2 in
      let yaw := (fst nose - eye_center_x) * 2 in
      (* Apply calibration offsets if calibrated *)
      let c := calibration self in
      if calibrated c
      then Ok ((yaw - calibration_yaw_offset c,
                pitch - calibration_pitch_offset c,
                roll - calibration_roll_offset c), self)
      else Ok ((yaw, pitch, roll), self)
  end.

(** *** Gaze tracking *)

(** The fixation and saccade part of [process_eye_metrics]: the statement
    [if gaze_distance < fixation_threshold or is_blinking: ... else: ...]. *)
Definition detect_fixation (gaze_distance : Q) (gaze_x gaze_y : Q)
           (current_time : Q) (is_blinking : bool) (g : GazeTracking)
  : GazeTracking :=
  let update fp fstart fdur fcount ftotal favg scount stimes fhist :=
    mkGaze (current_x g) (current_y g) fp fstart fdur fcount ftotal favg
           scount stimes fhist (screen_attention_ratio g)
           (last_known_in_bounds g) (fixation_threshold g)
           (saccade_threshold g) (prev_x g) (prev_y g) (prev_time g)
           (saccade_count_prev g) in
  if Qltb gaze_distance (fixation_threshold g) || is_blinking then
    (* We're in a fixation *)
    match fixation_point g with
    | None =>
        (* Start of a new fixation (don't start during a blink) *)
        if negb is_blinking then
          update (Some (gaze_x, gaze_y)) current_time (fixation_duration g)
                 (fixation_count g) (total_fixation_time g)
                 (avg_fixation_time g) (saccade_count g) (saccade_times g)
                 (fixation_history g)
        else g
    | Some _ =>
        (* Continue existing fixation *)
        update (fixation_point g) (fixation_start_time g)
               (current_time - fixation_start_time g)
               (fixation_count g) (total_fixation_time g)
               (avg_fixation_time g) (saccade_count g) (saccade_times g)
               (fixation_history g)
    end
  else
    (* Not in a fixation.  If we were in a fixation, record it *)
    let '(fcount, ftotal, favg, fhist) :=
      if Qltb (1 # 10) (fixation_duration g) then
        let fcount := S (fixation_count g) in
        let ftotal := total_fixation_time g + fixation_duration g in
        (fcount, ftotal,
         (if (0 <? fcount)%nat then ftotal / Qnat fcount
          else avg_fixation_time g),
         fixation_history g ++
           [mkFixation (fixation_point g) (fixation_duration g)
                       (fixation_start_time g)])
      else (fixation_count g, total_fixation_time g, avg_fixation_time g,
            fixation_history g) in
    (* Detect saccade (rapid eye movement) *)
    let '(scount, stimes) :=
      if Qltb (saccade_threshold g) gaze_distance
      then (S (saccade_count g), saccade_times g ++ [current_time])
      else (saccade_count g, saccade_times g) in
    (* Reset fixation *)
    update None (fixation_start_time g) 0 fcount ftotal favg scount stimes
           fhist.

(** [True] and [False] as the numbers 1 and 0. *)
Definition Qbool (b : bool) : Q := if b then 1 else 0.

(** The screen attention part of [process_eye_metrics]: the in-bounds test
    and the exponential moving average. *)
Definition update_screen_attention (gaze_x gaze_y : Q) (is_blinking : bool)
           (direction : Direction) (g : GazeTracking) : GazeTracking :=
  let in_screen_bounds :=
    Qle_bool (Qabs gaze_x) 1 && Qle_bool (Qabs gaze_y) 1 in
  let in_screen_bounds :=
    if Direction_eqb direction CENTER
    then in_screen_bounds
         || (Qle_bool (Qabs gaze_x) (12 # 10) && Qle_bool (Qabs gaze_y) (12 # 10))
    else in_screen_bounds in
  let in_screen_bounds :=
    if is_blinking && last_known_in_bounds g then true else in_screen_bounds in
  let current_ratio := screen_attention_ratio g in
  let alpha := 5 # 100 in
  mkGaze (current_x g) (current_y g) (fixation_point g)
         (fixation_start_time g) (fixation_duration g) (fixation_count g)
         (total_fixation_time g) (avg_fixation_time g) (saccade_count g)
         (saccade_times g) (fixation_history g)
         (current_ratio * (1 - alpha) + Qbool in_screen_bounds * alpha)
         in_screen_bounds (fixation_threshold g) (saccade_threshold g)
         (prev_x g) (prev_y g) (prev_time g) (saccade_count_prev g).

(** Assignments to [current_x]/[current_y] and to [prev_x]/[prev_y]/
    [prev_time]. *)
Definition store_current_gaze (gaze_x gaze_y : Q) (g : GazeTracking)
  : GazeTracking :=
  mkGaze gaze_x gaze_y (fixation_point g)
         (fixation_start_time g) (fixation_duration g) (fixation_count g)
         (total_fixation_time g) (avg_fixation_time g) (saccade_count g)
         (saccade_times g) (fixation_history g) (screen_attention_ratio g)
         (last_known_in_bounds g) (fixation_threshold g) (saccade_threshold g)
         (prev_x g) (prev_y g) (prev_time g) (saccade_count_prev g).

Definition store_previous_gaze (gaze_x gaze_y current_time : Q)
           (g : GazeTracking) : GazeTracking :=
  mkGaze (current_x g) (current_y g) (fixation_point g)
         (fixation_start_time g) (fixation_duration g) (fixation_count g)
         (total_fixation_time g) (avg_fixation_time g) (saccade_count g)
         (saccade_times g) (fixation_history g) (screen_attention_ratio g)
         (last_known_in_bounds g) (fixation_threshold g) (saccade_threshold g)
         (Some gaze_x) (Some gaze_y) (Some current_time)
         (saccade_count_prev g).

(** Everything [process_eye_metrics] does to [self.gaze_tracking] once the
    combined gaze is known. *)
Definition track_gaze (gaze_x gaze_y : Q) (current_time : Q)
           (is_blinking : bool) (direction : Direction) (g : GazeTracking)
  : GazeTracking :=
  let g := store_current_gaze gaze_x gaze_y g in
  let prev_gaze_x := match prev_x g with Some x => x | None => gaze_x end in
  let prev_gaze_y := match prev_y g with Some y => y | None => gaze_y end in
  let gaze_distance :=
    sqrtQ ((gaze_x - prev_gaze_x) ^ 2 + (gaze_y - prev_gaze_y) ^ 2) in
  let g := detect_fixation gaze_distance gaze_x gaze_y current_time
                           is_blinking g in
  let g := update_screen_attention gaze_x gaze_y is_blinking direction g in
  store_previous_gaze gaze_x gaze_y current_time g.

(** The relative iris position in one eye box, (0, 0) for a degenerate box. *)
Definition eye_gaze (outer top bottom inner iris_center : Point) : Q * Q :=
  let eye_width := fst inner - fst outer in
  let eye_height := snd bottom - snd top in
  if Qltb 0 eye_width && Qltb 0 eye_height
  then (2 * (fst iris_center - fst outer) / eye_width - 1,
        2 * (snd iris_center - snd top) / eye_height - 1)
  else (0, 0).

(** The first part of [process_eye_metrics]: the combined gaze (average of
    both eyes) from the eye and iris landmarks.  Only the iris reads are
    inside a [try]. *)
Definition estimate_gaze (landmarks : Landmarks) (img_w img_h : Q)
  : result (Q * Q) :=
  let pos idx := get_landmark_position landmarks idx img_w img_h in
  l_outer <- pos 33%nat ;;
  l_top <- pos 159%nat ;;
  l_bottom <- pos 145%nat ;;
  l_inner <- pos 133%nat ;;
  r_outer <- pos 362%nat ;;
  r_top <- pos 386%nat ;;
  r_bottom <- pos 374%nat ;;
  r_inner <- pos 263%nat ;;
  (* Get iris landmarks if available, else the eye-box centres *)
  let '(left_iris_center, right_iris_center) :=
    match (l <- pos 468%nat ;; r <- pos 473%nat ;; Ok (l, r)) with
    | Ok irises => irises
    | Raise _ =>
        (((fst l_outer + fst l_inner) / 2, (snd l_top + snd l_bottom) / 2),
         ((fst r_outer + fst r_inner) / 2, (snd r_top + snd r_bottom) / 2))
    end in
  let '(left_gaze_x, left_gaze_y) :=
    eye_gaze l_outer l_top l_bottom l_inner left_iris_center in
  let '(right_gaze_x, right_gaze_y) :=
    eye_gaze r_outer r_top r_bottom r_inner right_iris_center in
  (* For the left eye the x-axis is inverted, so positive means right *)
  Ok ((right_gaze_x - left_gaze_x) / 2, (right_gaze_y + left_gaze_y) / 2).

(** [process_eye_metrics]: gaze direction, fixations, saccades and the
    screen attention ratio.  [None] stands for a falsy [landmarks].  Every
    landmark read comes before the first assignment to
    [self.gaze_tracking]. *)
Definition process_eye_metrics (landmarks : option Landmarks)
           (img_w img_h : Q) (current_time : Q) (self : t) : result t :=
  match landmarks with
  | None => Ok self
  | Some landmarks =>
      ' (gaze_x, gaze_y) <- estimate_gaze landmarks img_w img_h ;;
      Ok (set_gaze_tracking
            (track_gaze gaze_x gaze_y current_time
                        (BlinkDetector.blinking (current_blink self))
                        (current_direction (attention self))
                        (gaze_tracking self)) self)
  end.

(** *** Head direction and screen attention *)

(** [sum(history)] over booleans: [True] counts 1. *)
Definition sum_bools (l : list bool) : nat :=
  fold_left (fun acc (b : bool) => if b then S acc else acc) l 0%nat.

(** [sum(history) / len(history)]. *)
Definition attention_ratio (history : list bool) : Q :=
  Qnat (sum_bools history) / Qnat (length history).

(** [maxlen] of [self.screen_attention_history] and of [self.frame_times]. *)
Definition history_maxlen : nat := 30.

(** The raw per-frame flag: head within both thresholds. *)
Definition within_thresholds (self : t) : bool :=
  Qle_bool (Qabs (head_yaw (pose self))) (yaw_threshold self)
  && Qle_bool (Qabs (head_pitch (pose self))) (pitch_threshold self).

(** [update_head_direction]. *)
Definition update_head_direction (self : t) : t :=
  let p := pose self in
  (* Check pitch (up/down) *)
  let new_direction :=
    if Qltb (head_pitch p) (- pitch_threshold self) then UP
    else if Qltb (pitch_threshold self) (head_pitch p) then DOWN
    else CENTER in
  (* Check yaw (left/right) - takes precedence over up/down *)
  let new_direction :=
    if Qltb (head_yaw p) (- yaw_threshold self) then LEFT
    else if Qltb (yaw_threshold self) (head_yaw p) then RIGHT
    else new_direction in
  let a := attention self in
  let c := counters self in
  (* Detect head movement events *)
  let head_movements :=
    if negb (Direction_eqb new_direction (current_direction a))
    then S (head_movement_count c) else head_movement_count c in
  (* Detect micro movements (small movements within threshold) *)
  let yaw_diff := Qabs (head_yaw p - prev_head_yaw (previous self)) in
  let pitch_diff := Qabs (head_pitch p - prev_head_pitch (previous self)) in
  let micro_movements :=
    if (Qltb 1 yaw_diff && Qltb yaw_diff (yaw_threshold self))
       || (Qltb 1 pitch_diff && Qltb pitch_diff (pitch_threshold self))
    then S (micro_movement_count c) else micro_movement_count c in
  (* Determine if looking at monitor (within thresholds) *)
  let looking := within_thresholds self in
  (* Detect gaze shift events *)
  let gaze_shifts :=
    if negb (Bool.eqb looking (looking_at_monitor a))
    then S (gaze_shift_count c) else gaze_shift_count c in
  (* Update attention history *)
  let history := deque_append history_maxlen looking (screen_attention_history a) in
  (* Calculate current attention status *)
  let looking_at_monitor' :=
    if (0 <? length history)%nat
    then Qle_bool (attention_threshold a) (attention_ratio history)
    else looking_at_monitor a in
  let self := set_counters (mkCounters head_movements micro_movements gaze_shifts) self in
  let self :=
    set_attention
      (mkScreenAttention looking_at_monitor' history (attention_threshold a)
                         new_direction) self in
  (* Save previous values for next comparison *)
  set_previous
    (mkPrevious (head_yaw p) (head_pitch p) new_direction looking_at_monitor')
    self.

(** *** Scores *)

(** Blink rate normalcy, as both [log_data] and [calculate_attention_score]
    compute it: an [if] with an [elif]. *)
Definition blink_normalcy (blink_rate : Q) : Q :=
  if Qltb blink_rate 10 || Qltb 30 blink_rate then 10      (* Too few or too many *)
  else if Qltb blink_rate 5 || Qltb 40 blink_rate then 5   (* Extreme cases *)
  else 20.

(** Head stillness in [log_data]. *)
Definition head_stillness (direction : Direction) (moved : bool) : Q :=
  let stillness := if Direction_eqb direction CENTER then 30 else 15 in
  if moved then py_max 0 (stillness - 10) else stillness.

(** The micro-movement flag of [log_data]: jitter between 1 and 3 degrees. *)
Definition micro_movement (self : t) : bool :=
  let yaw_diff := Qabs (head_yaw (pose self) - prev_head_yaw (previous self)) in
  let pitch_diff :=
    Qabs (head_pitch (pose self) - prev_head_pitch (previous self)) in
  (Qltb 1 yaw_diff && Qltb yaw_diff 3) || (Qltb 1 pitch_diff && Qltb pitch_diff 3).

(** The head-movement flag of [log_data]: the direction changed. *)
Definition head_movement (self : t) : bool :=
  negb (Direction_eqb (current_direction (attention self))
                      (prev_head_direction (previous self))).

(** The gaze-shift flag of [log_data]. *)
Definition gaze_shift (self : t) : bool :=
  negb (Bool.eqb (looking_at_monitor (attention self))
                 (prev_looking_at_monitor (previous self))).

(** The attention score [log_data] writes. *)
Definition attention_score (self : t) : Q :=
  let gaze_attention := screen_attention_ratio (gaze_tracking self) * 50 in
  let stillness :=
    head_stillness (current_direction (attention self))
                   (head_movement self || micro_movement self) in
  let normalcy :=
    blink_normalcy (BlinkDetector.rate_per_minute (current_blink self)) in
  py_min 100 (gaze_attention + stillness + normalcy).

(** The stress score [log_data] writes. *)
Definition stress_score (self : t) : Q :=
  let blink_rate := BlinkDetector.rate_per_minute (current_blink self) in
  let micro_sleep_detected :=
    Qltb 400 (BlinkDetector.last_duration (current_blink self)) in
  let stress_from_microsleeps := if micro_sleep_detected then 30 else 0 in
  let blink_stress := 0 in
  let blink_stress :=
    if Qltb blink_rate 5 || Qltb 30 blink_rate then 15 else blink_stress in
  let blink_stress :=
    if Qltb blink_rate 3 || Qltb 40 blink_rate then 30 else blink_stress in
  let movement_stress :=
    Qbool (micro_movement self) * 20
    + (if head_movement self then 20 else 0) in
  py_min 100 (stress_from_microsleeps + blink_stress + movement_stress).

(** [calculate_attention_score]: the session-level score, with no movement
    penalty. *)
Definition calculate_attention_score (self : t) : Q :=
  let gaze_attention := screen_attention_ratio (gaze_tracking self) * 50 in
  let stillness :=
    if Direction_eqb (current_direction (attention self)) CENTER
    then 30 else 15 in
  let normalcy :=
    blink_normalcy (BlinkDetector.rate_per_minute (current_blink self)) in
  py_min 100 (gaze_attention + stillness + normalcy).

(** *** Logging *)

(** [gaze_tracking['saccade_count_prev'] = gaze_tracking.get('saccade_count', 0)]:
    the saccade count as of the last logged row. *)
Definition remember_saccade_count (g : GazeTracking) : GazeTracking :=
  mkGaze (current_x g) (current_y g) (fixation_point g)
         (fixation_start_time g) (fixation_duration g) (fixation_count g)
         (total_fixation_time g) (avg_fixation_time g) (saccade_count g)
         (saccade_times g) (fixation_history g) (screen_attention_ratio g)
         (last_known_in_bounds g) (fixation_threshold g) (saccade_threshold g)
         (prev_x g) (prev_y g) (prev_time g) (Some (saccade_count g)).

(** [log_data]: one row appended to the CSV log, the previous values
    refreshed, and a frame stored for the running trial. *)
Definition log_data (now : Q) (self : t) : t :=
  let g := gaze_tracking self in
  let b := current_blink self in
  let score := attention_score self in
  let stress := stress_score self in
  let row :=
    {| row_face_detected := face_detected self;
       row_blink_rate := BlinkDetector.rate_per_minute b;
       row_blink_count := BlinkDetector.count b;
       row_blink_duration_ms := BlinkDetector.last_duration b;
       row_is_blinking := BlinkDetector.blinking b;
       row_micro_sleep_detected := Qltb 400 (BlinkDetector.last_duration b);
       row_gaze_x := current_x g;
       row_gaze_y := current_y g;
       row_gaze_on_screen_ratio := screen_attention_ratio g;
       row_gaze_shift := gaze_shift self;
       row_fixation_duration := fixation_duration g;
       row_in_fixation := Qltb (1 # 10) (fixation_duration g);
       row_fixation_count := fixation_count g;
       row_saccade_detected :=
         (match saccade_count_prev g with Some n => n | None => 0%nat end
          <? saccade_count g)%nat;
       row_saccade_count := saccade_count g;
       row_pose := pose self;
       row_head_direction := current_direction (attention self);
       row_looking_at_monitor := looking_at_monitor (attention self);
       row_head_movement := head_movement self;
       row_micro_movement := micro_movement self;
       row_emotion := current_emotion self;
       row_attention_score := score;
       row_stress_score := stress |} in
  let self' := set_log_file (log_file self ++ [row]) self in
  (* Update previous values for next comparison *)
  let self' := set_gaze_tracking (remember_saccade_count g) self' in
  let self' :=
    set_previous
      (mkPrevious (head_yaw (pose self)) (head_pitch (pose self))
                  (current_direction (attention self))
                  (looking_at_monitor (attention self))) self' in
  (* If this is during a trial, store data for trial summary *)
  let tr := trials self in
  if (0 <? current_trial_id tr)%nat && Qltb 0 (current_trial_start_time tr) then
    let frame_data :=
      mkTrialFrame (now - current_trial_start_time tr)
                   (BlinkDetector.blinking b) (BlinkDetector.last_duration b)
                   (screen_attention_ratio g)
                   (current_direction (attention self))
                   (current_emotion self) score stress in
    set_trials
      (mkTrials (current_trial_id tr) (current_trial_start_time tr)
         (Some (match current_trial_frames tr with
                | Some frames => frames
                | None => []
                end ++ [frame_data]))
         (trial_data tr) (is_trial_active tr)) self'
  else self'.

(** *** Trials *)

(** [trial_data[trial_id]] replaced by [f] of it, if the key exists. *)
Fixpoint update_entry (trial_id : nat) (f : TrialSamples -> TrialSamples)
         (d : list (nat * TrialSamples)) : list (nat * TrialSamples) :=
  match d with
  | [] => []
  | (k, v) :: rest =>
      if (k =? trial_id)%nat then (k, f v) :: rest
      else (k, v) :: update_entry trial_id f rest
  end.

(** [update_trial_data]: the latest metrics appended to the sample lists of
    the active trial. *)
Definition update_trial_data (self : t) : t :=
  let tr := trials self in
  if negb (is_trial_active tr) then self
  else
    let add (samples : TrialSamples) :=
      mkTrialSamples
        (gaze_on_screen_samples samples ++ [looking_at_monitor (attention self)])
        (head_direction_samples samples ++ [current_direction (attention self)])
        (emotion_samples samples ++ [current_emotion self])
        (attention_samples samples ++ [calculate_attention_score self]) in
    set_trials
      (mkTrials (current_trial_id tr) (current_trial_start_time tr)
         (current_trial_frames tr)
         (update_entry (current_trial_id tr) add (trial_data tr))
         (is_trial_active tr)) self.

(** *** The frame pipeline *)

(** What [process_frame] uses of a video frame: its pixel size and the
    result of [face_mesh.process], the list [results.multi_face_landmarks]
    (empty or [None] when no face is found). *)
Record Frame : Type := mkFrame {
  frame_height : nat;
  frame_width : nat;
  multi_face_landmarks : list Landmarks
}.

(** The readings of [time.time()] during one call of [process_frame], in
    the order of the calls. *)
Record Clock : Type := mkClock {
  at_entry : Q;          (* process_frame, for frame_times *)
  at_calibration : Q;    (* process_calibration *)
  at_blink : Q;          (* BlinkDetector.process_landmarks *)
  at_blink_start : Q;    (* the blink variability block *)
  at_gaze : Q;           (* process_eye_metrics *)
  at_debug : Q;          (* the debug overlay, for frame_times *)
  at_log : Q             (* log_data *)
}.

(** [current_blink.update(blink_results)]: the keys of the result replace
    those of the dictionary; keys the result lacks are kept. *)
Definition dict_update (current results : BlinkDetector.Info)
  : BlinkDetector.Info :=
  BlinkDetector.mkInfo
    (BlinkDetector.blinking results) (BlinkDetector.left_closed results)
    (BlinkDetector.right_closed results) (BlinkDetector.count results)
    (BlinkDetector.rate_per_minute results)
    (BlinkDetector.avg_duration results)
    (BlinkDetector.last_duration results)
    (match BlinkDetector.micro_sleeps results with
     | Some n => Some n
     | None => BlinkDetector.micro_sleeps current
     end)
    (match BlinkDetector.durations results with
     | Some d => Some d
     | None => BlinkDetector.durations current
     end)
    (BlinkDetector.left_closed_ratio results)
    (BlinkDetector.right_closed_ratio results).

(** [numpy.mean] and [numpy.std] (population standard deviation). *)
Definition np_mean (l : list Q) : Q := py_sum l / Qnat (length l).
Definition np_std (l : list Q) : Q :=
  let m := np_mean l in
  sqrtQ (np_mean (map (fun x => (x - m) ^ 2) l)).

(** The blink variability block of [process_frame].  It runs after
    [current_blink.update], so it compares the result with itself. *)
Definition update_blink_metrics (blink_results : BlinkDetector.Info)
           (current_time : Q) (self : t) : t :=
  let now_blinking := BlinkDetector.blinking blink_results in
  let was_blinking := BlinkDetector.blinking (current_blink self) in
  let m := blink_metrics self in
  (* New blink started *)
  let m :=
    if now_blinking && negb was_blinking then
      mkBlinkMetrics
        (blink_durations m)
        (if Qltb 0 (blink_last_time m)
         then blink_intervals m ++ [current_time - blink_last_time m]
         else blink_intervals m)
        current_time (variability_score m) (normal_pattern m)
    else m in
  (* Blink just ended *)
  let m :=
    if negb now_blinking && was_blinking then
      let all_durations :=
        blink_durations m ++ [BlinkDetector.last_duration blink_results] in
      let durations := last_n 10 all_durations in
      if (3 <=? length all_durations)%nat
         && (0 <? length durations)%nat && Qltb 0 (np_mean durations)
      then
        let duration_cv := np_std durations / np_mean durations in
        mkBlinkMetrics all_durations (blink_intervals m) (blink_last_time m)
                       duration_cv (Qltb duration_cv (5 # 10))
      else
        mkBlinkMetrics all_durations (blink_intervals m) (blink_last_time m)
                       (variability_score m) (normal_pattern m)
    else m in
  set_blink_metrics m self.

(** [len(frame_times) / (frame_times[-1] - frame_times[0])], or 0.0 with
    fewer than two frame times. *)
Definition fps_of (times : list Q) : result Q :=
  if (1 <? length times)%nat
  then py_div (Qnat (length times)) (last times 0 - hd 0 times)
  else Ok 0.

(** [self.frame_times.append(now)]. *)
Definition record_frame_time (now : Q) (self : t) : t :=
  let pf := performance self in
  set_performance
    (mkPerformance (frame_count pf)
                   (deque_append history_maxlen now (frame_times pf))
                   (processing_frequency pf) (frame_skip_counter pf)) self.

(** "Process calibration if active": a first pose estimate feeds
    [process_calibration], whose return value is dropped. *)
Definition calibrate_if_active (landmarks : Landmarks) (img_w img_h : Q)
           (now : Q) (self : t) : result t :=
  if negb (calibrated (calibration self))
     && Qltb 0 (calibration_start_time (calibration self))
  then
    ' (raw, self) <- detect_head_pose (Some landmarks) img_w img_h self ;;
    let '(raw_yaw, raw_pitch, raw_roll) := raw in
    Ok (snd (process_calibration raw_yaw raw_pitch raw_roll now self))
  else Ok self.

(** "Apply Kalman filtering if enabled", else the EMA fallback; the raw
    pose is stored as well. *)
Definition smooth_pose (yaw pitch roll : Q) (self : t) : t :=
  if use_kalman_filter self then
    let '(filter, (f_yaw, f_pitch, f_roll)) :=
      kalman_update (kalman_filter self) yaw pitch roll in
    set_pose (mkHeadPose f_yaw f_pitch f_roll yaw pitch roll)
             (set_kalman_filter filter self)
  else
    let p := pose self in
    let k := smooth_factor self in
    set_pose
      (mkHeadPose (head_yaw p * k + yaw * (1 - k))
                  (head_pitch p * k + pitch * (1 - k))
                  (head_roll p * k + roll * (1 - k))
                  yaw pitch roll) self.

(** "Process blink detection": the detector runs, its result is merged
    into [current_blink] (the result is a non-empty dictionary, so the [if]
    is always taken), then the variability block. *)
Definition detect_blinks (landmarks : Landmarks) (clock : Clock) (self : t)
  : t :=
  let '(blink_results, detector) :=
    BlinkDetector.process_landmarks landmarks (at_blink clock)
                                    (blink_detector self) in
  let self := set_blink_detector detector self in
  let self :=
    set_current_blink (dict_update (current_blink self) blink_results) self in
  update_blink_metrics blink_results (at_blink_start clock) self.

(** The body of [if results.multi_face_landmarks:] in [process_frame]. *)
Definition process_face (landmarks : Landmarks) (frame : Frame)
           (clock : Clock) (self : t) : result t :=
  let img_w := Qnat (frame_width frame) in
  let img_h := Qnat (frame_height frame) in
  self <- calibrate_if_active landmarks img_w img_h (at_calibration clock) self ;;
  (* Detect head pose *)
  ' (raw, self) <- detect_head_pose (Some landmarks) img_w img_h self ;;
  let '(yaw, pitch, roll) := raw in
  let self := smooth_pose yaw pitch roll self in
  let self := detect_blinks landmarks clock self in
  (* Process gaze tracking and eye metrics *)
  self <- process_eye_metrics (Some landmarks) img_w img_h (at_gaze clock) self ;;
  (* Update head direction and screen attention *)
  let self := update_head_direction self in
  (* Update trial data if a trial is active *)
  let self :=
    if is_trial_active (trials self) then update_trial_data self else self in
  (* Set current emotion (currently just neutral) *)
  Ok (set_current_emotion neutral self).

(** [process_frame]: the agent after the frame, or the exception that
    escapes. *)
Definition process_frame (frame : Frame) (clock : Clock) (self : t)
  : result t :=
  let pf := performance self in
  (* Frame skipping for performance optimization *)
  let skip :=
    (S (frame_skip_counter pf) mod Pos.to_nat (processing_frequency pf))%nat in
  let self :=
    set_performance
      (mkPerformance (S (frame_count pf)) (frame_times pf)
                     (processing_frequency pf) skip) self in
  let self := record_frame_time (at_entry clock) self in
  if negb (skip =? 0)%nat then
    (* For skipped frames, just add basic info and return *)
    if show_debug_info self
    then _ <- fps_of (frame_times (performance self)) ;; Ok self
    else Ok self
  else
    (* Check if face detected *)
    self <-
      match multi_face_landmarks frame with
      | landmarks :: _ => process_face landmarks frame clock self
      | [] => Ok (set_face_detected false self)
      end ;;
    (* Add debug information to frame if enabled *)
    self <-
      (if show_debug_info self then
         let self := record_frame_time (at_debug clock) self in
         _ <- fps_of (frame_times (performance self)) ;; Ok self
       else Ok self) ;;
    (* Log every 90 frames *)
    if (frame_count (performance self) mod 90 =? 0)%nat
    then Ok (log_data (at_log clock) self)
    else Ok self.

(** [set_processing_frequency]: the frequency clamped to 1..10. *)
Definition set_processing_frequency (frequency : Z) (self : t) : t :=
  let frequency :=
    if (frequency <? 1)%Z then 1%Z
    else if (10 <? frequency)%Z then 10%Z else frequency in
  let pf := performance self in
  set_performance
    (mkPerformance (frame_count pf) (frame_times pf) (Z.to_pos frequency)
                   (frame_skip_counter pf)) self.

(** A session: the frames handed to [process_frame] one after the other.
    The states after each frame, up to the first exception (which ends the
    session). *)
Fixpoint run (frames : list (Frame * Clock)) (self : t) : list t :=
  match frames with
  | [] => []
  | (frame, clock) :: rest =>
      match process_frame frame clock self with
      | Ok self' => self' :: run rest self'
      | Raise _ => []
      end
  end.

End WithLibraries.
End FacialMonitoringAgent.

(** * Vocabulary of the properties *)

(** ** Instances used to evaluate the model on concrete frames *)

(** A square root to six decimals, exact on the squares of such numbers. *)
Definition sqrt_6dp (q : Q) : Q :=
  Z.sqrt (Qnum q * 1000000000000 / Zpos (Qden q)) # 1000000.

(** A maths library with [sqrt_6dp]; the roll angle is not evaluated by any
    example and is reported as 0. *)
Definition example_math : MathLib :=
  {| sqrtQ := sqrt_6dp; atan2_deg := fun _ _ => 0 |}.

(** A filter that passes the measurement through. *)
Definition example_filter : PoseFilter :=
  {| kalman_state := unit;
     kalman_init := tt;
     kalman_update := fun _ yaw pitch roll => (tt, (yaw, pitch, roll)) |}.

(** ** Specification-side notions *)

(** The arithmetic mean of a list, as the specification words it. *)
Definition mean (l : list Q) : Q :=
  fold_right Qplus 0 l / Qnat (length l).

Definition yaw_of (s : Q * Q * Q) : Q := fst (fst s).
Definition pitch_of (s : Q * Q * Q) : Q := snd (fst s).
Definition roll_of (s : Q * Q * Q) : Q := snd s.

(** The fraction of [true] flags in a window, as the specification words
    it. *)
Definition fraction_true (window : list bool) : Q :=
  Qnat (count_occ bool_dec window true) / Qnat (length window).

(** The raw flag of a pose under the default thresholds of 10 degrees. *)
Definition raw_flag (p : Q * Q) : bool :=
  Qle_bool (Qabs (fst p)) 10 && Qle_bool (Qabs (snd p)) 10.

(** [n] poses whose raw flag repeats false, false, false, true. *)
Definition flicker (n : nat) : list (Q * Q) :=
  map (fun i => if (i mod 4 =? 3)%nat then (0, 0) else (20, 0)) (seq 0 n).


Section BlinkDetectorVocabulary.
Import BlinkDetector.

(** The order in which a session visits detector states. *)
Definition counters_le (a b : t) : Prop :=
  (blink_count a <= blink_count b)%nat
  /\ (micro_sleep_count a <= micro_sleep_count b)%nat.

End BlinkDetectorVocabulary.

Section AgentVocabulary.
Import FacialMonitoringAgent.
Context {M : MathLib} {K : PoseFilter}.

(** The driver of the head-direction examples: the filtered pose of a frame
    is stored, then the direction is updated. *)
Definition feed_pose (p : Q * Q) (self : t) : t :=
  update_head_direction
    (set_pose (mkHeadPose (fst p) (snd p) (head_roll (pose self))
                          (raw_yaw (pose self)) (raw_pitch (pose self))
                          (raw_roll (pose self))) self).

Fixpoint head_trace (poses : list (Q * Q)) (self : t) : list t :=
  match poses with
  | [] => []
  | p :: rest => feed_pose p self :: head_trace rest (feed_pose p self)
  end.

Definition feed_poses (poses : list (Q * Q)) (self : t) : t :=
  fold_left (fun s p => feed_pose p s) poses self.

(** The agent of a fresh session whose last reported blink rate is [rate]. *)
Definition agent_with_blink_rate (rate : Q) : t :=
  set_current_blink
    (BlinkDetector.mkInfo false false false 0 rate 0 0 None None 0 0)
    (init 0).

(** The just-ended fixation of [g] was sealed and recorded in [g']. *)
Definition fixation_recorded (g g' : GazeTracking) : Prop :=
  fixation_count g' = S (fixation_count g)
  /\ total_fixation_time g' = total_fixation_time g + fixation_duration g
  /\ avg_fixation_time g'
     = total_fixation_time g' / Qnat (fixation_count g')
  /\ fixation_history g'
     = fixation_history g
       ++ [mkFixation (fixation_point g) (fixation_duration g)
                      (fixation_start_time g)].

(** Nothing about fixations was recorded between [g] and [g']. *)
Definition nothing_recorded (g g' : GazeTracking) : Prop :=
  fixation_count g' = fixation_count g
  /\ total_fixation_time g' = total_fixation_time g
  /\ avg_fixation_time g' = avg_fixation_time g
  /\ fixation_history g' = fixation_history g.

(** [g'] has the fixation and saccade keys of [f]. *)
Definition same_events (f g' : GazeTracking) : Prop :=
  fixation_point g' = fixation_point f
  /\ fixation_start_time g' = fixation_start_time f
  /\ fixation_duration g' = fixation_duration f
  /\ fixation_count g' = fixation_count f
  /\ total_fixation_time g' = total_fixation_time f
  /\ avg_fixation_time g' = avg_fixation_time f
  /\ fixation_history g' = fixation_history f
  /\ saccade_count g' = saccade_count f
  /\ saccade_times g' = saccade_times f.

(** The distance [track_gaze] hands to the fixation detector. *)
Definition gaze_distance (gaze_x gaze_y : Q) (g : GazeTracking) : Q :=
  sqrtQ ((gaze_x - match prev_x g with Some x => x | None => gaze_x end) ^ 2
         + (gaze_y - match prev_y g with Some y => y | None => gaze_y end) ^ 2).

(** The smoothed ratio lies in the unit interval. *)
Definition ratio_in_unit (self : t) : Prop :=
  0 <= screen_attention_ratio (gaze_tracking self)
  /\ screen_attention_ratio (gaze_tracking self) <= 1.

(** The frame times kept once a processed frame has appended its two
    clock readings. *)
Definition frame_window (clock : Clock) (self : t) : list Q :=
  deque_append history_maxlen (at_debug clock)
    (deque_append history_maxlen (at_entry clock)
                  (frame_times (performance self))).

End AgentVocabulary.

(** ** Example frames and sessions *)

Section ExampleSessions.
Import FacialMonitoringAgent.

(** A frame of 478 landmarks that all coincide: both eye boxes are
    degenerate. *)
Definition collapsed_face : Landmarks := repeat (mkLandmark (1 # 2) (1 # 2)) 478.

(** A calibration run of the example agent: started at time 1, two samples
    collected (at times 1 and 2) during the countdown of 3 seconds. *)
Definition collecting_agent : FacialMonitoringAgent.t (K := example_filter) :=
  snd (FacialMonitoringAgent.process_calibration 4 2 0 2
         (snd (FacialMonitoringAgent.process_calibration 2 0 0 1
                 (FacialMonitoringAgent.start_calibration 1
                    (FacialMonitoringAgent.init 0))))).

(** A frame in which no face is found. *)
Definition no_face_frame : Frame := mkFrame 360 640 [].

(** Clock readings that advance by a tenth of a second per reading. *)
Definition tick (i : nat) : Clock :=
  let t (k : nat) := Qnat (7 * i + k) / 10 in
  mkClock (t 0%nat) (t 1%nat) (t 2%nat) (t 3%nat) (t 4%nat) (t 5%nat) (t 6%nat).

(** A session of [n] frames without a face. *)
Definition faceless_session (n : nat) : list (Frame * Clock) :=
  map (fun i => (no_face_frame, tick i)) (seq 0 n).

(** The agent after 89 frames without a face, from a fresh session. *)
Definition after_89_faceless_frames : t (K := example_filter) :=
  last (run (M := example_math) (faceless_session 89) (init 0)) (init 0).

(** Landmarks of a face: the irises sit at the given x positions and the
    upper lids at [lid_y] (the lower lids are at 0.5, the eyes are 0.1
    wide). *)
Definition face (left_iris_x right_iris_x lid_y : Q) : Landmarks :=
  map (fun i =>
         if (i =? 33)%nat then mkLandmark (3 # 10) (9 # 20)
         else if (i =? 133)%nat then mkLandmark (4 # 10) (9 # 20)
         else if (i =? 159)%nat then mkLandmark (7 # 20) lid_y
         else if (i =? 145)%nat then mkLandmark (7 # 20) (5 # 10)
         else if (i =? 362)%nat then mkLandmark (6 # 10) (9 # 20)
         else if (i =? 263)%nat then mkLandmark (7 # 10) (9 # 20)
         else if (i =? 386)%nat then mkLandmark (13 # 20) lid_y
         else if (i =? 374)%nat then mkLandmark (13 # 20) (5 # 10)
         else if (i =? 468)%nat then mkLandmark left_iris_x (9 # 20)
         else if (i =? 473)%nat then mkLandmark right_iris_x (9 # 20)
         else mkLandmark (1 # 2) (1 # 2))
      (seq 0 478).

(** Open eyes (aspect ratio 1) looking right and left, and closed eyes
    (aspect ratio 0.1). *)
Definition look_right : Landmarks := face (3 # 10) (7 # 10) (4 # 10).
Definition eyes_closed : Landmarks := face (35 # 100) (65 # 100) (49 # 100).

(** Five frames with both eyes closed, then one with open eyes, at 30
    frames per second. *)
Definition one_blink : list (Landmarks * Q) :=
  map (fun i => (eyes_closed, Qnat i / 30)) (seq 1 5)
  ++ [(look_right, 6 / 30)].





(** The combined gaze [estimate_gaze] computes for the two frames. *)
Definition right_gaze : Q * Q :=
  Eval vm_compute in
    match estimate_gaze look_right 1 1 with Ok p => p | Raise _ => (0, 0) end.


(** A fixation of 50 ms interrupted by a jump of the gaze: nothing is
    recorded and the fixation state is reset. *)
Definition short_fixation : GazeTracking :=
  mkGaze 0 0 (Some (0, 0)) 1 (5 # 100) 0 0 0 0 [] [] 0 true (5 # 100) (1 # 10)
         (Some 0) (Some 0) (Some 1) None.

End ExampleSessions.

(** ** Notions for whole sessions *)

Section BlinkSessionVocabulary.
Import BlinkDetector.
Context {M : MathLib}.

(** What the detector states of a session have in common: the start
    threshold of two frames, the blink flag as a function of the streak
    counter, and the sizes of the statistics against the blink count. *)
Definition detector_consistent (s : t) : Prop :=
  consecutive_frames s = 2%nat
  /\ blink_in_progress s = (2 <=? frames_below_threshold s)%nat
  /\ length (blink_durations s) = Nat.min 20 (blink_count s)
  /\ (length (blink_timestamps s) <= blink_count s)%nat
  /\ (micro_sleep_count s <= blink_count s)%nat.

(** Whether both eyes are closed on a frame, as the detector judges it with
    its threshold of 0.2; [None] when the eye landmarks cannot be read. *)
Definition both_eyes_closed (frame : Landmarks * Q) : option bool :=
  match read_eye_points (fst frame) with
  | Ok pts =>
      Some (Qltb (left_ear pts) (2 # 10) && Qltb (right_ear pts) (2 # 10))
  | Raise _ => None
  end.

(** The number of frames of the current streak of closed eyes: an open
    frame ends the streak, an unreadable frame neither extends nor ends
    it. *)
Definition closed_streak (frames : list (Landmarks * Q)) : nat :=
  fold_left (fun streak frame =>
               match both_eyes_closed frame with
               | Some true => S streak
               | Some false => 0%nat
               | None => streak
               end) frames 0%nat.

(** The detector after the last frame of a session. *)
Definition final_detector (frames : list (Landmarks * Q)) (self : t) : t :=
  last (run frames self) self.

End BlinkSessionVocabulary.

Section SessionVocabulary.
Import FacialMonitoringAgent.
Context {M : MathLib} {K : PoseFilter}.

(** The agent once [process_frame] has counted the frame and noted its
    time, before it looks at the frame. *)
Definition counted (clock : Clock) (self : t) : t :=
  let pf := performance self in
  record_frame_time (at_entry clock)
    (set_performance
       (mkPerformance
          (S (frame_count pf)) (frame_times pf) (processing_frequency pf)
          (S (frame_skip_counter pf) mod Pos.to_nat (processing_frequency pf)))
       self).

(** The last three steps of [process_face]: the head direction, the trial
    samples and the emotion. *)
Definition finish_face (self : t) : t :=
  let self := update_head_direction self in
  let self :=
    if is_trial_active (trials self) then update_trial_data self else self in
  set_current_emotion neutral self.

(** The previous values equal the current ones. *)
Definition previous_in_sync (self : t) : Prop :=
  previous self
  = mkPrevious (head_yaw (pose self)) (head_pitch (pose self))
               (current_direction (attention self))
               (looking_at_monitor (attention self)).

(** What the face branch of a frame leaves alone: the log, the blink
    variability metrics, the frame accounting, the display flag and the
    thresholds. *)
Definition bookkeeping_kept (s s' : t) : Prop :=
  log_file s' = log_file s
  /\ blink_metrics s' = blink_metrics s
  /\ performance s' = performance s
  /\ show_debug_info s' = show_debug_info s
  /\ yaw_threshold s' = yaw_threshold s
  /\ pitch_threshold s' = pitch_threshold s.

(** The blink count of [current_blink] is the detector's. *)
Definition blink_count_in_sync (self : t) : Prop :=
  BlinkDetector.count (current_blink self)
  = BlinkDetector.blink_count (blink_detector self).

(** A row logged with no movement event and with its scores in range. *)
Definition quiet_row (row : LogRow) : Prop :=
  row_head_movement row = false
  /\ row_micro_movement row = false
  /\ row_gaze_shift row = false
  /\ 25 <= row_attention_score row <= 100
  /\ 0 <= row_stress_score row <= 60.

(** What every agent of a session started from [__init__] satisfies. *)
Definition session_invariant (self : t) : Prop :=
  previous_in_sync self
  /\ blink_count_in_sync self
  /\ ratio_in_unit self
  /\ Forall quiet_row (log_file self)
  /\ blink_metrics self = mkBlinkMetrics [] [] 0 0 true
  /\ processing_frequency (performance self) = 1%positive
  /\ frame_skip_counter (performance self) = 0%nat
  /\ length (log_file self) = (frame_count (performance self) / 90)%nat
  /\ (length (frame_times (performance self)) <= 30)%nat.

(** The frame accounting of a session that runs at the processing
    frequency [f]. *)
Definition skipping_at (f : positive) (self : t) : Prop :=
  let pf := performance self in
  processing_frequency pf = f
  /\ frame_skip_counter pf = (frame_count pf mod Pos.to_nat f)%nat
  /\ length (log_file self)
     = (frame_count pf / Nat.lcm 90 (Pos.to_nat f))%nat.

(** The frame is due: the skip counter comes round to 0. *)
Definition frame_due (self : t) : Prop :=
  (S (frame_skip_counter (performance self))
   mod Pos.to_nat (processing_frequency (performance self)) = 0)%nat.

(** The iris of an eye lies inside its eye box (in pixels). *)
Definition iris_in_box (outer top bottom inner iris : Point) : Prop :=
  fst outer <= fst iris <= fst inner /\ snd top <= snd iris <= snd bottom.

(** Both irises of a mesh lie inside their eye boxes. *)
Definition irises_inside (landmarks : Landmarks) (w h : Q) : Prop :=
  let pos idx := get_landmark_position landmarks idx w h in
  forall lo lt lb li lir ro rt rb ri rir,
    pos 33%nat = Ok lo -> pos 159%nat = Ok lt -> pos 145%nat = Ok lb ->
    pos 133%nat = Ok li -> pos 468%nat = Ok lir ->
    pos 362%nat = Ok ro -> pos 386%nat = Ok rt -> pos 374%nat = Ok rb ->
    pos 263%nat = Ok ri -> pos 473%nat = Ok rir ->
    iris_in_box lo lt lb li lir /\ iris_in_box ro rt rb ri rir.

(** The counters and sums of the gaze dictionary agree with its
    histories. *)
Definition gaze_consistent (g : GazeTracking) : Prop :=
  fixation_count g = length (fixation_history g)
  /\ saccade_count g = length (saccade_times g)
  /\ Forall (fun f => 1 # 10 < fx_duration f /\ fx_point f <> None)
            (fixation_history g)
  /\ total_fixation_time g
     = fold_left Qplus (map fx_duration (fixation_history g)) 0
  /\ avg_fixation_time g
     = (if (0 <? fixation_count g)%nat
        then total_fixation_time g / Qnat (fixation_count g) else 0)
  /\ (fixation_point g = None -> fixation_duration g = 0).

(** The most the smoothed ratio can have gained after [n] frames. *)
Definition warm_up_bound (n : nat) : Q := 1 - (19 # 20) ^ Z.of_nat n.

(** [p'] is the pixel position of the landmark of [p] in an image [kw]
    times as wide and [kh] times as high. *)
Definition scaled_point (kw kh : Q) (p p' : Point) : Prop :=
  fst p' == kw * fst p /\ snd p' == kh * snd p.

(** A face mesh moved across the image by ([dx], [dy]). *)
Definition shift_landmarks (dx dy : Q) (landmarks : Landmarks) : Landmarks :=
  map (fun p => mkLandmark (lm_x p + dx) (lm_y p + dy)) landmarks.

(** The calls of [process_calibration] during the countdown, each with the
    same raw pose. *)
Definition collect (raw : Q * Q * Q) (times : list Q) (self : t) : t :=
  fold_left (fun s now =>
               snd (process_calibration (yaw_of raw) (pitch_of raw)
                                        (roll_of raw) now s))
            times self.

(** The same raw pose smoothed [n] times in a row. *)
Definition settle (n : nat) (yaw pitch roll : Q) (self : t) : t :=
  Nat.iter n (smooth_pose yaw pitch roll) self.

End SessionVocabulary.

(** ** Further example sessions *)

Section MoreExamples.
Import FacialMonitoringAgent.

(** A detector that saw its only blink at time 10. *)
Definition stale_detector : BlinkDetector.t :=
  BlinkDetector.mk (2 # 10) 1 false 9 100 0 2 [10] [100] 0 0.

(** The mesh of [look_right] without the iris landmarks, and one cut off
    before the right eye. *)
Definition coarse_mesh : Landmarks := firstn 468 look_right.
Definition partial_mesh : Landmarks := firstn 300 look_right.

(** The agent after 90 frames without a face, from a fresh session. *)
Definition after_90_faceless_frames : t (K := example_filter) :=
    last (run (M := example_math) (faceless_session 90) (init 0)) (init 0).

(** The agent after one frame with a face, from a fresh session. *)
Definition after_one_face_frame : t (K := example_filter) :=
    last (run (M := example_math) [(mkFrame 360 640 [look_right], tick 0)]
              (init 0)) (init 0).

(** The agent after one frame of a session set to the frequency 25. *)
Definition after_one_fast_frame : t (K := example_filter) :=
    last (run (M := example_math) (faceless_session 1)
              (set_processing_frequency 25 (init 0))) (init 0).

(** The raw pose of [look_right] in a 640 x 360 image. *)
Definition look_right_pose : Q * Q * Q :=
  Eval vm_compute in
    match detect_head_pose (M := example_math) (K := example_filter)
            (Some look_right) 640 360 (init 0) with
    | Ok (raw, _) => raw
    | Raise _ => (0, 0, 0)
    end.

(** A fresh agent with the Kalman filter switched off. *)
Definition unfiltered_agent : t (K := example_filter) :=
  let s := init 0 in
  mk (blink_detector s) (current_blink s) (gaze_tracking s) (blink_metrics s)
     (kalman_filter s) false (smooth_factor s) (pose s) (calibration s)
     (yaw_threshold s) (pitch_threshold s) (attention s) (previous s)
     (counters s) (trials s) (performance s) (current_emotion s)
     (show_debug_info s) (face_detected s) (log_file s).

End MoreExamples.

(** * Properties *)

(** ** Comparisons and Python helpers *)

Lemma Qltb_lt (x y : Q) : Qltb x y = true <-> x < y.
Proof.
  unfold Qltb. rewrite negb_true_iff.
  split; intro H.
  - apply Qnot_le_lt. intro Hle. apply Qle_bool_iff in Hle. congruence.
  - destruct (Qle_bool y x) eqn:E; [|reflexivity].
    apply Qle_bool_iff in E. lra.
Qed.

Lemma Qltb_ge (x y : Q) : Qltb x y = false <-> y <= x.
Proof.
  unfold Qltb. rewrite negb_false_iff. apply Qle_bool_iff.
Qed.

Lemma Qle_bool_gt (x y : Q) : Qle_bool x y = false <-> y < x.
Proof.
  rewrite <- Qltb_lt. unfold Qltb. now rewrite negb_true_iff.
Qed.

(** Case analysis on a float comparison, with the ordering fact in hand. *)
Ltac case_Qltb x y :=
  let E := fresh "E" in
  destruct (Qltb x y) eqn:E;
  [apply Qltb_lt in E | apply Qltb_ge in E].

Lemma length_last_n {A} (n : nat) (l : list A) :
  length (last_n n l) = Nat.min n (length l).
Proof.
  unfold last_n. rewrite length_skipn. lia.
Qed.

Lemma length_deque_append {A} (maxlen : nat) (x : A) (d : list A) :
  length (deque_append maxlen x d) = Nat.min maxlen (S (length d)).
Proof.
  unfold deque_append. rewrite length_last_n, length_app. simpl.
  f_equal. lia.
Qed.

(** ** The example square root *)

Lemma example_math_ok : MathLibOk example_math.
Proof.
  intro x. simpl. unfold sqrt_6dp, Qle. simpl.
  pose proof (Z.sqrt_nonneg (Qnum x * 1000000000000 / Z.pos (Qden x))). lia.
Qed.

(** ** The blink detector *)

Section BlinkDetectorFacts.
Import BlinkDetector.
Context {M : MathLib}.

Lemma eye_aspect_ratio_degenerate (w h : Q) :
  w <= 0 -> eye_aspect_ratio w h = 0.
Proof.
  intro Hw. unfold eye_aspect_ratio.
  case_Qltb 0 w; [lra | reflexivity].
Qed.

Lemma eye_aspect_ratio_nonneg (w h : Q) :
  0 <= h -> 0 <= eye_aspect_ratio w h.
Proof.
  intro Hh. unfold eye_aspect_ratio.
  case_Qltb 0 w; [|lra].
  apply Qle_shift_div_l; [assumption | lra].
Qed.

Lemma distance_nonneg {OK : MathLibOk M} (p q : Point) : 0 <= distance p q.
Proof.
  destruct p as [x1 y1], q as [x2 y2]. unfold distance. apply sqrtQ_nonneg.
Qed.

(** One frame never lowers a counter. *)
Lemma detect_blink_monotone (both_closed : bool) (now : Q) (self : t) :
  (blink_count self <= blink_count (detect_blink both_closed now self))%nat
  /\ (micro_sleep_count self
      <= micro_sleep_count (detect_blink both_closed now self))%nat.
Proof.
  unfold detect_blink.
  destruct both_closed.
  - destruct (negb (blink_in_progress self)
              && (consecutive_frames self <=? S (frames_below_threshold self))%nat);
      simpl; lia.
  - destruct (blink_in_progress self); simpl; [|lia].
    destruct (Qltb 400 ((now - blink_start_time self) * 1000)); lia.
Qed.

Lemma process_landmarks_monotone (landmarks : Landmarks) (now : Q) (self : t) :
  let self' := snd (process_landmarks landmarks now self) in
  (blink_count self <= blink_count self')%nat
  /\ (micro_sleep_count self <= micro_sleep_count self')%nat.
Proof.
  unfold process_landmarks.
  destruct (read_eye_points landmarks) as [pts|e]; simpl.
  - apply detect_blink_monotone.
  - lia.
Qed.

Lemma counters_le_trans (a b c : t) :
  counters_le a b -> counters_le b c -> counters_le a c.
Proof.
  unfold counters_le. lia.
Qed.

Lemma run_above_start (frames : list (Landmarks * Q)) (self : t) :
  Forall (counters_le self) (run frames self).
Proof.
  revert self. induction frames as [|[landmarks now] rest IH]; intro self.
  - constructor.
  - simpl. constructor.
    + apply process_landmarks_monotone.
    + eapply Forall_impl; [|apply IH].
      intros s Hs. eapply counters_le_trans; [|exact Hs].
      apply process_landmarks_monotone.
Qed.

(** C2. For every landmark frame handed to the blink detector, both eye
    aspect ratios it reports are non-negative rationals (hence finite), and
    the ratio of an eye whose width is not positive is exactly 0: the
    division is guarded. *)
Theorem eye_aspect_ratios_well_defined {OK : MathLibOk M}
        (landmarks : Landmarks) (now : Q) (self : t) :
  let info := fst (process_landmarks landmarks now self) in
  0 <= left_closed_ratio info
  /\ 0 <= right_closed_ratio info
  /\ forall pts, read_eye_points landmarks = Ok pts ->
       left_closed_ratio info = left_ear pts
       /\ right_closed_ratio info = right_ear pts
       /\ (distance (left_eye_left_pt pts) (left_eye_right_pt pts) <= 0 ->
           left_closed_ratio info = 0)
       /\ (distance (right_eye_left_pt pts) (right_eye_right_pt pts) <= 0 ->
           right_closed_ratio info = 0).
Proof.
  unfold process_landmarks.
  destruct (read_eye_points landmarks) as [pts|e]; simpl.
  - repeat split.
    + apply eye_aspect_ratio_nonneg, distance_nonneg.
    + apply eye_aspect_ratio_nonneg, distance_nonneg.
    + injection H as <-. reflexivity.
    + injection H as <-. reflexivity.
    + injection H as <-. now apply eye_aspect_ratio_degenerate.
    + injection H as <-. now apply eye_aspect_ratio_degenerate.
  - repeat split; try lra; discriminate.
Qed.

(** C4. Over any sequence of frames of one session, [blink_count] and
    [micro_sleep_count] never decrease: in the list of detector states the
    session goes through, every state is below all later ones. *)
Theorem blink_counters_never_decrease (frames : list (Landmarks * Q))
        (self : t) :
  StronglySorted counters_le (self :: run frames self).
Proof.
  revert self. induction frames as [|[landmarks now] rest IH]; intro self.
  - repeat constructor.
  - constructor.
    + apply IH.
    + apply (run_above_start ((landmarks, now) :: rest)).
Qed.

(** C10. Whenever reading the eye landmarks fails (the only statements of
    the [try] block that can raise), [process_landmarks] returns the neutral
    dictionary (not blinking, eyes open, zero ratios, rate and durations)
    with the current blink count, and the detector is left as it was: the
    exception is not propagated and no counter is reset. *)
Theorem process_landmarks_failure_is_neutral (landmarks : Landmarks) (now : Q)
        (self : t) (e : exn) :
  read_eye_points landmarks = Raise e ->
  let info := fst (process_landmarks landmarks now self) in
  blinking info = false
  /\ left_closed info = false /\ right_closed info = false
  /\ left_closed_ratio info = 0 /\ right_closed_ratio info = 0
  /\ rate_per_minute info = 0
  /\ avg_duration info = 0 /\ last_duration info = 0
  /\ count info = blink_count self
  /\ snd (process_landmarks landmarks now self) = self.
Proof.
  intro Hfail. unfold process_landmarks. rewrite Hfail. simpl.
  repeat split.
Qed.

End BlinkDetectorFacts.

(** On the collapsed face both eye widths are 0, and so are both ratios. *)
Lemma eye_aspect_ratios_well_defined_witness :
  let info :=
    fst (BlinkDetector.process_landmarks (M := example_math) collapsed_face 1
                                         (BlinkDetector.init 0)) in
  0 <= BlinkDetector.left_closed_ratio info
  /\ BlinkDetector.left_closed_ratio info = 0
  /\ BlinkDetector.right_closed_ratio info = 0.
Proof.
  destruct (eye_aspect_ratios_well_defined (OK := example_math_ok)
              collapsed_face 1 (BlinkDetector.init 0)) as (Hl & _ & Hpts).
  destruct (Hpts _ eq_refl) as (_ & _ & Hleft & Hright).
  split; [exact Hl|].
  split; [apply Hleft | apply Hright]; apply Qle_bool_iff; reflexivity.
Defined.

(** A landmark list too short to hold the eye landmarks. *)
Lemma process_landmarks_failure_is_neutral_witness :
  let result :=
    BlinkDetector.process_landmarks (M := example_math) [] 1
                                    (BlinkDetector.init 0) in
  BlinkDetector.blinking (fst result) = false
  /\ BlinkDetector.count (fst result) = 0%nat
  /\ snd result = BlinkDetector.init 0.
Proof.
  destruct (process_landmarks_failure_is_neutral (M := example_math) [] 1
              (BlinkDetector.init 0) IndexError eq_refl)
    as (Hb & _ & _ & _ & _ & _ & _ & _ & Hc & Hs).
  split; [exact Hb|]. split; [exact Hc | exact Hs].
Defined.

(** ** Calibration *)

Section CalibrationFacts.
Import FacialMonitoringAgent.
Context {K : PoseFilter}.

(** The loop of [process_calibration] adds each axis up. *)
Lemma fold_samples_sums (samples : list (Q * Q * Q)) (a b c : Q) :
  let '(ys, ps, rs) :=
    fold_left (fun acc s =>
                 let '(yaw_sum, pitch_sum, roll_sum) := acc in
                 let '(y, p, r) := s in
                 (yaw_sum + y, pitch_sum + p, roll_sum + r))
              samples (a, b, c) in
  ys == a + fold_right Qplus 0 (map yaw_of samples)
  /\ ps == b + fold_right Qplus 0 (map pitch_of samples)
  /\ rs == c + fold_right Qplus 0 (map roll_of samples).
Proof.
  revert a b c. induction samples as [|[[y p] r] rest IH]; intros a b c.
  - simpl. repeat split; lra.
  - simpl. specialize (IH (a + y) (b + p) (c + r)).
    destruct (fold_left _ rest (a + y, b + p, c + r)) as [[ys ps] rs].
    unfold yaw_of, pitch_of, roll_of in *. simpl.
    destruct IH as (Hy & Hp & Hr). repeat split; lra.
Qed.

Lemma sum_samples_sums (samples : list (Q * Q * Q)) :
  let '(ys, ps, rs) := sum_samples samples in
  ys == fold_right Qplus 0 (map yaw_of samples)
  /\ ps == fold_right Qplus 0 (map pitch_of samples)
  /\ rs == fold_right Qplus 0 (map roll_of samples).
Proof.
  unfold sum_samples.
  pose proof (fold_samples_sums samples 0 0 0) as H.
  destruct (fold_left _ samples (0, 0, 0)) as [[ys ps] rs].
  destruct H as (Hy & Hp & Hr). repeat split; lra.
Qed.

(** C6. Once the elapsed time has reached the countdown: with a non-empty
    sample buffer [process_calibration] returns true, marks the session
    calibrated and sets each offset to the arithmetic mean of that axis over
    the buffer; with an empty buffer it returns false and changes nothing
    (an uncalibrated session stays uncalibrated), and calibration can be
    started again: [start_calibration] yields an uncalibrated session with an
    empty buffer that collects the next sample. *)
Theorem process_calibration_after_countdown
        (yaw pitch roll now : Q) (self : t) :
  calibration_countdown (calibration self)
    <= now - calibration_start_time (calibration self) ->
  let samples := calibration_samples (calibration self) in
  let result := process_calibration yaw pitch roll now self in
  let after := calibration (snd result) in
  (samples <> [] ->
   fst result = true
   /\ calibrated after = true
   /\ calibration_yaw_offset after == mean (map yaw_of samples)
   /\ calibration_pitch_offset after == mean (map pitch_of samples)
   /\ calibration_roll_offset after == mean (map roll_of samples))
  /\ (samples = [] ->
      fst result = false
      /\ snd result = self
      /\ forall restart later y p r,
          let again := start_calibration restart self in
          calibrated (calibration again) = false
          /\ calibration_samples (calibration again) = []
          /\ (later - restart < calibration_countdown (calibration self) ->
              let retry := process_calibration y p r later again in
              fst retry = false
              /\ calibration_samples (calibration (snd retry)) = [(y, p, r)])).
Proof.
  intros Helapsed samples result after.
  subst after result. unfold process_calibration.
  case_Qltb (now - calibration_start_time (calibration self))
            (calibration_countdown (calibration self)); [lra|].
  fold samples. split.
  - intro Hne.
    destruct samples as [|s rest] eqn:Es; [congruence|].
    rewrite <- Es.
    replace (0 <? length samples)%nat with true
      by (rewrite Es; reflexivity).
    pose proof (sum_samples_sums samples) as Hsum.
    destruct (sum_samples samples) as [[ys ps] rs]. simpl.
    destruct Hsum as (Hy & Hp & Hr).
    unfold mean. rewrite !length_map.
    repeat split.
    + now rewrite Hy.
    + now rewrite Hp.
    + now rewrite Hr.
  - intro Hempty. rewrite Hempty. simpl.
    repeat split.
    + unfold start_calibration in *. simpl in *.
      case_Qltb (later - restart) (calibration_countdown (calibration self));
        [reflexivity | lra].
    + unfold start_calibration in *. simpl in *.
      case_Qltb (later - restart) (calibration_countdown (calibration self));
        [reflexivity | lra].
Qed.

End CalibrationFacts.

(** The run of [collecting_agent] completes at time 4: the yaw offset is the
    mean of the yaw samples 2 and 4. *)
Lemma process_calibration_after_countdown_witness :
  let result :=
    FacialMonitoringAgent.process_calibration 9 9 9 4 collecting_agent in
  fst result = true
  /\ FacialMonitoringAgent.calibration_yaw_offset
       (FacialMonitoringAgent.calibration (snd result)) == 3.
Proof.
  assert (Helapsed :
    FacialMonitoringAgent.calibration_countdown
      (FacialMonitoringAgent.calibration collecting_agent)
    <= 4 - FacialMonitoringAgent.calibration_start_time
             (FacialMonitoringAgent.calibration collecting_agent))
    by (apply Qle_bool_iff; reflexivity).
  destruct (process_calibration_after_countdown 9 9 9 4 collecting_agent
              Helapsed) as [Hfull _].
  destruct Hfull as (Hret & _ & Hyaw & _); [discriminate|].
  split; [exact Hret|].
  rewrite Hyaw. reflexivity.
Defined.

(** ** Head direction and the hysteretic [looking_at_monitor] *)

Lemma last_n_all {A} (n : nat) (l : list A) :
  (length l <= n)%nat -> last_n n l = l.
Proof.
  intro H. unfold last_n.
  replace (length l - n)%nat with 0%nat by lia. reflexivity.
Qed.

Lemma last_n_app_last_n {A} (n : nat) (l l2 : list A) :
  last_n n (last_n n l ++ l2) = last_n n (l ++ l2).
Proof.
  unfold last_n.
  destruct (Nat.le_gt_cases (length l) n) as [Hle|Hgt].
  - replace (length l - n)%nat with 0%nat by lia. reflexivity.
  - rewrite !length_app, length_skipn.
    rewrite !skipn_app, length_skipn, skipn_skipn.
    f_equal; f_equal; lia.
Qed.

Section HeadDirectionFacts.
Import FacialMonitoringAgent.
Context {K : PoseFilter}.

Lemma fold_sum_bools (l : list bool) (acc : nat) :
  fold_left (fun a (b : bool) => if b then S a else a) l acc
  = (acc + count_occ bool_dec l true)%nat.
Proof.
  revert acc. induction l as [|b rest IH]; intro acc; simpl.
  - lia.
  - rewrite IH. destruct b; simpl; lia.
Qed.

Lemma attention_ratio_fraction (history : list bool) :
  attention_ratio history = fraction_true history.
Proof.
  unfold attention_ratio, fraction_true, sum_bools.
  now rewrite fold_sum_bools.
Qed.

(** One update: the raw flag enters the window and the output is the
    threshold test on the window. *)
Lemma update_head_direction_window (self : t) :
  let self' := update_head_direction self in
  let window := screen_attention_history (attention self') in
  window = deque_append history_maxlen (within_thresholds self)
                        (screen_attention_history (attention self))
  /\ (0 < length window <= history_maxlen)%nat
  /\ attention_threshold (attention self') = attention_threshold (attention self)
  /\ looking_at_monitor (attention self')
     = Qle_bool (attention_threshold (attention self)) (fraction_true window).
Proof.
  unfold update_head_direction. simpl.
  set (window := deque_append history_maxlen (within_thresholds self)
                              (screen_attention_history (attention self))).
  assert (Hlen : (0 < length window <= history_maxlen)%nat).
  { subst window. rewrite length_deque_append. unfold history_maxlen. lia. }
  repeat split; try lia.
  destruct (0 <? length window)%nat eqn:E.
  - now rewrite attention_ratio_fraction.
  - apply Nat.ltb_ge in E. lia.
Qed.

Lemma feed_pose_vote (p : Q * Q) (self : t) :
  looking_at_monitor (attention (feed_pose p self))
  = Qle_bool (attention_threshold (attention self))
             (fraction_true
                (screen_attention_history (attention (feed_pose p self)))).
Proof.
  unfold feed_pose.
  apply (update_head_direction_window
           (set_pose (mkHeadPose (fst p) (snd p) (head_roll (pose self))
                        (raw_yaw (pose self)) (raw_pitch (pose self))
                        (raw_roll (pose self))) self)).
Qed.

Lemma feed_poses_snoc (poses : list (Q * Q)) (p : Q * Q) (self : t) :
  feed_poses (poses ++ [p]) self = feed_pose p (feed_poses poses self).
Proof.
  unfold feed_poses. now rewrite fold_left_app.
Qed.

(** What a session keeps fixed and what its window holds. *)
Lemma feed_poses_window (poses : list (Q * Q)) (self : t) :
  yaw_threshold self = 10 -> pitch_threshold self = 10 ->
  (length (screen_attention_history (attention self)) <= history_maxlen)%nat ->
  let self' := feed_poses poses self in
  yaw_threshold self' = 10 /\ pitch_threshold self' = 10
  /\ attention_threshold (attention self')
     = attention_threshold (attention self)
  /\ screen_attention_history (attention self')
     = last_n history_maxlen
         (screen_attention_history (attention self) ++ map raw_flag poses).
Proof.
  revert self. induction poses as [|p rest IH]; intros self Hy Hp Hlen.
  - simpl. rewrite app_nil_r, last_n_all by assumption. now repeat split.
  - cbv zeta.
    change (feed_poses (p :: rest) self)
      with (feed_poses rest (feed_pose p self)).
    change (map raw_flag (p :: rest)) with (raw_flag p :: map raw_flag rest).
    destruct (update_head_direction_window
                (set_pose (mkHeadPose (fst p) (snd p) (head_roll (pose self))
                             (raw_yaw (pose self)) (raw_pitch (pose self))
                             (raw_roll (pose self))) self))
      as (Hwin & Hbound & Hthr & _).
    fold (feed_pose p self) in Hwin, Hbound, Hthr.
    destruct (IH (feed_pose p self)) as (Hy' & Hp' & Hthr' & Hwin');
      [exact Hy | exact Hp | lia |].
    repeat split; try assumption.
    rewrite Hwin', Hwin.
    unfold within_thresholds. simpl. rewrite Hy, Hp.
    fold (raw_flag p). unfold deque_append.
    rewrite last_n_app_last_n, <- app_assoc. reflexivity.
Qed.

(** C5. After each head-direction update the window is the previous window
    with the raw flag of the frame appended, cut to the last 30 flags, and
    [looking_at_monitor] is true exactly when the fraction of true flags in
    that window reaches the attention threshold.  In a session started from
    [__init__] the threshold is 0.7 and the window holds the raw flags of
    the last 30 frames.  For 40 frames whose raw flag repeats false, false,
    false, true, [looking_at_monitor] is false after every frame. *)
Theorem looking_at_monitor_is_window_vote :
  (forall self : t,
      let self' := update_head_direction self in
      let window := screen_attention_history (attention self') in
      window = last_n 30 (screen_attention_history (attention self)
                          ++ [within_thresholds self])
      /\ (length window <= 30)%nat
      /\ (looking_at_monitor (attention self') = true
          <-> attention_threshold (attention self) <= fraction_true window))
  /\ (forall (now : Q) (poses : list (Q * Q)) (p : Q * Q),
         let self' := feed_poses (poses ++ [p]) (init now) in
         let window := screen_attention_history (attention self') in
         window = last_n 30 (map raw_flag (poses ++ [p]))
         /\ (looking_at_monitor (attention self') = true
             <-> 7 # 10 <= fraction_true window))
  /\ (forall now : Q,
         Forall (fun s => looking_at_monitor (attention s) = false)
                (head_trace (flicker 40) (init now))).
Proof.
  split; [|split].
  - intros self self' window. subst self' window.
    destruct (update_head_direction_window self) as (Hwin & Hlen & _ & Hout).
    split; [exact Hwin|].
    split; [unfold history_maxlen in Hlen; lia|].
    rewrite Hout. apply Qle_bool_iff.
  - intros now poses p self' window. subst self' window.
    destruct (feed_poses_window poses (init now)) as (Hy & Hp & Hthr & Hwin);
      [reflexivity | reflexivity | simpl; lia |].
    destruct (feed_poses_window (poses ++ [p]) (init now))
      as (_ & _ & _ & Hwin');
      [reflexivity | reflexivity | simpl; lia |].
    split; [exact Hwin'|].
    rewrite feed_poses_snoc.
    rewrite (feed_pose_vote p (feed_poses poses (init now))), Hthr.
    apply Qle_bool_iff.
  - intro now. apply Forall_forall. intros s Hs.
    apply negb_true_iff.
    revert s Hs. apply forallb_forall. vm_compute. reflexivity.
Qed.

End HeadDirectionFacts.

(** ** The attention score *)

Section ScoreFacts.
Import FacialMonitoringAgent.
Context {K : PoseFilter}.

(** The [elif] of the blink normalcy is never reached: a rate below 5 is
    below 10 and a rate above 40 is above 30. *)
Lemma blink_normalcy_values (blink_rate : Q) :
  blink_normalcy blink_rate = 10 \/ blink_normalcy blink_rate = 20.
Proof.
  unfold blink_normalcy.
  case_Qltb blink_rate 10; simpl; [now left|].
  case_Qltb 30 blink_rate; simpl; [now left|].
  case_Qltb blink_rate 5; simpl; [lra|].
  case_Qltb 40 blink_rate; simpl; [lra|].
  now right.
Qed.

(** C1, at the failing inputs.  The blink normalcy is 10 or 20 for every
    blink rate, never 5: at 2 and at 50 blinks per minute it is 10, and the
    attention score of a fresh session (ratio 0, direction CENTER, no
    movement) is then 0 + 30 + 10 = 40, both in [log_data] and in
    [calculate_attention_score]. *)
Theorem blink_normalcy_extreme_tier_unreachable :
  (forall blink_rate : Q,
      blink_normalcy blink_rate = 10 \/ blink_normalcy blink_rate = 20)
  /\ blink_normalcy 2 = 10
  /\ blink_normalcy 50 = 10
  /\ attention_score (agent_with_blink_rate 2) = 40
  /\ attention_score (agent_with_blink_rate 50) = 40
  /\ calculate_attention_score (agent_with_blink_rate 2) = 40.
Proof.
  split; [exact blink_normalcy_values|].
  repeat split; vm_compute; reflexivity.
Qed.

End ScoreFacts.

(** ** The gaze tracker: fixations and saccades *)

Section GazeFacts.
Import FacialMonitoringAgent.
Context {M : MathLib} {K : PoseFilter}.

Lemma detect_fixation_records (d x y now : Q) (blinking : bool)
      (g : GazeTracking) :
  let g' := detect_fixation d x y now blinking g in
  (1 # 10 < fixation_duration g /\ fixation_recorded g g')
  \/ nothing_recorded g g'.
Proof.
  unfold detect_fixation, fixation_recorded, nothing_recorded.
  destruct (Qltb d (fixation_threshold g) || blinking).
  - right. destruct (fixation_point g); [|destruct (negb blinking)];
      simpl; repeat split.
  - case_Qltb (1 # 10) (fixation_duration g).
    + left. destruct (Qltb (saccade_threshold g) d); simpl; repeat split;
        assumption.
    + right. destruct (Qltb (saccade_threshold g) d); simpl; repeat split.
Qed.

Lemma detect_fixation_short (d x y now : Q) (blinking : bool)
      (g : GazeTracking) :
  fixation_duration g <= 1 # 10 ->
  nothing_recorded g (detect_fixation d x y now blinking g).
Proof.
  intro Hshort.
  destruct (detect_fixation_records d x y now blinking g) as [[Hlong _]|H];
    [lra | exact H].
Qed.

Lemma detect_fixation_interrupted (d x y now : Q) (g : GazeTracking) :
  fixation_threshold g <= d ->
  let g' := detect_fixation d x y now false g in
  fixation_point g' = None /\ fixation_duration g' = 0.
Proof.
  intro Hfar. unfold detect_fixation.
  case_Qltb d (fixation_threshold g); [lra|]. simpl.
  destruct (Qltb (1 # 10) (fixation_duration g));
    destruct (Qltb (saccade_threshold g) d); simpl; split; reflexivity.
Qed.


(** The other steps of [track_gaze] leave the fixation and saccade keys
    alone. *)
Lemma track_gaze_events (gaze_x gaze_y now : Q) (blinking : bool)
      (direction : Direction) (g : GazeTracking) :
  same_events
    (detect_fixation (gaze_distance gaze_x gaze_y g) gaze_x gaze_y now
                     blinking g)
    (track_gaze gaze_x gaze_y now blinking direction g).
Proof.
  unfold same_events, track_gaze, gaze_distance, detect_fixation. simpl.
  destruct (Qltb _ (fixation_threshold g) || blinking).
  - destruct (fixation_point g); [|destruct (negb blinking)];
      simpl; repeat split.
  - destruct (Qltb (1 # 10) (fixation_duration g));
      destruct (Qltb (saccade_threshold g) _); simpl; repeat split.
Qed.

(** What a successful [process_eye_metrics] did to the gaze dictionary. *)
Lemma process_eye_metrics_tracks (landmarks : option Landmarks)
      (img_w img_h now : Q) (self self' : t) :
  process_eye_metrics landmarks img_w img_h now self = Ok self' ->
  self' = self
  \/ exists gaze_x gaze_y,
      self' = set_gaze_tracking
                (track_gaze gaze_x gaze_y now
                            (BlinkDetector.blinking (current_blink self))
                            (current_direction (attention self))
                            (gaze_tracking self)) self.
Proof.
  unfold process_eye_metrics.
  destruct landmarks as [landmarks|].
  - destruct (estimate_gaze landmarks img_w img_h) as [[gaze_x gaze_y]|e];
      simpl; [|discriminate].
    intro H. injection H as <-. right. now exists gaze_x, gaze_y.
  - intro H. injection H as <-. now left.
Qed.

Lemma nothing_recorded_refl (g : GazeTracking) : nothing_recorded g g.
Proof.
  now repeat split.
Qed.

(** C8. A fixation is recorded (count incremented, total and average time
    updated, entry appended to the history) only when the accumulated
    duration of the just-ended fixation is at least 100 ms; with less than
    100 ms nothing is recorded, and when such a fixation is interrupted (gaze
    distance at or above the fixation threshold, not blinking) the fixation
    state is reset.  This holds for the fixation detector and for every call
    of [process_eye_metrics] that returns. *)
Theorem fixation_recorded_only_after_100ms :
  (forall (d x y now : Q) (blinking : bool) (g : GazeTracking),
      let g' := detect_fixation d x y now blinking g in
      ((1 # 10 <= fixation_duration g /\ fixation_recorded g g')
       \/ nothing_recorded g g')
      /\ (fixation_duration g < 1 # 10 -> nothing_recorded g g')
      /\ (fixation_duration g < 1 # 10 ->
          fixation_threshold g <= d -> blinking = false ->
          nothing_recorded g g'
          /\ fixation_point g' = None /\ fixation_duration g' = 0))
  /\ (forall (landmarks : option Landmarks) (img_w img_h now : Q)
             (self self' : t),
         process_eye_metrics landmarks img_w img_h now self = Ok self' ->
         let g := gaze_tracking self in
         let g' := gaze_tracking self' in
         ((1 # 10 <= fixation_duration g /\ fixation_recorded g g')
          \/ nothing_recorded g g')
         /\ (fixation_duration g < 1 # 10 -> nothing_recorded g g')).
Proof.
  assert (Hstep : forall d x y now blinking g,
             let g' := detect_fixation d x y now blinking g in
             ((1 # 10 <= fixation_duration g /\ fixation_recorded g g')
              \/ nothing_recorded g g')
             /\ (fixation_duration g < 1 # 10 -> nothing_recorded g g')).
  { intros d x y now blinking g g'. subst g'. split.
    - destruct (detect_fixation_records d x y now blinking g) as [[Hl Hr]|Hn].
      + left. split; [lra | exact Hr].
      + now right.
    - intro Hshort. apply detect_fixation_short. lra. }
  split.
  - intros d x y now blinking g g'. subst g'.
    destruct (Hstep d x y now blinking g) as [Hany Hshort].
    split; [exact Hany|]. split; [exact Hshort|].
    intros Hlt Hfar ->. split; [now apply Hshort|].
    now apply detect_fixation_interrupted.
  - intros landmarks img_w img_h now self self' Hok g g'. subst g g'.
    destruct (process_eye_metrics_tracks _ _ _ _ _ _ Hok)
      as [->|(gaze_x & gaze_y & ->)].
    + split; [right|intros _]; apply nothing_recorded_refl.
    + simpl.
      set (b := BlinkDetector.blinking (current_blink self)).
      set (dir := current_direction (attention self)).
      set (g := gaze_tracking self).
      destruct (track_gaze_events gaze_x gaze_y now b dir g)
        as (_ & _ & _ & Hc & Ht & Ha & Hh & _ & _).
      destruct (Hstep (gaze_distance gaze_x gaze_y g) gaze_x gaze_y now b g)
        as [Hany Hshort].
      unfold fixation_recorded, nothing_recorded in *.
      rewrite Hc, Ht, Ha, Hh. split; assumption.
Qed.








End GazeFacts.

(** ** The frame pipeline *)

Section FrameFacts.
Import FacialMonitoringAgent.
Context {M : MathLib} {K : PoseFilter}.
Local Arguments Nat.modulo : simpl never.

Lemma bind_Ok {A B} (m : result A) (k : A -> result B) (b : B) :
  bind m k = Ok b -> exists a, m = Ok a /\ k a = Ok b.
Proof.
  destruct m as [a|e]; simpl; [|discriminate]. intro H. now exists a.
Qed.

(** [detect_head_pose] changes nothing but [face_detected]. *)
Lemma detect_head_pose_state (landmarks : option Landmarks) (w h : Q)
      (self self' : t) (raw : Q * Q * Q) :
  detect_head_pose landmarks w h self = Ok (raw, self') ->
  self' = set_face_detected
            (match landmarks with Some _ => true | None => false end) self.
Proof.
  unfold detect_head_pose. destruct landmarks as [landmarks|].
  - repeat (destruct (get_landmark_position landmarks _ w h); simpl;
            [|discriminate]).
    destruct (calibrated _); intro H; injection H as _ <-; reflexivity.
  - intro H. injection H as _ <-. reflexivity.
Qed.

(** *** Which stages touch the gaze dictionary *)

Lemma log_data_gaze (now : Q) (self : t) :
  gaze_tracking (log_data now self)
  = remember_saccade_count (gaze_tracking self).
Proof.
  unfold log_data.
  destruct ((0 <? current_trial_id (trials self))%nat && _); reflexivity.
Qed.

Lemma process_calibration_gaze (y p r now : Q) (self : t) :
  gaze_tracking (snd (process_calibration y p r now self))
  = gaze_tracking self.
Proof.
  unfold process_calibration.
  destruct (Qltb _ _); [reflexivity|].
  destruct (0 <? _)%nat; [|reflexivity].
  destruct (sum_samples _) as [[ys ps] rs]. reflexivity.
Qed.

Lemma calibrate_if_active_gaze (landmarks : Landmarks) (w h now : Q)
      (self self' : t) :
  calibrate_if_active landmarks w h now self = Ok self' ->
  gaze_tracking self' = gaze_tracking self.
Proof.
  unfold calibrate_if_active.
  destruct (negb _ && _).
  - intro H. apply bind_Ok in H as ([[[y p] r] s1] & H1 & H).
    apply detect_head_pose_state in H1. subst s1.
    injection H as <-. now rewrite process_calibration_gaze.
  - intro H. now injection H as <-.
Qed.

Lemma smooth_pose_gaze (y p r : Q) (self : t) :
  gaze_tracking (smooth_pose y p r self) = gaze_tracking self.
Proof.
  unfold smooth_pose. destruct (use_kalman_filter self); [|reflexivity].
  destruct (kalman_update _ _ _ _) as [f [[fy fp] fr]]. reflexivity.
Qed.

Lemma detect_blinks_gaze (landmarks : Landmarks) (clock : Clock) (self : t) :
  gaze_tracking (detect_blinks landmarks clock self) = gaze_tracking self.
Proof.
  unfold detect_blinks.
  destruct (BlinkDetector.process_landmarks _ _ _) as [res det]. reflexivity.
Qed.

Lemma update_trial_data_gaze (self : t) :
  gaze_tracking (update_trial_data self) = gaze_tracking self.
Proof.
  unfold update_trial_data. destruct (negb _); reflexivity.
Qed.

Lemma process_face_gaze (landmarks : Landmarks) (frame : Frame)
      (clock : Clock) (self self' : t) :
  process_face landmarks frame clock self = Ok self' ->
  exists gx gy b dir,
    gaze_tracking self'
    = track_gaze gx gy (at_gaze clock) b dir (gaze_tracking self).
Proof.
  unfold process_face. intro H.
  apply bind_Ok in H as (s1 & H1 & H).
  apply bind_Ok in H as ([[[yaw pitch] roll] s2] & H2 & H).
  apply bind_Ok in H as (s3 & H3 & H).
  injection H as <-.
  apply calibrate_if_active_gaze in H1.
  apply detect_head_pose_state in H2. subst s2.
  unfold process_eye_metrics in H3.
  apply bind_Ok in H3 as ([gx gy] & _ & H3). injection H3 as <-.
  eexists gx, gy, _, _.
  simpl.
  match goal with
  | |- gaze_tracking (if ?c then _ else _) = _ => destruct c
  end;
    rewrite ?update_trial_data_gaze; simpl;
    rewrite detect_blinks_gaze, smooth_pose_gaze; simpl; rewrite H1;
    reflexivity.
Qed.

(** A frame leaves the gaze dictionary alone or tracks one gaze sample, and
    a logged frame then refreshes [saccade_count_prev]. *)
Lemma process_frame_gaze (frame : Frame) (clock : Clock) (self self' : t) :
  process_frame frame clock self = Ok self' ->
  exists g,
    (g = gaze_tracking self
     \/ exists gx gy b dir,
         g = track_gaze gx gy (at_gaze clock) b dir (gaze_tracking self))
    /\ (gaze_tracking self' = g
        \/ gaze_tracking self' = remember_saccade_count g).
Proof.
  unfold process_frame.
  set (s0 := record_frame_time (at_entry clock) _).
  assert (H0 : gaze_tracking s0 = gaze_tracking self) by reflexivity.
  destruct (negb _).
  - intro H. exists (gaze_tracking self). split; [now left|]. left.
    destruct (show_debug_info s0).
    + apply bind_Ok in H as (_ & _ & H). now injection H as <-.
    + now injection H as <-.
  - intro H.
    apply bind_Ok in H as (s1 & H1 & H).
    apply bind_Ok in H as (s2 & H2 & H).
    assert (Hg2 : gaze_tracking s2 = gaze_tracking s1).
    { destruct (show_debug_info s1).
      - apply bind_Ok in H2 as (_ & _ & H2). now injection H2 as <-.
      - now injection H2 as <-. }
    exists (gaze_tracking s1). split.
    + destruct (multi_face_landmarks frame) as [|landmarks rest].
      * injection H1 as <-. now left.
      * right. apply process_face_gaze in H1. now rewrite <- H0.
    + destruct (_ =? 0)%nat; injection H as <-.
      * right. now rewrite log_data_gaze, Hg2.
      * now left.
Qed.

(** *** The screen attention ratio *)

Lemma detect_fixation_ratio (d x y now : Q) (blinking : bool)
      (g : GazeTracking) :
  screen_attention_ratio (detect_fixation d x y now blinking g)
  = screen_attention_ratio g.
Proof.
  unfold detect_fixation.
  destruct (Qltb d (fixation_threshold g) || blinking).
  - destruct (fixation_point g); [|destruct (negb blinking)]; reflexivity.
  - destruct (Qltb (1 # 10) (fixation_duration g));
      destruct (Qltb (saccade_threshold g) d); reflexivity.
Qed.

(** The exponential moving average of the source, with its 0/1 sample. *)
Lemma track_gaze_ratio (gx gy now : Q) (blinking : bool) (dir : Direction)
      (g : GazeTracking) :
  exists in_bounds : bool,
    screen_attention_ratio (track_gaze gx gy now blinking dir g)
    = screen_attention_ratio g * (1 - (5 # 100)) + Qbool in_bounds * (5 # 100).
Proof.
  unfold track_gaze, store_previous_gaze, update_screen_attention.
  cbv zeta. simpl screen_attention_ratio.
  rewrite detect_fixation_ratio. simpl.
  eexists. reflexivity.
Qed.

Lemma ema_in_unit (r : Q) (b : bool) :
  0 <= r <= 1 ->
  0 <= r * (1 - (5 # 100)) + Qbool b * (5 # 100) <= 1.
Proof.
  intros [H0 H1]. destruct b; unfold Qbool; split; lra.
Qed.

Lemma process_frame_ratio (frame : Frame) (clock : Clock) (self self' : t) :
  process_frame frame clock self = Ok self' ->
  ratio_in_unit self -> ratio_in_unit self'.
Proof.
  intros H Hin. unfold ratio_in_unit in *.
  destruct (process_frame_gaze _ _ _ _ H) as (g & Hg & Hself').
  assert (Hgin : 0 <= screen_attention_ratio g <= 1).
  { destruct Hg as [->|(gx & gy & b & dir & ->)]; [exact Hin|].
    destruct (track_gaze_ratio gx gy (at_gaze clock) b dir (gaze_tracking self))
      as (inb & ->).
    now apply ema_in_unit. }
  destruct Hself' as [->| ->]; exact Hgin.
Qed.

Lemma run_ratio (frames : list (Frame * Clock)) (self : t) :
  ratio_in_unit self -> Forall ratio_in_unit (run frames self).
Proof.
  revert self. induction frames as [|[frame clock] rest IH]; intros self Hin.
  - constructor.
  - simpl. destruct (process_frame frame clock self) as [self'|e] eqn:E.
    + pose proof (process_frame_ratio _ _ _ _ E Hin) as Hin'.
      constructor; [exact Hin' | now apply IH].
    + constructor.
Qed.

(** C7. Each tracked gaze sample replaces the ratio by
    [ratio * (1 - 0.05) + in_bounds * 0.05] with [in_bounds] 0 or 1, and over
    every finite sequence of frames of a session started from [__init__]
    (where the ratio is 0) the ratio is within [0, 1] after every frame. *)
Theorem screen_attention_ratio_in_unit_interval :
  (forall (gx gy now : Q) (blinking : bool) (dir : Direction)
          (g : GazeTracking),
      exists in_bounds : bool,
        screen_attention_ratio (track_gaze gx gy now blinking dir g)
        = screen_attention_ratio g * (1 - (5 # 100))
          + Qbool in_bounds * (5 # 100))
  /\ (forall now : Q, screen_attention_ratio (gaze_tracking (init now)) = 0)
  /\ (forall (now : Q) (frames : list (Frame * Clock)),
         Forall ratio_in_unit (run frames (init now))).
Proof.
  split; [exact track_gaze_ratio|].
  split; [reflexivity|].
  intros now frames. apply run_ratio. unfold ratio_in_unit. simpl. lra.
Qed.

Lemma py_div_defined (x y : Q) : ~ y == 0 -> py_div x y = Ok (x / y).
Proof.
  intro H. unfold py_div.
  destruct (Qeq_bool y 0) eqn:E; [|reflexivity].
  apply Qeq_bool_iff in E. contradiction.
Qed.

Lemma fps_of_defined (times : list Q) :
  hd 0 times < last times 0 -> exists fps, fps_of times = Ok fps.
Proof.
  intro H. unfold fps_of.
  destruct (1 <? length times)%nat; [|now exists 0].
  rewrite py_div_defined by lra. eauto.
Qed.

Lemma log_data_keeps (now : Q) (self : t) :
  face_detected (log_data now self) = face_detected self
  /\ blink_detector (log_data now self) = blink_detector self
  /\ current_blink (log_data now self) = current_blink self
  /\ blink_metrics (log_data now self) = blink_metrics self
  /\ pose (log_data now self) = pose self
  /\ kalman_filter (log_data now self) = kalman_filter self
  /\ calibration (log_data now self) = calibration self
  /\ attention (log_data now self) = attention self
  /\ counters (log_data now self) = counters self.
Proof.
  unfold log_data.
  destruct ((0 <? current_trial_id (trials self))%nat && _); now repeat split.
Qed.

(** C3, as the code has it.  On a processed (not skipped) frame without a
    face, on which the frame-rate computation of the debug overlay is defined
    (the newest retained frame time is later than the oldest), [process_frame]
    returns normally with [face_detected] false, and the blink detector and
    blink snapshot, the blink metrics, the head pose and its filter, the
    calibration, the direction, [looking_at_monitor] and the attention
    history, and the movement counters are what they were.  The gaze
    dictionary is what it was, except that on every 90th frame logging sets
    its [saccade_count_prev] key to the current saccade count. *)
Theorem no_face_frame_holds_metrics (frame : Frame) (clock : Clock) (self : t) :
  multi_face_landmarks frame = [] ->
  (S (frame_skip_counter (performance self))
     mod Pos.to_nat (processing_frequency (performance self)) = 0)%nat ->
  (show_debug_info self = true ->
   hd 0 (frame_window clock self) < last (frame_window clock self) 0) ->
  exists self',
    process_frame frame clock self = Ok self'
    /\ face_detected self' = false
    /\ blink_detector self' = blink_detector self
    /\ current_blink self' = current_blink self
    /\ blink_metrics self' = blink_metrics self
    /\ pose self' = pose self
    /\ kalman_filter self' = kalman_filter self
    /\ calibration self' = calibration self
    /\ attention self' = attention self
    /\ counters self' = counters self
    /\ gaze_tracking self'
       = if (S (frame_count (performance self)) mod 90 =? 0)%nat
         then remember_saccade_count (gaze_tracking self)
         else gaze_tracking self.
Proof.
  intros Hface Hdue Hclock.
  unfold process_frame. rewrite Hface, Hdue. simpl.
  assert (Hfps : exists self1,
             (if show_debug_info self
              then
                _ <- fps_of (frame_window clock self) ;;
                Ok (record_frame_time (at_debug clock)
                      (set_face_detected false
                         (record_frame_time (at_entry clock)
                            (set_performance
                               (mkPerformance
                                  (S (frame_count (performance self)))
                                  (frame_times (performance self))
                                  (processing_frequency (performance self)) 0)
                               self))))
              else
                Ok (set_face_detected false
                      (record_frame_time (at_entry clock)
                         (set_performance
                            (mkPerformance
                               (S (frame_count (performance self)))
                               (frame_times (performance self))
                               (processing_frequency (performance self)) 0)
                            self)))) = Ok self1
             /\ frame_count (performance self1)
                = S (frame_count (performance self))
             /\ face_detected self1 = false
             /\ blink_detector self1 = blink_detector self
             /\ current_blink self1 = current_blink self
             /\ blink_metrics self1 = blink_metrics self
             /\ pose self1 = pose self
             /\ kalman_filter self1 = kalman_filter self
             /\ calibration self1 = calibration self
             /\ attention self1 = attention self
             /\ counters self1 = counters self
             /\ gaze_tracking self1 = gaze_tracking self).
  { destruct (show_debug_info self) eqn:Edebug.
    - destruct (fps_of_defined _ (Hclock eq_refl)) as (fps & ->).
      eexists. split; [reflexivity|]. now repeat split.
    - eexists. split; [reflexivity|]. now repeat split. }
  destruct Hfps as (self1 & Hrun & Hcount & Hface1 & Hbd & Hcb & Hbm & Hpose
                    & Hk & Hcal & Hatt & Hcnt & Hgaze).
  unfold frame_window in Hrun. rewrite Hrun. simpl. rewrite Hcount.
  destruct (S (frame_count (performance self)) mod 90 =? 0)%nat.
  - exists (log_data (at_log clock) self1). split; [reflexivity|].
    destruct (log_data_keeps (at_log clock) self1)
      as (-> & -> & -> & -> & -> & -> & -> & -> & ->).
    rewrite log_data_gaze, Hgaze. now repeat split.
  - exists self1. split; [reflexivity|]. now repeat split.
Qed.

(** The slip the hypothesis on the clock keeps out: when the two readings of
    the first frame coincide, the frame-rate division raises. *)
Example first_frame_same_clock_reading_raises :
  process_frame (mkFrame 360 640 [])
                (mkClock 5 5 5 5 5 5 5) (init 0)
  = Raise ZeroDivisionError.
Proof. reflexivity. Qed.


End FrameFacts.

(** ** Sessions that refute the unqualified claims *)

Section Sessions.
Import FacialMonitoringAgent.

(** C3 as stated fails.  In a session of frames without a face the 90th
    frame is logged like every 90th frame, and logging writes the
    [saccade_count_prev] key of the gaze dictionary, which was absent until
    then: the frame has no face, yet the gaze dictionary changes. *)
Lemma no_face_frame_changes_gaze_tracking :
  multi_face_landmarks no_face_frame = []
  /\ saccade_count_prev (gaze_tracking after_89_faceless_frames) = None
  /\ exists after : t (K := example_filter),
      process_frame (M := example_math) no_face_frame (tick 89)
                    after_89_faceless_frames = Ok after
      /\ face_detected after = false
      /\ saccade_count_prev (gaze_tracking after) = Some 0%nat
      /\ gaze_tracking after <> gaze_tracking after_89_faceless_frames.
Proof.
  split; [reflexivity|].
  split; [vm_compute; reflexivity|].
  eexists.
  split; [vm_compute; reflexivity|].
  split; [reflexivity|].
  split; [reflexivity|].
  intro H. apply (f_equal saccade_count_prev) in H. vm_compute in H.
  discriminate.
Qed.







End Sessions.

(** ** Concrete instances of the conditional theorems *)

Section Instances.
Import FacialMonitoringAgent.

(** The first frame of a session, without a face, with an advancing clock. *)
Lemma no_face_frame_holds_metrics_witness :
  exists self' : t (K := example_filter),
    process_frame (M := example_math) no_face_frame (tick 0) (init 0)
    = Ok self'
    /\ face_detected self' = false
    /\ gaze_tracking self' = gaze_tracking (init (K := example_filter) 0).
Proof.
  destruct (no_face_frame_holds_metrics (M := example_math)
              no_face_frame (tick 0) (init (K := example_filter) 0))
    as (self' & Hrun & Hface & _ & _ & _ & _ & _ & _ & _ & _ & Hgaze).
  - reflexivity.
  - reflexivity.
  - intros _. vm_compute. reflexivity.
  - exists self'. split; [exact Hrun|]. split; [exact Hface|]. exact Hgaze.
Defined.


Lemma fixation_recorded_only_after_100ms_witness :
  let g' := detect_fixation 2 2 0 (11 # 10) false short_fixation in
  fixation_count g' = 0%nat
  /\ fixation_history g' = []
  /\ fixation_point g' = None
  /\ fixation_duration g' = 0.
Proof.
  destruct (fixation_recorded_only_after_100ms (M := example_math)
                                               (K := example_filter))
    as [Hdetect _].
  destruct (Hdetect 2 2 0 (11 # 10) false short_fixation)
    as (_ & _ & Hreset).
  destruct Hreset as ((Hcount & _ & _ & Hhist) & Hpoint & Hdur).
  - vm_compute. reflexivity.
  - apply Qle_bool_iff. reflexivity.
  - reflexivity.
  - repeat split; assumption.
Defined.

(** One centred frame in a fresh session: the window holds one true flag,
    so the vote passes. *)
Lemma looking_at_monitor_is_window_vote_witness :
  looking_at_monitor
    (attention (feed_poses [(0, 0)] (init (K := example_filter) 0))) = true.
Proof.
  destruct (looking_at_monitor_is_window_vote (K := example_filter))
    as (_ & Hsession & _).
  destruct (Hsession 0 [] (0, 0)) as [_ Hvote].
  apply Hvote. apply Qle_bool_iff. reflexivity.
Defined.

End Instances.

(** ** The model on the scenarios of the specification *)

Section Scenarios.
Import FacialMonitoringAgent.

(** Five closed frames and one open frame make exactly one blink; with
    [consecutive_frames = 2] it is timed from the second closed frame. *)
Example one_blink_is_counted_once :
  let final :=
    last (BlinkDetector.run (M := example_math) one_blink
                            (BlinkDetector.init 0))
         (BlinkDetector.init 0) in
  BlinkDetector.blink_count final = 1%nat
  /\ BlinkDetector.micro_sleep_count final = 0%nat
  /\ BlinkDetector.blink_duration final == 4 / 30 * 1000.
Proof.
  vm_compute. repeat split.
Qed.

(** Yaw 12 and pitch 0 under thresholds of 10: the direction is RIGHT. *)
Example yaw_takes_precedence :
  current_direction
    (attention (feed_pose (12, 0) (init (K := example_filter) 0))) = RIGHT
  /\ current_direction
       (attention (feed_pose (12, 15) (init (K := example_filter) 0))) = RIGHT
  /\ current_direction
       (attention (feed_pose (0, 15) (init (K := example_filter) 0))) = DOWN.
Proof.
  repeat split.
Qed.

(** A frame with a face goes through the whole pipeline. *)
Example face_frame_is_processed :
  exists self' : t (K := example_filter),
    process_frame (M := example_math) (mkFrame 360 640 [look_right]) (tick 0)
                  (init 0) = Ok self'
    /\ face_detected self' = true
    /\ prev_x (gaze_tracking self') <> None
    /\ BlinkDetector.count (current_blink self') = 0%nat.
Proof.
  eexists. split; [vm_compute; reflexivity|].
  repeat split. discriminate.
Qed.

End Scenarios.

(** * Further properties of the code *)

(** ** Reading landmarks *)

Lemma landmark_at_ok (landmarks : Landmarks) (idx : nat) :
  (idx < length landmarks)%nat -> exists p, landmark_at landmarks idx = Ok p.
Proof.
  intro H. unfold landmark_at.
  destruct (nth_error landmarks idx) as [p|] eqn:E; [now exists p|].
  apply nth_error_None in E. lia.
Qed.

Lemma landmark_at_missing (landmarks : Landmarks) (idx : nat) :
  (length landmarks <= idx)%nat -> landmark_at landmarks idx = Raise IndexError.
Proof.
  intro H. unfold landmark_at.
  now rewrite (proj2 (nth_error_None landmarks idx) H).
Qed.

Lemma landmark_at_only_index_error (landmarks : Landmarks) (idx : nat) (e : exn) :
  landmark_at landmarks idx = Raise e ->
  e = IndexError /\ (length landmarks <= idx)%nat.
Proof.
  unfold landmark_at. destruct (nth_error landmarks idx) eqn:E; [discriminate|].
  intro H. injection H as <-. split; [reflexivity|]. now apply nth_error_None.
Qed.

(** ** The blink detector over a session *)

Section BlinkSessionFacts.
Import BlinkDetector.
Context {M : MathLib}.

Lemma point_at_ok (landmarks : Landmarks) (idx : nat) :
  (idx < length landmarks)%nat -> exists p, point_at landmarks idx = Ok p.
Proof.
  intro H. unfold point_at.
  destruct (landmark_at_ok landmarks idx H) as (p & ->). simpl. eauto.
Qed.

Lemma point_at_missing (landmarks : Landmarks) (idx : nat) :
  (length landmarks <= idx)%nat -> point_at landmarks idx = Raise IndexError.
Proof.
  intro H. unfold point_at. now rewrite landmark_at_missing.
Qed.

Lemma read_eye_points_ok (landmarks : Landmarks) :
  (387 <= length landmarks)%nat -> exists pts, read_eye_points landmarks = Ok pts.
Proof.
  intro H. unfold read_eye_points.
  repeat match goal with
  | |- context [point_at landmarks ?i] =>
      let p := fresh "p" in
      let E := fresh "E" in
      destruct (point_at_ok landmarks i) as (p & E);
      [unfold left_eye_top, left_eye_bottom, left_eye_left, left_eye_right,
         right_eye_top, right_eye_bottom, right_eye_left, right_eye_right; lia|];
      rewrite E; simpl bind
  end.
  eauto.
Qed.

Lemma point_at_raises (landmarks : Landmarks) (idx : nat) (e : exn) :
  point_at landmarks idx = Raise e -> e = IndexError.
Proof.
  unfold point_at. destruct (landmark_at landmarks idx) eqn:E; [discriminate|].
  apply landmark_at_only_index_error in E as [-> _]. simpl.
  intro H. now injection H.
Qed.

Lemma point_at_length (landmarks : Landmarks) (idx : nat) (p : Point) :
  point_at landmarks idx = Ok p -> (idx < length landmarks)%nat.
Proof.
  intro H. destruct (Nat.lt_ge_cases idx (length landmarks)) as [|Hge];
    [assumption|].
  rewrite point_at_missing in H by assumption. discriminate.
Qed.

Lemma read_eye_points_short (landmarks : Landmarks) :
  (length landmarks < 387)%nat -> read_eye_points landmarks = Raise IndexError.
Proof.
  intro H. unfold read_eye_points.
  repeat match goal with
  | |- context [point_at landmarks ?i] =>
      let E := fresh "E" in
      destruct (point_at landmarks i) as [?p|?e] eqn:E;
      [simpl bind | apply point_at_raises in E; subst; reflexivity]
  end.
  apply point_at_length in E3. unfold right_eye_top in E3. lia.
Qed.

Lemma filter_length_le {A} (f : A -> bool) (l : list A) :
  (length (filter f l) <= length l)%nat.
Proof.
  induction l as [|a l IH]; simpl; [lia|]. destruct (f a); simpl; lia.
Qed.

Lemma detect_blink_consistent (both_closed : bool) (now : Q) (s : t) :
  detector_consistent s -> detector_consistent (detect_blink both_closed now s).
Proof.
  unfold detector_consistent. intros (Hc & Hp & Hd & Ht & Hm).
  unfold detect_blink. rewrite Hc, Hp.
  assert (Hdur : forall d,
             length (if (20 <? length (blink_durations s ++ [d]))%nat
                     then last_n 20 (blink_durations s ++ [d])
                     else blink_durations s ++ [d])
             = Nat.min 20 (S (blink_count s))).
  { intro d.
    destruct (20 <? length (blink_durations s ++ [d]))%nat eqn:E2.
    - rewrite length_last_n, length_app, Hd. simpl length.
      apply Nat.ltb_lt in E2. rewrite length_app, Hd in E2.
      change (length [d]) with 1%nat in E2. lia.
    - rewrite length_app, Hd. simpl length.
      apply Nat.ltb_ge in E2. rewrite length_app, Hd in E2.
      change (length [d]) with 1%nat in E2. lia. }
  assert (Hts : (length (filter (fun t0 => Qle_bool (now - t0) 60)
                                (blink_timestamps s ++ [now]))
                 <= S (blink_count s))%nat).
  { etransitivity; [apply filter_length_le|]. rewrite length_app. simpl. lia. }
  destruct both_closed.
  - destruct (frames_below_threshold s) as [|[|n]]; cbn;
      repeat split; assumption.
  - destruct (frames_below_threshold s) as [|[|n]]; cbn;
      repeat split; try assumption; try apply Hdur.
    destruct (Qltb 400 _); lia.
Qed.

Lemma process_landmarks_consistent (landmarks : Landmarks) (now : Q) (s : t) :
  detector_consistent s ->
  detector_consistent (snd (process_landmarks landmarks now s)).
Proof.
  intro H. unfold process_landmarks.
  destruct (read_eye_points landmarks); simpl; [|assumption].
  now apply detect_blink_consistent.
Qed.

Lemma init_consistent (now : Q) : detector_consistent (init now).
Proof.
  unfold detector_consistent, init. simpl. repeat split; lia.
Qed.

Lemma run_consistent frames (s : t) :
  detector_consistent s -> Forall detector_consistent (run frames s).
Proof.
  revert s. induction frames as [|[lm now] rest IH]; intros s H; simpl.
  - constructor.
  - constructor; [|apply IH]; now apply process_landmarks_consistent.
Qed.

Lemma last_cons {A} (a d : A) (l : list A) : last (a :: l) d = last l a.
Proof.
  revert a d. induction l as [|b l IH]; intros a d; [reflexivity|].
  change (last (a :: b :: l) d) with (last (b :: l) d).
  rewrite IH. symmetry. apply IH.
Qed.

Lemma final_fold (frames : list (Landmarks * Q)) (self : t) :
  final_detector frames self
  = fold_left (fun s frame => snd (process_landmarks (fst frame) (snd frame) s))
              frames self.
Proof.
  unfold final_detector. revert self.
  induction frames as [|[lm now] rest IH]; intro self; [reflexivity|].
  simpl run. rewrite last_cons. apply IH.
Qed.

Lemma final_snoc (frames : list (Landmarks * Q)) (frame : Landmarks * Q)
      (self : t) :
  final_detector (frames ++ [frame]) self
  = snd (process_landmarks (fst frame) (snd frame) (final_detector frames self)).
Proof.
  rewrite !final_fold, fold_left_app. reflexivity.
Qed.

(** X1. After any sequence of frames from [__init__], the detector's streak
    counter [frames_below_threshold] is the length of the current run of
    frames with both eyes closed (an unreadable frame neither extends nor
    ends the run), and [blink_in_progress] holds exactly when that run is
    at least two frames long. *)
Theorem blink_in_progress_is_closed_streak (now : Q)
        (frames : list (Landmarks * Q)) :
  let s := final_detector frames (init now) in
  frames_below_threshold s = closed_streak frames
  /\ blink_in_progress s = (2 <=? closed_streak frames)%nat.
Proof.
  cbv zeta.
  assert (H : frames_below_threshold (final_detector frames (init now))
              = closed_streak frames
              /\ ear_threshold (final_detector frames (init now)) = 2 # 10
              /\ detector_consistent (final_detector frames (init now))).
  { induction frames as [|frame frames IH] using rev_ind.
    - split; [reflexivity|]. split; [reflexivity|]. apply init_consistent.
    - rewrite final_snoc. destruct IH as (Hf & He & Hc).
      unfold closed_streak. rewrite fold_left_app. fold (closed_streak frames).
      simpl fold_left. unfold both_eyes_closed.
      split; [|split].
      + unfold process_landmarks.
        destruct (read_eye_points (fst frame)) as [pts|e]; simpl; [|exact Hf].
        rewrite He. unfold detect_blink.
        destruct (Qltb (left_ear pts) (2 # 10) && Qltb (right_ear pts) (2 # 10)).
        * destruct (negb _ && _); simpl; now rewrite Hf.
        * destruct (blink_in_progress _); reflexivity.
      + unfold process_landmarks.
        destruct (read_eye_points (fst frame)) as [pts|e]; simpl; [|exact He].
        unfold detect_blink.
        destruct (_ && _); [destruct (negb _ && _)|destruct (blink_in_progress _)];
          exact He.
      + now apply process_landmarks_consistent. }
  destruct H as (Hf & _ & _ & Hp & _).
  split; [exact Hf|]. now rewrite Hp, Hf.
Qed.

(** X2. In every detector state of a session started from [__init__] the
    list of blink durations holds [min(20, blink_count)] items, and neither
    the number of kept blink timestamps nor the micro-sleep count exceeds
    the blink count. *)
Theorem blink_buffers_stay_bounded (now : Q) (frames : list (Landmarks * Q)) :
  Forall (fun s =>
            length (blink_durations s) = Nat.min 20 (blink_count s)
            /\ (length (blink_timestamps s) <= blink_count s)%nat
            /\ (micro_sleep_count s <= blink_count s)%nat)
         (run frames (init now)).
Proof.
  eapply Forall_impl; [|apply run_consistent, init_consistent].
  intros s (_ & _ & Hd & Ht & Hm). now repeat split.
Qed.

(** X3. [process_landmarks] falls into its [except] branch exactly for a
    mesh of fewer than 387 landmarks: then it returns the neutral
    dictionary and leaves the detector alone; with 387 landmarks or more
    the eye points are read, the detector takes one step of the blink state
    machine, and the result has its ["micro_sleeps"] and ["durations"]
    keys. *)
Theorem eye_landmarks_decide_the_neutral_result (landmarks : Landmarks)
        (now : Q) (self : t) :
  if (length landmarks <? 387)%nat
  then process_landmarks landmarks now self = (error_info self, self)
  else exists pts,
      read_eye_points landmarks = Ok pts
      /\ snd (process_landmarks landmarks now self)
         = detect_blink (Qltb (left_ear pts) (ear_threshold self)
                         && Qltb (right_ear pts) (ear_threshold self))
                        now self
      /\ micro_sleeps (fst (process_landmarks landmarks now self)) <> None
      /\ durations (fst (process_landmarks landmarks now self)) <> None.
Proof.
  destruct (length landmarks <? 387)%nat eqn:E.
  - apply Nat.ltb_lt in E. unfold process_landmarks.
    now rewrite read_eye_points_short.
  - apply Nat.ltb_ge in E.
    destruct (read_eye_points_ok landmarks E) as (pts & Hpts).
    exists pts. unfold process_landmarks. rewrite Hpts. simpl.
    repeat split; discriminate.
Qed.

(** X4. Old blink timestamps are dropped only when a blink ends.  On a
    readable frame with no blink in progress, a minute or more into the
    session, the timestamps are kept as they are and the reported rate per
    minute is their number, however long ago those blinks were. *)
Theorem blink_rate_ignores_age_between_blinks (landmarks : Landmarks)
        (now : Q) (self : t) :
  (387 <= length landmarks)%nat ->
  blink_in_progress self = false ->
  60 <= now - start_time self ->
  blink_timestamps (snd (process_landmarks landmarks now self))
  = blink_timestamps self
  /\ rate_per_minute (fst (process_landmarks landmarks now self))
     == Qnat (length (blink_timestamps self)).
Proof.
  intros Hlen Hidle Hold.
  destruct (read_eye_points_ok landmarks Hlen) as (pts & Hpts).
  unfold process_landmarks. rewrite Hpts. cbv zeta.
  set (closed := Qltb (left_ear pts) (ear_threshold self)
                 && Qltb (right_ear pts) (ear_threshold self)).
  assert (Hkeep : blink_timestamps (detect_blink closed now self)
                  = blink_timestamps self
                  /\ start_time (detect_blink closed now self)
                     = start_time self).
  { unfold detect_blink. rewrite Hidle.
    destruct closed; [destruct (negb false && _)|]; now split. }
  destruct Hkeep as [Hts Hstart].
  cbn [fst snd rate_per_minute]. split; [exact Hts|].
  unfold blink_rate. rewrite Hts, Hstart.
  assert (Hdur : (now - start_time self) / 60
                 == (now - start_time self) * (1 # 60)) by field.
  case_Qltb 0 ((now - start_time self) / 60); [|lra].
  unfold py_min.
  case_Qltb 1 ((now - start_time self) / 60).
  - field.
  - assert (E2 : (now - start_time self) / 60 == 1) by lra.
    rewrite E2. field.
Qed.




End BlinkSessionFacts.

(** ** The frame pipeline over a session *)

Section SessionFacts.
Import FacialMonitoringAgent.
Context {M : MathLib} {K : PoseFilter}.
Local Arguments Nat.modulo : simpl never.

(** The stages of a frame that [process_frame] completes. *)
Lemma process_frame_stages (frame : Frame) (clock : Clock) (self self' : t) :
  process_frame frame clock self = Ok self' ->
  let entry := counted clock self in
  (frame_skip_counter (performance entry) <> 0%nat /\ self' = entry)
  \/ (frame_skip_counter (performance entry) = 0%nat
      /\ exists s1 s2,
          ((multi_face_landmarks frame = [] /\ s1 = set_face_detected false entry)
           \/ exists landmarks rest,
               multi_face_landmarks frame = landmarks :: rest
               /\ process_face landmarks frame clock entry = Ok s1)
          /\ (s2 = s1 \/ s2 = record_frame_time (at_debug clock) s1)
          /\ ((frame_count (performance s2) mod 90 = 0)%nat
              /\ self' = log_data (at_log clock) s2
              \/ (frame_count (performance s2) mod 90 <> 0)%nat /\ self' = s2)).
Proof.
  unfold process_frame. fold (counted clock self).
  set (entry := counted clock self).
  change (S (frame_skip_counter (performance self))
          mod Pos.to_nat (processing_frequency (performance self)))%nat
    with (frame_skip_counter (performance entry)).
  destruct (frame_skip_counter (performance entry) =? 0)%nat eqn:Eskip; simpl negb; cbv iota.
  - apply Nat.eqb_eq in Eskip. intro H. right. split; [exact Eskip|].
    apply bind_Ok in H as (s1 & H1 & H).
    apply bind_Ok in H as (s2 & H2 & H).
    exists s1, s2. split; [|split].
    + destruct (multi_face_landmarks frame) as [|landmarks rest].
      * left. split; [reflexivity|]. now injection H1.
      * right. now exists landmarks, rest.
    + destruct (show_debug_info s1).
      * apply bind_Ok in H2 as (_ & _ & H2). right. now injection H2.
      * left. now injection H2.
    + destruct (frame_count (performance s2) mod 90 =? 0)%nat eqn:E90;
        injection H as <-.
      * left. split; [now apply Nat.eqb_eq|reflexivity].
      * right. split; [now apply Nat.eqb_neq|reflexivity].
  - apply Nat.eqb_neq in Eskip. intro H. left. split; [exact Eskip|].
    destruct (show_debug_info entry).
    + apply bind_Ok in H as (_ & _ & H). now injection H.
    + now injection H.
Qed.

(** The stages of [process_face]. *)
Lemma process_face_stages (landmarks : Landmarks) (frame : Frame)
      (clock : Clock) (self self' : t) :
  process_face landmarks frame clock self = Ok self' ->
  exists s1 yaw pitch roll s3,
    calibrate_if_active landmarks (Qnat (frame_width frame))
                        (Qnat (frame_height frame)) (at_calibration clock) self
    = Ok s1
    /\ detect_head_pose (Some landmarks) (Qnat (frame_width frame))
                        (Qnat (frame_height frame)) s1
       = Ok ((yaw, pitch, roll), set_face_detected true s1)
    /\ process_eye_metrics (Some landmarks) (Qnat (frame_width frame))
                           (Qnat (frame_height frame)) (at_gaze clock)
         (detect_blinks landmarks clock
            (smooth_pose yaw pitch roll (set_face_detected true s1)))
       = Ok s3
    /\ self' = finish_face s3.
Proof.
  unfold process_face. intro H.
  apply bind_Ok in H as (s1 & H1 & H).
  apply bind_Ok in H as ([[[yaw pitch] roll] s2] & H2 & H).
  apply bind_Ok in H as (s3 & H3 & H).
  injection H as <-.
  pose proof (detect_head_pose_state _ _ _ _ _ _ H2) as ->.
  exists s1, yaw, pitch, roll, s3. now repeat split.
Qed.

Lemma bookkeeping_kept_refl (s : t) : bookkeeping_kept s s.
Proof. now repeat split. Qed.

Lemma bookkeeping_kept_trans (a b c : t) :
  bookkeeping_kept a b -> bookkeeping_kept b c -> bookkeeping_kept a c.
Proof.
  unfold bookkeeping_kept.
  intros (H1 & H2 & H3 & H4 & H5 & H6) (G1 & G2 & G3 & G4 & G5 & G6).
  repeat split; congruence.
Qed.

Lemma process_calibration_bookkeeping (y p r now : Q) (s : t) :
  bookkeeping_kept s (snd (process_calibration y p r now s)).
Proof.
  unfold process_calibration.
  destruct (Qltb _ _); [now repeat split|].
  destruct (0 <? _)%nat; [|now repeat split].
  destruct (sum_samples _) as [[ys ps] rs]. now repeat split.
Qed.

Lemma calibrate_if_active_bookkeeping (landmarks : Landmarks) (w h now : Q)
      (s s' : t) :
  calibrate_if_active landmarks w h now s = Ok s' -> bookkeeping_kept s s'.
Proof.
  unfold calibrate_if_active.
  destruct (negb _ && _).
  - intro H. apply bind_Ok in H as ([[[y p] r] s1] & H1 & H).
    apply detect_head_pose_state in H1. subst s1. injection H as <-.
    eapply bookkeeping_kept_trans; [|apply process_calibration_bookkeeping].
    now repeat split.
  - intro H. injection H as <-. apply bookkeeping_kept_refl.
Qed.

Lemma smooth_pose_bookkeeping (y p r : Q) (s : t) :
  bookkeeping_kept s (smooth_pose y p r s).
Proof.
  unfold smooth_pose. destruct (use_kalman_filter s); [|now repeat split].
  destruct (kalman_update _ _ _ _) as [f [[fy fp] fr]]. now repeat split.
Qed.

(** The variability block compares the merged snapshot with the result it
    was merged from: neither of its two conditions can hold. *)
Lemma detect_blinks_bookkeeping (landmarks : Landmarks) (clock : Clock) (s : t) :
  bookkeeping_kept s (detect_blinks landmarks clock s).
Proof.
  unfold detect_blinks.
  destruct (BlinkDetector.process_landmarks _ _ _) as [res det].
  unfold update_blink_metrics, dict_update. simpl.
  destruct (BlinkDetector.blinking res); simpl; now repeat split.
Qed.

Lemma detect_blinks_count (landmarks : Landmarks) (clock : Clock) (s : t) :
  blink_count_in_sync (detect_blinks landmarks clock s).
Proof.
  unfold blink_count_in_sync, detect_blinks, BlinkDetector.process_landmarks.
  destruct (BlinkDetector.read_eye_points landmarks); reflexivity.
Qed.

Lemma process_eye_metrics_bookkeeping (landmarks : option Landmarks)
      (w h now : Q) (s s' : t) :
  process_eye_metrics landmarks w h now s = Ok s' -> bookkeeping_kept s s'.
Proof.
  intro H. destruct (process_eye_metrics_tracks _ _ _ _ _ _ H)
    as [->|(gx & gy & ->)]; now repeat split.
Qed.

Lemma finish_face_bookkeeping (s : t) : bookkeeping_kept s (finish_face s).
Proof.
  unfold finish_face. cbv zeta.
  destruct (is_trial_active _); [unfold update_trial_data; destruct (negb _)|];
    now repeat split.
Qed.

Lemma finish_face_in_sync (s : t) : previous_in_sync (finish_face s).
Proof.
  unfold previous_in_sync, finish_face. cbv zeta.
  destruct (is_trial_active _); [unfold update_trial_data; destruct (negb _)|];
    reflexivity.
Qed.

Lemma finish_face_blink (s : t) :
  current_blink (finish_face s) = current_blink s
  /\ blink_detector (finish_face s) = blink_detector s.
Proof.
  unfold finish_face. cbv zeta.
  destruct (is_trial_active _); [unfold update_trial_data; destruct (negb _)|];
    now split.
Qed.

Lemma process_face_keeps (landmarks : Landmarks) (frame : Frame)
      (clock : Clock) (s s' : t) :
  process_face landmarks frame clock s = Ok s' ->
  bookkeeping_kept s s' /\ previous_in_sync s' /\ blink_count_in_sync s'
  /\ face_detected s' = true.
Proof.
  intro H.
  destruct (process_face_stages _ _ _ _ _ H)
    as (s1 & yaw & pitch & roll & s3 & H1 & _ & H3 & ->).
  split; [|split; [apply finish_face_in_sync|split]].
  - eapply bookkeeping_kept_trans; [|apply finish_face_bookkeeping].
    eapply bookkeeping_kept_trans;
      [|eapply process_eye_metrics_bookkeeping; exact H3].
    eapply bookkeeping_kept_trans; [|apply detect_blinks_bookkeeping].
    eapply bookkeeping_kept_trans; [|apply smooth_pose_bookkeeping].
    eapply bookkeeping_kept_trans;
      [eapply calibrate_if_active_bookkeeping; exact H1|].
    now repeat split.
  - unfold blink_count_in_sync.
    destruct (finish_face_blink s3) as [-> ->].
    destruct (process_eye_metrics_tracks _ _ _ _ _ _ H3)
      as [->|(gx & gy & ->)]; apply detect_blinks_count.
  - destruct (process_eye_metrics_tracks _ _ _ _ _ _ H3)
      as [->|(gx & gy & ->)].
    + unfold finish_face. cbv zeta.
      destruct (is_trial_active _); [unfold update_trial_data; destruct (negb _)|];
        simpl.
      all: unfold detect_blinks;
        destruct (BlinkDetector.process_landmarks _ _ _) as [res det];
        unfold update_blink_metrics; simpl;
        unfold smooth_pose; destruct (use_kalman_filter _);
        [destruct (kalman_update _ _ _ _) as [f [[fy fp] fr]]|]; reflexivity.
    + unfold finish_face. cbv zeta.
      destruct (is_trial_active _); [unfold update_trial_data; destruct (negb _)|];
        simpl.
      all: unfold detect_blinks;
        destruct (BlinkDetector.process_landmarks _ _ _) as [res det];
        unfold update_blink_metrics; simpl;
        unfold smooth_pose; destruct (use_kalman_filter _);
        [destruct (kalman_update _ _ _ _) as [f [[fy fp] fr]]|]; reflexivity.
Qed.

Lemma run_invariant (P : t -> Prop) :
  (forall frame clock s s', process_frame frame clock s = Ok s' -> P s -> P s') ->
  forall frames s, P s -> Forall P (run frames s).
Proof.
  intros Hstep frames. induction frames as [|[frame clock] rest IH];
    intros s Hs; simpl.
  - constructor.
  - destruct (process_frame frame clock s) as [s'|e] eqn:E; [|constructor].
    pose proof (Hstep _ _ _ _ E Hs). constructor; [assumption|now apply IH].
Qed.

Lemma Direction_eqb_refl (d : Direction) : Direction_eqb d d = true.
Proof. now destruct d. Qed.

Lemma no_jitter (x : Q) (bound : Q) :
  Qltb 1 (Qabs (x - x)) && Qltb (Qabs (x - x)) bound = false.
Proof.
  assert (H : Qltb 1 (Qabs (x - x)) = false).
  { apply Qltb_ge. apply Qabs_case; intros; lra. }
  now rewrite H.
Qed.

(** In sync, [log_data] sees no movement event. *)
Lemma in_sync_no_events (s : t) :
  previous_in_sync s ->
  head_movement s = false /\ micro_movement s = false /\ gaze_shift s = false.
Proof.
  unfold previous_in_sync, head_movement, micro_movement, gaze_shift.
  intros ->.
  cbn [prev_head_yaw prev_head_pitch prev_head_direction
       prev_looking_at_monitor].
  rewrite Direction_eqb_refl, Bool.eqb_reflx, !no_jitter.
  now repeat split.
Qed.

Lemma py_min_100 (x : Q) (lo : Q) :
  lo <= x -> lo <= 100 -> lo <= py_min 100 x <= 100.
Proof.
  intros Hx Hlo. unfold py_min. case_Qltb x 100; split; lra.
Qed.

Lemma head_stillness_range (d : Direction) (moved : bool) :
  5 <= head_stillness d moved <= 30
  /\ (moved = false -> 15 <= head_stillness d moved).
Proof.
  unfold head_stillness, py_max.
  destruct (Direction_eqb d CENTER), moved; simpl;
    repeat split; try lra; try discriminate;
    match goal with
    | |- context [Qltb ?a ?b] => case_Qltb a b; lra
    | _ => idtac
    end.
Qed.

Lemma blink_normalcy_range (rate : Q) : 10 <= blink_normalcy rate <= 20.
Proof.
  destruct (blink_normalcy_values rate) as [-> | ->]; split; lra.
Qed.

Lemma attention_score_range (s : t) :
  ratio_in_unit s -> 15 <= attention_score s <= 100.
Proof.
  intros [H0 H1]. unfold attention_score. cbv zeta.
  apply py_min_100; [|lra].
  pose proof (head_stillness_range (current_direction (attention s))
                (head_movement s || micro_movement s)) as [[Hs _] _].
  pose proof (blink_normalcy_range
                (BlinkDetector.rate_per_minute (current_blink s))) as [Hn _].
  lra.
Qed.

Lemma attention_score_quiet (s : t) :
  previous_in_sync s -> ratio_in_unit s ->
  25 <= attention_score s <= 100.
Proof.
  intros Hsync [H0 H1]. unfold attention_score. cbv zeta.
  destruct (in_sync_no_events s Hsync) as (-> & -> & _). simpl orb.
  apply py_min_100; [|lra].
  pose proof (head_stillness_range (current_direction (attention s)) false)
    as [_ Hs].
  specialize (Hs eq_refl).
  pose proof (blink_normalcy_range
                (BlinkDetector.rate_per_minute (current_blink s))) as [Hn _].
  lra.
Qed.

Lemma stress_score_range (s : t) :
  0 <= stress_score s <= 100
  /\ (previous_in_sync s -> stress_score s <= 60).
Proof.
  unfold stress_score. cbv zeta.
  set (rate := BlinkDetector.rate_per_minute (current_blink s)).
  set (micro := if Qltb 400 _ then 30 else 0).
  set (blink := if Qltb rate 3 || Qltb 40 rate then 30
                else if Qltb rate 5 || Qltb 30 rate then 15 else 0).
  set (move := Qbool (micro_movement s) * 20
               + (if head_movement s then 20 else 0)).
  assert (Hmicro : 0 <= micro <= 30)
    by (subst micro; destruct (Qltb 400 _); split; lra).
  assert (Hblink : 0 <= blink <= 30)
    by (subst blink; destruct (_ || _); [|destruct (_ || _)]; split; lra).
  assert (Hmove : 0 <= move <= 40)
    by (subst move; unfold Qbool; destruct (micro_movement s),
          (head_movement s); split; lra).
  split.
  - unfold py_min. case_Qltb (micro + blink + move) 100; split; lra.
  - intro Hsync. destruct (in_sync_no_events s Hsync) as (Hh & Hm & _).
    assert (move == 0) by (subst move; rewrite Hh, Hm; unfold Qbool; lra).
    unfold py_min. case_Qltb (micro + blink + move) 100; lra.
Qed.

Lemma log_data_performance (now : Q) (s : t) :
  performance (log_data now s) = performance s.
Proof.
  unfold log_data.
  destruct ((0 <? current_trial_id (trials s))%nat && _); reflexivity.
Qed.

Lemma log_data_in_sync (now : Q) (s : t) : previous_in_sync (log_data now s).
Proof.
  unfold previous_in_sync, log_data.
  destruct ((0 <? current_trial_id (trials s))%nat && _); reflexivity.
Qed.

(** [log_data] appends one row, made of the flags and scores of the agent. *)
Lemma log_data_row (now : Q) (s : t) :
  exists row,
    log_file (log_data now s) = log_file s ++ [row]
    /\ row_head_movement row = head_movement s
    /\ row_micro_movement row = micro_movement s
    /\ row_gaze_shift row = gaze_shift s
    /\ row_attention_score row = attention_score s
    /\ row_stress_score row = stress_score s.
Proof.
  unfold log_data.
  destruct ((0 <? current_trial_id (trials s))%nat && _);
    eexists; (split; [reflexivity|]); now repeat split.
Qed.

Lemma log_data_quiet (now : Q) (s : t) :
  previous_in_sync s -> ratio_in_unit s ->
  Forall quiet_row (log_file s) ->
  Forall quiet_row (log_file (log_data now s)).
Proof.
  intros Hsync Hratio Hrows.
  destruct (log_data_row now s) as (row & -> & Hh & Hm & Hg & Ha & Hs).
  apply Forall_app. split; [exact Hrows|]. constructor; [|constructor].
  destruct (in_sync_no_events s Hsync) as (Eh & Em & Eg).
  unfold quiet_row. rewrite Hh, Hm, Hg, Ha, Hs.
  repeat split; try assumption.
  - now apply attention_score_quiet.
  - now apply attention_score_quiet.
  - apply stress_score_range.
  - now apply stress_score_range.
Qed.

Lemma remember_saccade_count_ratio (g : GazeTracking) :
  screen_attention_ratio (remember_saccade_count g) = screen_attention_ratio g.
Proof. reflexivity. Qed.

Lemma session_invariant_init (now : Q) : session_invariant (init now).
Proof.
  unfold session_invariant, previous_in_sync, blink_count_in_sync,
    ratio_in_unit. simpl.
  repeat split; try reflexivity; try constructor; try lra; try lia.
Qed.

Lemma process_frame_session (frame : Frame) (clock : Clock) (s s' : t) :
  process_frame frame clock s = Ok s' ->
  session_invariant s -> session_invariant s'.
Proof.
  intros Hrun (Hsync & Hcount & Hratio & Hrows & Hmetrics & Hfreq & Hskip
               & Hlog & Htimes).
  pose proof (process_frame_ratio _ _ _ _ Hrun Hratio) as Hratio'.
  destruct (process_frame_stages _ _ _ _ Hrun) as [[Hne _]|(_ & s1 & s2 & H1 & H2 & H3)].
  { exfalso. apply Hne. unfold counted. simpl. rewrite Hfreq, Hskip.
    reflexivity. }
  set (entry := counted clock s) in *.
  assert (Hperf : performance entry
                  = mkPerformance (S (frame_count (performance s)))
                      (deque_append history_maxlen (at_entry clock)
                                    (frame_times (performance s))) 1 0).
  { subst entry. unfold counted, record_frame_time. simpl.
    rewrite Hfreq, Hskip. reflexivity. }
  assert (Hs1 : previous_in_sync s1 /\ blink_count_in_sync s1
                /\ log_file s1 = log_file s
                /\ blink_metrics s1 = blink_metrics s
                /\ performance s1 = performance entry).
  { destruct H1 as [[_ ->]|(landmarks & rest & _ & Hface)].
    - now repeat split.
    - destruct (process_face_keeps _ _ _ _ _ Hface)
        as ((Hl & Hm & Hp & _) & Hsy & Hco & _).
      now repeat split. }
  destruct Hs1 as (Hsync1 & Hcount1 & Hlog1 & Hmetrics1 & Hperf1).
  assert (Hs2 : previous_in_sync s2 /\ blink_count_in_sync s2
                /\ log_file s2 = log_file s
                /\ blink_metrics s2 = blink_metrics s
                /\ gaze_tracking s2 = gaze_tracking s1
                /\ frame_count (performance s2) = S (frame_count (performance s))
                /\ processing_frequency (performance s2) = 1%positive
                /\ frame_skip_counter (performance s2) = 0%nat
                /\ (length (frame_times (performance s2)) <= 30)%nat).
  { destruct H2 as [-> | ->].
    - rewrite Hperf1, Hperf. simpl.
      repeat split; try assumption.
      rewrite length_deque_append. unfold history_maxlen. lia.
    - unfold record_frame_time. simpl. rewrite Hperf1, Hperf. simpl.
      repeat split; try assumption.
      rewrite length_deque_append. unfold history_maxlen. lia. }
  destruct Hs2 as (Hsync2 & Hcount2 & Hlog2 & Hmetrics2 & Hgaze2 & Hfc & Hpf
                   & Hsk & Hft).
  unfold session_invariant.
  destruct H3 as [[H90 ->]|[H90 ->]].
  - assert (Hratio2 : ratio_in_unit s2).
    { unfold ratio_in_unit in *. rewrite log_data_gaze in Hratio'.
      exact Hratio'. }
    destruct (log_data_keeps (at_log clock) s2)
      as (_ & Hbd & Hcb & Hbm & _).
    rewrite log_data_performance.
    split; [apply log_data_in_sync|].
    split; [unfold blink_count_in_sync; now rewrite Hbd, Hcb|].
    split; [exact Hratio'|].
    split; [apply log_data_quiet; try assumption; now rewrite Hlog2|].
    split; [now rewrite Hbm, Hmetrics2|].
    split; [exact Hpf|]. split; [exact Hsk|]. split; [|exact Hft].
    destruct (log_data_row (at_log clock) s2) as (row & -> & _).
    rewrite length_app, Hlog2, Hlog, Hfc. simpl length.
    rewrite Hfc in H90.
    pose proof (Nat.div_mod_eq (S (frame_count (performance s))) 90).
    pose proof (Nat.div_mod_eq (frame_count (performance s)) 90).
    pose proof (Nat.mod_upper_bound (frame_count (performance s)) 90).
    lia.
  - split; [exact Hsync2|]. split; [exact Hcount2|]. split; [exact Hratio'|].
    split; [now rewrite Hlog2|]. split; [now rewrite Hmetrics2|].
    split; [exact Hpf|]. split; [exact Hsk|]. split; [|exact Hft].
    rewrite Hlog2, Hlog, Hfc. rewrite Hfc in H90.
    pose proof (Nat.div_mod_eq (S (frame_count (performance s))) 90).
    pose proof (Nat.div_mod_eq (frame_count (performance s)) 90).
    pose proof (Nat.mod_upper_bound (frame_count (performance s)) 90).
    pose proof (Nat.mod_upper_bound (S (frame_count (performance s))) 90).
    lia.
Qed.

Lemma run_session (now : Q) (frames : list (Frame * Clock)) :
  Forall session_invariant (run frames (init now)).
Proof.
  apply run_invariant; [exact process_frame_session|].
  apply session_invariant_init.
Qed.

Lemma process_frame_count (frame : Frame) (clock : Clock) (s s' : t) :
  process_frame frame clock s = Ok s' ->
  frame_count (performance s') = S (frame_count (performance s)).
Proof.
  intro Hrun.
  destruct (process_frame_stages _ _ _ _ Hrun)
    as [[_ ->]|(_ & s1 & s2 & H1 & H2 & H3)]; [reflexivity|].
  assert (Hs1 : performance s1 = performance (counted clock s)).
  { destruct H1 as [[_ ->]|(landmarks & rest & _ & Hface)]; [reflexivity|].
    now destruct (process_face_keeps _ _ _ _ _ Hface) as ((_ & _ & Hp & _) & _). }
  assert (Hs2 : frame_count (performance s2) = S (frame_count (performance s))).
  { destruct H2 as [-> | ->]; simpl; now rewrite Hs1. }
  destruct H3 as [[_ ->]|[_ ->]]; [|exact Hs2].
  now rewrite log_data_performance.
Qed.

Lemma run_frame_count (frames : list (Frame * Clock)) (s s' : t) (k : nat) :
  nth_error (run frames s) k = Some s' ->
  frame_count (performance s') = (frame_count (performance s) + S k)%nat.
Proof.
  revert s k. induction frames as [|[frame clock] rest IH]; intros s k H.
  - destruct k; discriminate.
  - simpl in H.
    destruct (process_frame frame clock s) as [s1|e] eqn:E;
      [|destruct k; discriminate].
    apply process_frame_count in E.
    destruct k as [|k]; simpl in H.
    + injection H as <-. lia.
    + apply IH in H. lia.
Qed.

(** X6. Every row that [process_frame] logs in a session started from
    [__init__] reports no head movement, no micro movement and no gaze
    shift: [update_head_direction] has already copied the current values
    into the previous ones when [log_data] compares them. *)
Theorem logged_rows_report_no_movement (now : Q)
        (frames : list (Frame * Clock)) :
  Forall (fun s =>
            Forall (fun row =>
                      row_head_movement row = false
                      /\ row_micro_movement row = false
                      /\ row_gaze_shift row = false) (log_file s))
         (run frames (init now)).
Proof.
  eapply Forall_impl; [|apply run_session].
  intros s (_ & _ & _ & Hrows & _).
  eapply Forall_impl; [|exact Hrows].
  intros row (Hh & Hm & Hg & _). now repeat split.
Qed.

(** X7. In every row that [process_frame] logs in a session started from
    [__init__] the attention score lies in [25, 100] and the stress score
    in [0, 60]. *)
Theorem logged_scores_in_range (now : Q) (frames : list (Frame * Clock)) :
  Forall (fun s =>
            Forall (fun row =>
                      25 <= row_attention_score row
                      /\ row_attention_score row <= 100
                      /\ 0 <= row_stress_score row
                      /\ row_stress_score row <= 60) (log_file s))
         (run frames (init now)).
Proof.
  eapply Forall_impl; [|apply run_session].
  intros s (_ & _ & _ & Hrows & _).
  eapply Forall_impl; [|exact Hrows].
  intros row (_ & _ & _ & [Ha Ha'] & [Hs Hs']). now repeat split.
Qed.

(** X8. The blink variability block of [process_frame] never fires: it
    compares the detector's result with [current_blink] after the result
    has been merged into it, so [blink_metrics] keeps its initial value
    through every session started from [__init__]. *)
Theorem blink_variability_never_updated (now : Q)
        (frames : list (Frame * Clock)) :
  Forall (fun s => blink_metrics s = blink_metrics (init now))
         (run frames (init now)).
Proof.
  eapply Forall_impl; [|apply run_session].
  intros s (_ & _ & _ & _ & Hm & _). exact Hm.
Qed.


(** X10. At the default processing frequency, the agent after the
    [k+1]-th frame of a session started from [__init__] has counted [k+1]
    frames, has logged [(k+1) / 90] rows (integer division), and keeps at
    most 30 frame times. *)
Theorem frames_are_counted_and_logged_every_90 (now : Q)
        (frames : list (Frame * Clock)) (k : nat) (s : t) :
  nth_error (run frames (init now)) k = Some s ->
  frame_count (performance s) = S k
  /\ length (log_file s) = (S k / 90)%nat
  /\ (length (frame_times (performance s)) <= 30)%nat.
Proof.
  intro H.
  pose proof (run_frame_count _ _ _ _ H) as Hcount. simpl in Hcount.
  pose proof (run_session now frames) as Hall.
  rewrite Forall_forall in Hall.
  destruct (Hall s (nth_error_In _ _ H))
    as (_ & _ & _ & _ & _ & _ & _ & Hlog & Htimes).
  rewrite Hcount in Hlog. now repeat split.
Qed.

End SessionFacts.

(** ** The frame rate display *)

Lemma last_deque_append {A} (maxlen : nat) (x d0 : A) (d : list A) :
  (0 < maxlen)%nat -> last (deque_append maxlen x d) d0 = x.
Proof.
  intro H. unfold deque_append, last_n.
  rewrite length_app. simpl length.
  rewrite skipn_app.
  replace (length d + 1 - maxlen - length d)%nat with 0%nat by lia.
  simpl skipn. apply last_last.
Qed.

Section FrameRateFacts.
Import FacialMonitoringAgent.
Context {M : MathLib} {K : PoseFilter}.
Local Arguments Nat.modulo : simpl never.

(** X11. The frame rate of the debug overlay divides by the span of the
    kept frame times.  On a processed frame without a face, with the
    overlay on, [process_frame] raises [ZeroDivisionError] when the oldest
    kept frame time equals the reading taken for the overlay (on the first
    frame of a session: when its two readings coincide), and returns
    otherwise. *)
Theorem equal_frame_times_crash_the_fps_display (frame : Frame)
        (clock : Clock) (self : t) :
  show_debug_info self = true ->
  frame_due self ->
  multi_face_landmarks frame = [] ->
  let oldest := hd 0 (frame_window clock self) in
  (oldest == at_debug clock ->
   process_frame frame clock self = Raise ZeroDivisionError)
  /\ (~ oldest == at_debug clock ->
      exists self', process_frame frame clock self = Ok self').
Proof.
  intros Hshow Hdue Hnone oldest. unfold frame_due in Hdue.
  unfold process_frame. cbv zeta. rewrite Hdue. simpl negb. cbv iota.
  rewrite Hnone. cbn [bind].
  change (show_debug_info (set_face_detected false _))
    with (show_debug_info self).
  rewrite Hshow.
  match goal with
  | |- context [fps_of ?times] =>
      change times with (frame_window clock self)
  end.
  assert (Hlen : (1 <? length (frame_window clock self))%nat = true).
  { apply Nat.ltb_lt. unfold frame_window.
    rewrite !length_deque_append. unfold history_maxlen. lia. }
  assert (Hlast : last (frame_window clock self) 0 = at_debug clock).
  { unfold frame_window. apply last_deque_append. unfold history_maxlen. lia. }
  unfold fps_of. rewrite Hlen, Hlast. fold oldest. unfold py_div.
  split; intro H.
  - assert (E : Qeq_bool (at_debug clock - oldest) 0 = true)
      by (apply Qeq_bool_iff; rewrite H; ring).
    rewrite E. reflexivity.
  - assert (E : Qeq_bool (at_debug clock - oldest) 0 = false).
    { destruct (Qeq_bool (at_debug clock - oldest) 0) eqn:E; [|reflexivity].
      apply Qeq_bool_iff in E. exfalso. apply H. lra. }
    rewrite E. cbn [bind].
    destruct (_ =? 0)%nat; eauto.
Qed.

End FrameRateFacts.

(** ** The gaze estimate *)

Section GazeEstimateFacts.
Import FacialMonitoringAgent.
Context {M : MathLib} {K : PoseFilter}.

Lemma get_landmark_position_ok (landmarks : Landmarks) (idx : nat) (w h : Q) :
  (idx < length landmarks)%nat ->
  exists p, get_landmark_position landmarks idx w h = Ok p.
Proof.
  intro H. unfold get_landmark_position.
  destruct (landmark_at_ok landmarks idx H) as (p & ->). simpl. eauto.
Qed.

Lemma get_landmark_position_missing (landmarks : Landmarks) (idx : nat) (w h : Q) :
  (length landmarks <= idx)%nat ->
  get_landmark_position landmarks idx w h = Raise IndexError.
Proof.
  intro H. unfold get_landmark_position. now rewrite landmark_at_missing.
Qed.

Lemma get_landmark_position_raises (landmarks : Landmarks) (idx : nat)
      (w h : Q) (e : exn) :
  get_landmark_position landmarks idx w h = Raise e -> e = IndexError.
Proof.
  unfold get_landmark_position.
  destruct (landmark_at landmarks idx) eqn:E; [discriminate|].
  apply landmark_at_only_index_error in E as [-> _]. simpl.
  intro H. now injection H.
Qed.

Lemma get_landmark_position_length (landmarks : Landmarks) (idx : nat)
      (w h : Q) (p : Point) :
  get_landmark_position landmarks idx w h = Ok p -> (idx < length landmarks)%nat.
Proof.
  intro H. destruct (Nat.lt_ge_cases idx (length landmarks)) as [|Hge];
    [assumption|].
  rewrite get_landmark_position_missing in H by assumption. discriminate.
Qed.

(** The eye landmarks decide whether [estimate_gaze] returns; the iris
    landmarks do not. *)
Lemma estimate_gaze_ok (landmarks : Landmarks) (w h : Q) :
  (387 <= length landmarks)%nat -> exists g, estimate_gaze landmarks w h = Ok g.
Proof.
  intro H. unfold estimate_gaze. cbv zeta.
  repeat match goal with
  | |- context [bind (get_landmark_position landmarks ?i w h) _] =>
      let p := fresh "p" in
      let E := fresh "E" in
      destruct (get_landmark_position_ok landmarks i w h) as (p & E); [lia|];
      rewrite E; simpl bind
  end.
  match goal with
  | |- context [match ?m with Ok irises => irises | Raise _ => ?d end] =>
      destruct (match m with Ok irises => irises | Raise _ => d end)
        as [li ri]
  end.
  destruct (eye_gaze _ _ _ _ li) as [lx ly].
  destruct (eye_gaze _ _ _ _ ri) as [rx ry].
  eauto.
Qed.

Lemma estimate_gaze_short (landmarks : Landmarks) (w h : Q) :
  (length landmarks < 387)%nat ->
  estimate_gaze landmarks w h = Raise IndexError.
Proof.
  intro H. unfold estimate_gaze. cbv zeta.
  repeat match goal with
  | |- context [bind (get_landmark_position landmarks ?i w h) _] =>
      let E := fresh "E" in
      destruct (get_landmark_position landmarks i w h) as [?p|?e] eqn:E;
      [simpl bind
      | apply get_landmark_position_raises in E; subst; reflexivity]
  end.
  match goal with
  | E : get_landmark_position landmarks 386 w h = Ok _ |- _ =>
      apply get_landmark_position_length in E; lia
  end.
Qed.

(** What [estimate_gaze] returns, in terms of the points it reads. *)
Lemma estimate_gaze_value (landmarks : Landmarks) (w h : Q) (gx gy : Q) :
  estimate_gaze landmarks w h = Ok (gx, gy) ->
  let pos idx := get_landmark_position landmarks idx w h in
  exists lo lt lb li ro rt rb ri lir rir,
    pos 33%nat = Ok lo /\ pos 159%nat = Ok lt /\ pos 145%nat = Ok lb
    /\ pos 133%nat = Ok li /\ pos 362%nat = Ok ro /\ pos 386%nat = Ok rt
    /\ pos 374%nat = Ok rb /\ pos 263%nat = Ok ri
    /\ ((pos 468%nat = Ok lir /\ pos 473%nat = Ok rir)
        \/ ((length landmarks < 474)%nat
            /\ lir = ((fst lo + fst li) / 2, (snd lt + snd lb) / 2)
            /\ rir = ((fst ro + fst ri) / 2, (snd rt + snd rb) / 2)))
    /\ gx = (fst (eye_gaze ro rt rb ri rir) - fst (eye_gaze lo lt lb li lir)) / 2
    /\ gy = (snd (eye_gaze ro rt rb ri rir) + snd (eye_gaze lo lt lb li lir)) / 2.
Proof.
  unfold estimate_gaze. cbv zeta. intro H.
  repeat match type of H with
  | bind (get_landmark_position landmarks ?i w h) _ = _ =>
      let E := fresh "E" in
      destruct (get_landmark_position landmarks i w h) as [?p|?e] eqn:E;
      [simpl bind in H|discriminate H]
  end.
  exists p, p0, p1, p2, p3, p4, p5, p6.
  destruct (get_landmark_position landmarks 468 w h) as [lir|e1] eqn:E468.
  - destruct (get_landmark_position landmarks 473 w h) as [rir|e2] eqn:E473;
      simpl in H.
    + exists lir, rir.
      destruct (eye_gaze p p0 p1 p2 lir) as [lx ly].
      destruct (eye_gaze p3 p4 p5 p6 rir) as [rx ry].
      injection H as <- <-. simpl. repeat split; try assumption.
      left. now split.
    + eexists _, _.
      destruct (eye_gaze p p0 p1 p2 _) as [lx ly] eqn:El.
      destruct (eye_gaze p3 p4 p5 p6 _) as [rx ry] eqn:Er.
      injection H as <- <-.
      repeat split; try eassumption.
      * right. split; [|split; reflexivity].
        destruct (Nat.lt_ge_cases (length landmarks) 474) as [|Hge];
          [assumption|].
        destruct (get_landmark_position_ok landmarks 473 w h) as (q & Hq);
          [lia|]. congruence.
      * now rewrite Er, El.
      * now rewrite Er, El.
  - simpl in H. eexists _, _.
    destruct (eye_gaze p p0 p1 p2 _) as [lx ly] eqn:El.
    destruct (eye_gaze p3 p4 p5 p6 _) as [rx ry] eqn:Er.
    injection H as <- <-.
    repeat split; try eassumption.
    * right. split; [|split; reflexivity].
      destruct (Nat.lt_ge_cases (length landmarks) 474) as [|Hge];
        [assumption|].
      destruct (get_landmark_position_ok landmarks 468 w h) as (q & Hq);
        [lia|]. congruence.
    * now rewrite Er, El.
    * now rewrite Er, El.
Qed.

(** An iris at the centre of its eye box reads as gaze (0, 0). *)
Lemma eye_gaze_centre (outer top bottom inner : Point) :
  let centre := ((fst outer + fst inner) / 2, (snd top + snd bottom) / 2) in
  fst (eye_gaze outer top bottom inner centre) == 0
  /\ snd (eye_gaze outer top bottom inner centre) == 0.
Proof.
  unfold eye_gaze. cbv zeta.
  destruct (Qltb 0 (fst inner - fst outer)) eqn:Ew; simpl andb;
    [|split; reflexivity].
  destruct (Qltb 0 (snd bottom - snd top)) eqn:Eh; [|split; reflexivity].
  apply Qltb_lt in Ew, Eh. simpl fst. simpl snd.
  split; field; lra.
Qed.

(** An iris inside its eye box reads as a gaze within [-1, 1] on both axes. *)
Lemma eye_gaze_in_box (outer top bottom inner iris : Point) :
  iris_in_box outer top bottom inner iris ->
  (-1 <= fst (eye_gaze outer top bottom inner iris) <= 1)
  /\ (-1 <= snd (eye_gaze outer top bottom inner iris) <= 1).
Proof.
  intros [[Hx1 Hx2] [Hy1 Hy2]]. unfold eye_gaze.
  destruct (Qltb 0 (fst inner - fst outer)) eqn:Ew; simpl andb;
    [|simpl; split; split; lra].
  destruct (Qltb 0 (snd bottom - snd top)) eqn:Eh; [|simpl; split; split; lra].
  apply Qltb_lt in Ew, Eh. simpl fst. simpl snd.
  assert (Hdiv : forall a b, 0 < b -> 0 <= a <= b -> -1 <= 2 * a / b - 1 <= 1).
  { intros a b Hb [Ha1 Ha2].
    assert (H0 : 0 <= a / b) by (apply Qle_shift_div_l; lra).
    assert (H1 : a / b <= 1) by (apply Qle_shift_div_r; lra).
    assert (E : 2 * a / b == 2 * (a / b)) by (field; lra).
    rewrite E. split; lra. }
  split; apply Hdiv; try assumption; split; lra.
Qed.

Lemma half_range (a b : Q) :
  -1 <= a <= 1 -> -1 <= b <= 1 ->
  (-1 <= (a - b) / 2 <= 1) /\ (-1 <= (a + b) / 2 <= 1).
Proof.
  intros Ha Hb.
  assert (E1 : (a - b) / 2 == (a - b) * (1 # 2)) by field.
  assert (E2 : (a + b) / 2 == (a + b) * (1 # 2)) by field.
  rewrite E1, E2. split; split; lra.
Qed.

Lemma in_bounds_flag (gx gy : Q) (blinking : bool) (dir : Direction)
      (now : Q) (g : GazeTracking) :
  -1 <= gx <= 1 -> -1 <= gy <= 1 ->
  last_known_in_bounds (track_gaze gx gy now blinking dir g) = true.
Proof.
  intros Hx Hy. unfold track_gaze, store_previous_gaze, update_screen_attention.
  cbv zeta. simpl last_known_in_bounds.
  assert (Ex : Qle_bool (Qabs gx) 1 = true)
    by (apply Qle_bool_iff, Qabs_Qle_condition; exact Hx).
  assert (Ey : Qle_bool (Qabs gy) 1 = true)
    by (apply Qle_bool_iff, Qabs_Qle_condition; exact Hy).
  rewrite Ex, Ey. simpl.
  destruct (Direction_eqb dir CENTER); destruct (blinking && _); reflexivity.
Qed.

Lemma fold_Qplus_snoc (l : list Q) (x : Q) :
  fold_left Qplus (l ++ [x]) 0 = fold_left Qplus l 0 + x.
Proof. now rewrite fold_left_app. Qed.

Lemma detect_fixation_consistent (d x y now : Q) (blinking : bool)
      (g : GazeTracking) :
  gaze_consistent g -> gaze_consistent (detect_fixation d x y now blinking g).
Proof.
  intros Hg. pose proof Hg as (Hc & Hs & Hall & Htot & Havg & Hnone).
  unfold detect_fixation.
  destruct (Qltb d (fixation_threshold g) || blinking).
  - destruct (fixation_point g) as [pt|] eqn:Ept.
    + unfold gaze_consistent. simpl.
      repeat split; try assumption. discriminate.
    + destruct (negb blinking).
      * unfold gaze_consistent. simpl.
        repeat split; try assumption. discriminate.
      * exact Hg.
  - destruct (Qltb (1 # 10) (fixation_duration g)) eqn:Edur.
    + apply Qltb_lt in Edur.
      assert (Hpt : fixation_point g <> None).
      { intro Hn. rewrite (Hnone Hn) in Edur. lra. }
      destruct (Qltb (saccade_threshold g) d); unfold gaze_consistent;
        cbn -[Nat.ltb Qnat Qdiv Qplus];
        rewrite ?length_app, ?map_app; simpl map; rewrite fold_Qplus_snoc;
        simpl length;
        (split; [lia|]); (split; [lia|]);
        (split; [apply Forall_app; split;
                 [assumption|constructor; [split; [exact Edur|exact Hpt]|constructor]]|]);
        (split; [now rewrite Htot|]);
        (split; [reflexivity|reflexivity]).
    + destruct (Qltb (saccade_threshold g) d); unfold gaze_consistent;
        cbn -[Nat.ltb Qnat Qdiv Qplus];
        rewrite ?length_app; simpl length;
        (split; [lia|]); (split; [lia|]);
        (split; [assumption|]); (split; [assumption|]);
        (split; [assumption|reflexivity]).
Qed.

Lemma track_gaze_consistent (gx gy now : Q) (blinking : bool) (dir : Direction)
      (g : GazeTracking) :
  gaze_consistent g -> gaze_consistent (track_gaze gx gy now blinking dir g).
Proof.
  intro H. unfold track_gaze. cbv zeta.
  match goal with
  | |- gaze_consistent
         (store_previous_gaze _ _ _
            (update_screen_attention _ _ _ _ (detect_fixation ?d _ _ _ _ ?g0))) =>
      assert (H0 : gaze_consistent g0) by exact H;
      pose proof (detect_fixation_consistent d gx gy now blinking g0 H0) as H1
  end.
  exact H1.
Qed.

Lemma remember_saccade_count_consistent (g : GazeTracking) :
  gaze_consistent g -> gaze_consistent (remember_saccade_count g).
Proof. intro H. exact H. Qed.

Lemma process_frame_consistent (frame : Frame) (clock : Clock) (s s' : t) :
  process_frame frame clock s = Ok s' ->
  gaze_consistent (gaze_tracking s) -> gaze_consistent (gaze_tracking s').
Proof.
  intros Hrun H.
  destruct (process_frame_gaze _ _ _ _ Hrun) as (g & Hg & Hs').
  assert (Hcons : gaze_consistent g).
  { destruct Hg as [->|(gx & gy & b & dir & ->)]; [exact H|].
    now apply track_gaze_consistent. }
  destruct Hs' as [->| ->]; [exact Hcons|].
  now apply remember_saccade_count_consistent.
Qed.

(** X12. After every frame of a session started from [__init__] the gaze
    dictionary is consistent: [fixation_count] and [saccade_count] are the
    lengths of [fixation_history] and [saccade_times], every recorded
    fixation lasted more than 0.1 s and has a point, [total_fixation_time]
    is the sum of the recorded durations, [avg_fixation_time] is that total
    over the count (0 before the first fixation), and the duration is 0
    whenever no fixation is open. *)
Theorem gaze_counters_match_histories (now : Q)
        (frames : list (Frame * Clock)) :
  Forall (fun s => gaze_consistent (gaze_tracking s)) (run frames (init now)).
Proof.
  apply (run_invariant (fun s => gaze_consistent (gaze_tracking s))).
  - exact process_frame_consistent.
  - unfold gaze_consistent. simpl. repeat split; try reflexivity.
    constructor.
Qed.

(** X13. The gaze estimate of [process_eye_metrics] succeeds exactly on
    meshes of at least 387 landmarks and otherwise raises [IndexError]:
    the eight eye landmarks are read outside the [try], the two iris
    landmarks inside it. *)
Theorem estimate_gaze_needs_only_eye_landmarks (landmarks : Landmarks)
        (w h : Q) :
  match estimate_gaze landmarks w h with
  | Ok _ => (387 <= length landmarks)%nat
  | Raise e => e = IndexError /\ (length landmarks < 387)%nat
  end.
Proof.
  destruct (Nat.lt_ge_cases (length landmarks) 387) as [Hlt|Hge].
  - rewrite estimate_gaze_short by assumption. now split.
  - destruct (estimate_gaze_ok landmarks w h Hge) as (g & ->). exact Hge.
Qed.

(** X14. On a mesh that has the eye landmarks but not both iris landmarks
    (387 to 473 landmarks) the fallback puts each iris at the centre of its
    eye box, so the combined gaze is (0, 0) whatever the face does. *)
Theorem gaze_is_centred_without_iris_landmarks (landmarks : Landmarks)
        (w h : Q) :
  (387 <= length landmarks < 474)%nat ->
  exists gx gy,
    estimate_gaze landmarks w h = Ok (gx, gy) /\ gx == 0 /\ gy == 0.
Proof.
  intros [Hge Hlt].
  destruct (estimate_gaze_ok landmarks w h Hge) as ([gx gy] & E).
  exists gx, gy. split; [exact E|].
  destruct (estimate_gaze_value _ _ _ _ _ E)
    as (lo & lt & lb & li & ro & rt & rb & ri & lir & rir & _ & _ & _ & _ & _
        & _ & _ & _ & Hiris & -> & ->).
  destruct Hiris as [[_ H473]|(_ & -> & ->)].
  - apply get_landmark_position_length in H473. lia.
  - destruct (eye_gaze_centre lo lt lb li) as [Hlx Hly].
    destruct (eye_gaze_centre ro rt rb ri) as [Hrx Hry].
    cbv zeta in Hlx, Hly, Hrx, Hry.
    rewrite Hlx, Hly, Hrx, Hry. split; reflexivity.
Qed.

(** X15. When both irises lie inside their eye boxes the combined gaze is
    within [-1, 1] on both axes, and the sample then counts as on screen:
    [last_known_in_bounds] is true after it is tracked, whatever the head
    direction and the blink state. *)
Theorem gaze_in_bounds_when_irises_inside (landmarks : Landmarks) (w h : Q)
        (gx gy : Q) :
  irises_inside landmarks w h ->
  estimate_gaze landmarks w h = Ok (gx, gy) ->
  (-1 <= gx <= 1) /\ (-1 <= gy <= 1)
  /\ forall now blinking dir g,
      last_known_in_bounds (track_gaze gx gy now blinking dir g) = true.
Proof.
  intros Hin E.
  assert (Hrange : (-1 <= gx <= 1) /\ (-1 <= gy <= 1)).
  { destruct (estimate_gaze_value _ _ _ _ _ E)
      as (lo & lt & lb & li & ro & rt & rb & ri & lir & rir & H33 & H159 & H145
          & H133 & H362 & H386 & H374 & H263 & Hiris & -> & ->).
    destruct Hiris as [[H468 H473]|(_ & -> & ->)].
    - destruct (Hin _ _ _ _ _ _ _ _ _ _ H33 H159 H145 H133 H468
                    H362 H386 H374 H263 H473) as [Hl Hr].
      destruct (eye_gaze_in_box _ _ _ _ _ Hl) as [Hlx Hly].
      destruct (eye_gaze_in_box _ _ _ _ _ Hr) as [Hrx Hry].
      split.
      + exact (proj1 (half_range _ _ Hrx Hlx)).
      + exact (proj2 (half_range _ _ Hry Hly)).
    - destruct (eye_gaze_centre lo lt lb li) as [Hlx Hly].
      destruct (eye_gaze_centre ro rt rb ri) as [Hrx Hry].
      cbv zeta in Hlx, Hly, Hrx, Hry.
      rewrite Hlx, Hly, Hrx, Hry. split; split; unfold Qle; simpl; lia. }
  destruct Hrange as [Hx Hy]. split; [exact Hx|]. split; [exact Hy|].
  intros now blinking dir g. now apply in_bounds_flag.
Qed.

Lemma warm_up_bound_succ (n : nat) :
  warm_up_bound (S n) == 1 - (19 # 20) * (1 - warm_up_bound n).
Proof.
  unfold warm_up_bound. rewrite Nat2Z.inj_succ, <- Z.add_1_r.
  rewrite Qpower_plus by discriminate. rewrite Qpower_1_r. ring.
Qed.

Lemma warm_up_bound_below_1 (n : nat) : warm_up_bound n <= 1.
Proof.
  unfold warm_up_bound.
  assert (H : 0 <= (19 # 20) ^ Z.of_nat n) by (apply Qpower_0_le; discriminate).
  lra.
Qed.

Lemma process_frame_warm_up (frame : Frame) (clock : Clock) (s s' : t) :
  process_frame frame clock s = Ok s' ->
  screen_attention_ratio (gaze_tracking s)
  <= warm_up_bound (frame_count (performance s)) ->
  screen_attention_ratio (gaze_tracking s')
  <= warm_up_bound (frame_count (performance s')).
Proof.
  intros Hrun H.
  rewrite (process_frame_count _ _ _ _ Hrun), warm_up_bound_succ.
  pose proof (warm_up_bound_below_1 (frame_count (performance s))) as Hb.
  destruct (process_frame_gaze _ _ _ _ Hrun) as (g & Hg & Hs').
  assert (Hgb : screen_attention_ratio g
                <= 1 - (19 # 20) * (1 - warm_up_bound (frame_count (performance s)))).
  { destruct Hg as [->|(gx & gy & b & dir & ->)]; [lra|].
    destruct (track_gaze_ratio gx gy (at_gaze clock) b dir (gaze_tracking s))
      as (inb & ->).
    destruct inb; unfold Qbool; lra. }
  destruct Hs' as [->| ->]; exact Hgb.
Qed.

(** X16. The smoothed screen attention ratio starts at 0 and gains at most
    a twentieth of the remaining distance to 1 per frame: after the
    [k+1]-th frame of a session started from [__init__] it is at most
    [1 - 0.95^(k+1)]. *)
Theorem screen_attention_ratio_warms_up_slowly (now : Q)
        (frames : list (Frame * Clock)) (k : nat) (s : t) :
  nth_error (run frames (init now)) k = Some s ->
  screen_attention_ratio (gaze_tracking s) <= warm_up_bound (S k).
Proof.
  intro Hk.
  pose proof (run_frame_count _ _ _ _ Hk) as Hcount. simpl in Hcount.
  rewrite <- Hcount.
  assert (Hall : Forall (fun s => screen_attention_ratio (gaze_tracking s)
                                  <= warm_up_bound (frame_count (performance s)))
                        (run frames (init now))).
  { apply (run_invariant
             (fun s => screen_attention_ratio (gaze_tracking s)
                       <= warm_up_bound (frame_count (performance s)))).
    - exact process_frame_warm_up.
    - unfold warm_up_bound. simpl. unfold Qle. simpl. lia. }
  rewrite Forall_forall in Hall. apply Hall. eapply nth_error_In, Hk.
Qed.

End GazeEstimateFacts.

(** ** The head pose *)

Section HeadPoseFacts.
Import FacialMonitoringAgent.
Context {M : MathLib} {K : PoseFilter}.
Local Arguments Nat.modulo : simpl never.
Local Arguments nth_error : simpl never.

Lemma detect_head_pose_ok (landmarks : Landmarks) (w h : Q) (self : t) :
  (363 <= length landmarks)%nat ->
  exists raw,
    detect_head_pose (Some landmarks) w h self
    = Ok (raw, set_face_detected true self).
Proof.
  intro H. unfold detect_head_pose.
  repeat match goal with
  | |- context [bind (get_landmark_position landmarks ?i w h) _] =>
      let p := fresh "p" in
      let E := fresh "E" in
      destruct (get_landmark_position_ok landmarks i w h) as (p & E); [lia|];
      rewrite E; simpl bind
  end.
  cbv zeta. destruct (calibrated _); eauto.
Qed.

Lemma detect_head_pose_short (landmarks : Landmarks) (w h : Q) (self : t) :
  (length landmarks < 363)%nat ->
  detect_head_pose (Some landmarks) w h self = Raise IndexError.
Proof.
  intro H. unfold detect_head_pose.
  repeat match goal with
  | |- context [bind (get_landmark_position landmarks ?i w h) _] =>
      let E := fresh "E" in
      destruct (get_landmark_position landmarks i w h) as [?p|?e] eqn:E;
      [simpl bind
      | apply get_landmark_position_raises in E; subst; reflexivity]
  end.
  match goal with
  | E : get_landmark_position landmarks 362 w h = Ok _ |- _ =>
      apply get_landmark_position_length in E; lia
  end.
Qed.

Lemma calibrate_if_active_raises (landmarks : Landmarks) (w h now : Q)
      (self : t) (e : exn) :
  calibrate_if_active landmarks w h now self = Raise e -> e = IndexError.
Proof.
  unfold calibrate_if_active.
  destruct (negb _ && _); [|discriminate].
  destruct (Nat.lt_ge_cases (length landmarks) 363) as [Hlt|Hge].
  - rewrite (detect_head_pose_short landmarks w h self Hlt). simpl.
    intro H. now injection H.
  - destruct (detect_head_pose_ok landmarks w h self Hge) as ([[y p] r] & ->).
    simpl. discriminate.
Qed.

Lemma process_face_short (landmarks : Landmarks) (frame : Frame)
      (clock : Clock) (self : t) :
  (length landmarks < 387)%nat ->
  process_face landmarks frame clock self = Raise IndexError.
Proof.
  intro H. unfold process_face.
  destruct (calibrate_if_active _ _ _ _ _) as [s1|e] eqn:E1; cbn [bind].
  2: { apply calibrate_if_active_raises in E1. now subst. }
  destruct (Nat.lt_ge_cases (length landmarks) 363) as [Hlt|Hge].
  - now rewrite (detect_head_pose_short landmarks _ _ s1 Hlt).
  - destruct (detect_head_pose_ok landmarks (Qnat (frame_width frame))
                (Qnat (frame_height frame)) s1 Hge) as ([[y p] r] & ->).
    cbn [bind]. unfold process_eye_metrics.
    now rewrite estimate_gaze_short.
Qed.

(** X17. [detect_head_pose] on a mesh returns exactly when the mesh has at
    least 363 landmarks, having set [face_detected] and nothing else;
    on a shorter mesh it raises [IndexError]. *)
Theorem detect_head_pose_needs_363_landmarks (landmarks : Landmarks)
        (w h : Q) (self : t) :
  match detect_head_pose (Some landmarks) w h self with
  | Ok (_, self') =>
      (363 <= length landmarks)%nat /\ self' = set_face_detected true self
  | Raise e => e = IndexError /\ (length landmarks < 363)%nat
  end.
Proof.
  destruct (Nat.lt_ge_cases (length landmarks) 363) as [Hlt|Hge].
  - rewrite (detect_head_pose_short landmarks w h self Hlt). now split.
  - destruct (detect_head_pose_ok landmarks w h self Hge) as (raw & ->).
    now split.
Qed.

(** X18. A mesh of fewer than 387 landmarks makes [process_frame] raise
    [IndexError] on every frame that is due for processing: the blink
    detector swallows its own failure, the pose and gaze code does not. *)
Theorem partial_face_mesh_aborts_the_frame (landmarks : Landmarks)
        (rest : list Landmarks) (frame : Frame) (clock : Clock) (self : t) :
  frame_due self ->
  multi_face_landmarks frame = landmarks :: rest ->
  (length landmarks < 387)%nat ->
  process_frame frame clock self = Raise IndexError.
Proof.
  unfold frame_due. intros Hdue Hface Hshort. unfold process_frame.
  cbv zeta. rewrite Hdue. simpl negb. cbv iota.
  rewrite Hface. now rewrite process_face_short.
Qed.

(** X19. Moving the whole mesh across the image changes neither yaw nor
    pitch: [detect_head_pose] succeeds or fails alike on the moved mesh,
    leaves the same agent, and returns the same yaw and pitch. *)
Theorem head_pose_ignores_face_position (landmarks : Landmarks) (dx dy : Q)
        (w h : Q) (self : t) :
  match detect_head_pose (Some landmarks) w h self,
        detect_head_pose (Some (shift_landmarks dx dy landmarks)) w h self with
  | Ok (raw, s), Ok (raw', s') =>
      yaw_of raw' == yaw_of raw /\ pitch_of raw' == pitch_of raw /\ s' = s
  | Raise e, Raise e' => e' = e
  | _, _ => False
  end.
Proof.
  unfold detect_head_pose, get_landmark_position, landmark_at, shift_landmarks.
  rewrite !nth_error_map.
  destruct (nth_error landmarks 33) as [[? ?]|]; simpl; [|reflexivity].
  destruct (nth_error landmarks 133) as [[? ?]|]; simpl; [|reflexivity].
  destruct (nth_error landmarks 362) as [[? ?]|]; simpl; [|reflexivity].
  destruct (nth_error landmarks 263) as [[? ?]|]; simpl; [|reflexivity].
  destruct (nth_error landmarks 4) as [[? ?]|]; simpl; [|reflexivity].
  destruct (nth_error landmarks 61) as [[? ?]|]; simpl; [|reflexivity].
  destruct (nth_error landmarks 291) as [[? ?]|]; simpl; [|reflexivity].
  destruct (calibrated _); unfold yaw_of, pitch_of; simpl;
    (split; [field|split; [field|reflexivity]]).
Qed.

(** X20. Yaw and pitch are pixel distances: for an uncalibrated agent, the
    same mesh in an image [kw] times as wide and [kh] times as high gives
    [kw] times the yaw and [kh] times the pitch. *)
Theorem head_pose_is_measured_in_pixels (landmarks : Landmarks)
        (w h kw kh : Q) (self : t) :
  calibrated (calibration self) = false ->
  match detect_head_pose (Some landmarks) w h self,
        detect_head_pose (Some landmarks) (kw * w) (kh * h) self with
  | Ok (raw, _), Ok (raw', _) =>
      yaw_of raw' == kw * yaw_of raw /\ pitch_of raw' == kh * pitch_of raw
  | Raise e, Raise e' => e' = e
  | _, _ => False
  end.
Proof.
  intro Hcal.
  unfold detect_head_pose, get_landmark_position, landmark_at.
  destruct (nth_error landmarks 33) as [[? ?]|]; simpl; [|reflexivity].
  destruct (nth_error landmarks 133) as [[? ?]|]; simpl; [|reflexivity].
  destruct (nth_error landmarks 362) as [[? ?]|]; simpl; [|reflexivity].
  destruct (nth_error landmarks 263) as [[? ?]|]; simpl; [|reflexivity].
  destruct (nth_error landmarks 4) as [[? ?]|]; simpl; [|reflexivity].
  destruct (nth_error landmarks 61) as [[? ?]|]; simpl; [|reflexivity].
  destruct (nth_error landmarks 291) as [[? ?]|]; simpl; [|reflexivity].
  rewrite Hcal. unfold yaw_of, pitch_of; simpl. split; field.
Qed.

Lemma raw_triple (raw : Q * Q * Q) :
  (yaw_of raw, pitch_of raw, roll_of raw) = raw.
Proof. now destruct raw as [[y p] r]. Qed.

Lemma collect_cons (raw : Q * Q * Q) (now : Q) (rest : list Q) (s : t) :
  collect raw (now :: rest) s
  = collect raw rest
      (snd (process_calibration (yaw_of raw) (pitch_of raw) (roll_of raw)
                                now s)).
Proof. reflexivity. Qed.

Lemma collect_calibration (raw : Q * Q * Q) (times : list Q) (s : t) :
  Forall (fun now => now - calibration_start_time (calibration s)
                     < calibration_countdown (calibration s)) times ->
  calibration (collect raw times s)
  = mkCalibration (calibrated (calibration s))
      (calibration_samples (calibration s) ++ repeat raw (length times))
      (calibration_yaw_offset (calibration s))
      (calibration_pitch_offset (calibration s))
      (calibration_roll_offset (calibration s))
      (calibration_countdown (calibration s))
      (calibration_start_time (calibration s)).
Proof.
  revert s. induction times as [|now rest IH]; intros s Hall.
  - simpl. rewrite app_nil_r. now destruct (calibration s).
  - inversion Hall as [|? ? Hnow Hrest]; subst.
    rewrite collect_cons.
    set (s1 := snd (process_calibration _ _ _ now s)).
    assert (Hs1 : calibration s1
                  = mkCalibration (calibrated (calibration s))
                      (calibration_samples (calibration s) ++ [raw])
                      (calibration_yaw_offset (calibration s))
                      (calibration_pitch_offset (calibration s))
                      (calibration_roll_offset (calibration s))
                      (calibration_countdown (calibration s))
                      (calibration_start_time (calibration s))).
    { subst s1. unfold process_calibration.
      apply Qltb_lt in Hnow. rewrite Hnow. simpl. now rewrite raw_triple. }
    rewrite IH; rewrite Hs1; simpl.
    + now rewrite <- app_assoc.
    + exact Hrest.
Qed.

Lemma Qnat_succ (n : nat) : Qnat (S n) == Qnat n + 1.
Proof.
  unfold Qnat. rewrite Nat2Z.inj_succ, <- Z.add_1_r, inject_Z_plus.
  reflexivity.
Qed.

Lemma Qnat_pos (n : nat) : (0 < n)%nat -> 0 < Qnat n.
Proof.
  intro H. unfold Qnat. change 0 with (inject_Z 0). rewrite <- Zlt_Qlt. lia.
Qed.

Lemma sum_repeat (f : Q * Q * Q -> Q) (raw : Q * Q * Q) (n : nat) :
  fold_right Qplus 0 (map f (repeat raw n)) == Qnat n * f raw.
Proof.
  induction n as [|n IH].
  - simpl. unfold Qnat. simpl. ring.
  - cbn [repeat map fold_right]. rewrite IH, Qnat_succ. ring.
Qed.

(** The raw pose of a mesh is what a calibrated agent subtracts its offsets
    from. *)
Lemma detect_head_pose_offsets (landmarks : Landmarks) (w h : Q)
      (s s' s2 : t) (raw : Q * Q * Q) :
  detect_head_pose (Some landmarks) w h s = Ok (raw, s') ->
  calibrated (calibration s) = false ->
  calibrated (calibration s2) = true ->
  detect_head_pose (Some landmarks) w h s2
  = Ok ((yaw_of raw - calibration_yaw_offset (calibration s2),
         pitch_of raw - calibration_pitch_offset (calibration s2),
         roll_of raw - calibration_roll_offset (calibration s2)),
        set_face_detected true s2).
Proof.
  unfold detect_head_pose. intros H Hs Hs2.
  destruct (get_landmark_position landmarks 33 w h); cbn [bind] in *;
    [|discriminate].
  destruct (get_landmark_position landmarks 133 w h); cbn [bind] in *;
    [|discriminate].
  destruct (get_landmark_position landmarks 362 w h); cbn [bind] in *;
    [|discriminate].
  destruct (get_landmark_position landmarks 263 w h); cbn [bind] in *;
    [|discriminate].
  destruct (get_landmark_position landmarks 4 w h); cbn [bind] in *;
    [|discriminate].
  destruct (get_landmark_position landmarks 61 w h); cbn [bind] in *;
    [|discriminate].
  destruct (get_landmark_position landmarks 291 w h); cbn [bind] in *;
    [|discriminate].
  cbv zeta in *.
  change (calibration (set_face_detected true s)) with (calibration s) in H.
  change (calibration (set_face_detected true s2)) with (calibration s2).
  rewrite Hs in H. rewrite Hs2. injection H as <- _. reflexivity.
Qed.

(** X21. Calibration on a steady face is a round trip: start the
    calibration, feed the raw pose of one mesh to [process_calibration] at
    one or more times within the countdown and once more after it; the
    agent is then calibrated and [detect_head_pose] reads yaw, pitch and
    roll 0 on that mesh. *)
Theorem calibration_zeroes_a_steady_pose (landmarks : Landmarks) (w h : Q)
        (t0 t_end : Q) (times : list Q) (self s0 : t) (raw : Q * Q * Q) :
  detect_head_pose (Some landmarks) w h (start_calibration t0 self)
  = Ok (raw, s0) ->
  times <> [] ->
  Forall (fun now => now - t0 < calibration_countdown (calibration self))
         times ->
  calibration_countdown (calibration self) <= t_end - t0 ->
  let done :=
    snd (process_calibration (yaw_of raw) (pitch_of raw) (roll_of raw) t_end
           (collect raw times (start_calibration t0 self))) in
  calibrated (calibration done) = true
  /\ exists pose,
      detect_head_pose (Some landmarks) w h done
      = Ok (pose, set_face_detected true done)
      /\ yaw_of pose == 0 /\ pitch_of pose == 0 /\ roll_of pose == 0.
Proof.
  intros Hraw Hne Hall Hend done.
  pose proof (collect_calibration raw times (start_calibration t0 self) Hall)
    as Hcol.
  simpl in Hcol.
  assert (Hn : (0 < length times)%nat)
    by (destruct times; [congruence|simpl; lia]).
  pose proof (sum_samples_sums (repeat raw (length times))) as Hsum.
  assert (Hdone : calibration done
                  = let '(ys, ps, rs) :=
                      sum_samples (repeat raw (length times)) in
                    mkCalibration true (repeat raw (length times))
                      (ys / Qnat (length times)) (ps / Qnat (length times))
                      (rs / Qnat (length times))
                      (calibration_countdown (calibration self)) t0).
  { subst done. unfold process_calibration. rewrite Hcol. simpl.
    apply Qltb_ge in Hend. rewrite Hend.
    rewrite repeat_length.
    apply Nat.ltb_lt in Hn. rewrite Hn.
    destruct (sum_samples (repeat raw (length times))) as [[ys ps] rs].
    reflexivity. }
  destruct (sum_samples (repeat raw (length times))) as [[ys ps] rs].
  destruct Hsum as (Hy & Hp & Hr).
  rewrite sum_repeat in Hy, Hp, Hr.
  assert (Hcal : calibrated (calibration done) = true) by now rewrite Hdone.
  split; [exact Hcal|].
  eexists. split.
  - eapply detect_head_pose_offsets; [exact Hraw|reflexivity|exact Hcal].
  - pose proof (Qnat_pos _ Hn) as Hpos.
    rewrite Hdone.
    cbn [calibration_yaw_offset calibration_pitch_offset
         calibration_roll_offset].
    split; [|split].
    + unfold yaw_of at 1. cbn [fst snd]. rewrite Hy. field. lra.
    + unfold pitch_of at 1. cbn [fst snd]. rewrite Hp. field. lra.
    + unfold roll_of at 1. cbn [fst snd]. rewrite Hr. field. lra.
Qed.

End HeadPoseFacts.

(** ** Head direction, scores and the smoothing fallback *)

Section DirectionFacts.
Import FacialMonitoringAgent.
Context {M : MathLib} {K : PoseFilter}.
Local Arguments Nat.modulo : simpl never.

Lemma Qle_bool_abs (x bound : Q) :
  Qle_bool (Qabs x) bound = negb (Qltb x (- bound)) && negb (Qltb bound x).
Proof.
  destruct (Qle_bool (Qabs x) bound) eqn:E.
  - apply Qle_bool_iff, Qabs_Qle_condition in E as [E1 E2].
    apply Qltb_ge in E1, E2. now rewrite E1, E2.
  - apply Qle_bool_gt in E.
    case_Qltb x (- bound); [reflexivity|].
    case_Qltb bound x; [reflexivity|].
    exfalso. apply (Qlt_not_le _ _ E). apply Qabs_Qle_condition. split; lra.
Qed.

(** X22. The direction [update_head_direction] sets is [CENTER] exactly
    when the flag it appends to the attention window is true, that is when
    yaw and pitch are both within their thresholds. *)
Theorem centre_direction_is_the_raw_attention_flag (self : t) :
  Direction_eqb (current_direction (attention (update_head_direction self)))
                CENTER
  = within_thresholds self.
Proof.
  unfold within_thresholds. rewrite !Qle_bool_abs.
  unfold update_head_direction. simpl.
  destruct (Qltb (head_yaw (pose self)) (- yaw_threshold self));
    destruct (Qltb (yaw_threshold self) (head_yaw (pose self)));
    destruct (Qltb (head_pitch (pose self)) (- pitch_threshold self));
    destruct (Qltb (pitch_threshold self) (head_pitch (pose self)));
    reflexivity.
Qed.

Lemma py_min_mono (a x y : Q) : x <= y -> py_min a x <= py_min a y.
Proof.
  intro H. unfold py_min. case_Qltb x a; case_Qltb y a; lra.
Qed.

Lemma calculate_attention_score_range (s : t) :
  ratio_in_unit s ->
  25 <= calculate_attention_score s <= 100
  /\ attention_score s <= calculate_attention_score s.
Proof.
  intros [H0 H1]. unfold calculate_attention_score, attention_score. cbv zeta.
  pose proof (blink_normalcy_range
                (BlinkDetector.rate_per_minute (current_blink s))) as [Hn Hn'].
  split.
  - apply py_min_100; [|lra].
    destruct (Direction_eqb _ CENTER); lra.
  - apply py_min_mono.
    assert (Hs : head_stillness (current_direction (attention s))
                   (head_movement s || micro_movement s)
                 <= (if Direction_eqb (current_direction (attention s)) CENTER
                     then 30 else 15)).
    { unfold head_stillness, py_max.
      destruct (Direction_eqb _ CENTER), (head_movement s || micro_movement s);
        try lra;
        match goal with
        | |- context [Qltb ?a ?b] => case_Qltb a b; lra
        end. }
    lra.
Qed.

(** X23. After every frame of a session started from [__init__],
    [calculate_attention_score] lies in [25, 100], and the score [log_data]
    would write, which adds the movement penalty, is not above it. *)
Theorem session_attention_score_in_range (now : Q)
        (frames : list (Frame * Clock)) :
  Forall (fun s => 25 <= calculate_attention_score s
                   /\ calculate_attention_score s <= 100
                   /\ attention_score s <= calculate_attention_score s)
         (run frames (init now)).
Proof.
  eapply Forall_impl; [|apply (run_ratio frames (init now))].
  - intros s Hs. destruct (calculate_attention_score_range s Hs) as [[H1 H2] H3].
    now repeat split.
  - unfold ratio_in_unit. simpl. lra.
Qed.

Lemma smooth_pose_fallback (y p r : Q) (s : t) :
  use_kalman_filter s = false ->
  use_kalman_filter (smooth_pose y p r s) = false
  /\ smooth_factor (smooth_pose y p r s) = smooth_factor s
  /\ pose (smooth_pose y p r s)
     = mkHeadPose (head_yaw (pose s) * smooth_factor s + y * (1 - smooth_factor s))
                  (head_pitch (pose s) * smooth_factor s
                   + p * (1 - smooth_factor s))
                  (head_roll (pose s) * smooth_factor s
                   + r * (1 - smooth_factor s)) y p r.
Proof.
  intro H. unfold smooth_pose. rewrite H. simpl. now rewrite H.
Qed.

Lemma settle_succ (n : nat) (y p r : Q) (s : t) :
  settle (S n) y p r s = smooth_pose y p r (settle n y p r s).
Proof. reflexivity. Qed.

Lemma settle_fallback (n : nat) (y p r : Q) (s : t) :
  use_kalman_filter s = false ->
  use_kalman_filter (settle n y p r s) = false
  /\ smooth_factor (settle n y p r s) = smooth_factor s.
Proof.
  intro H. induction n as [|n [IH1 IH2]]; [now split|].
  rewrite settle_succ.
  destruct (smooth_pose_fallback y p r _ IH1) as (H1 & H2 & _).
  split; [exact H1|]. now rewrite H2.
Qed.

(** X24. With the Kalman filter switched off, smoothing the same raw pose
    [n] times leaves [smooth_factor^n] of the initial distance to it, on
    each of yaw, pitch and roll. *)
Theorem ema_fallback_closes_in_on_a_steady_pose (n : nat) (y p r : Q)
        (self : t) :
  use_kalman_filter self = false ->
  let after := pose (settle n y p r self) in
  let k := smooth_factor self ^ Z.of_nat n in
  head_yaw after - y == k * (head_yaw (pose self) - y)
  /\ head_pitch after - p == k * (head_pitch (pose self) - p)
  /\ head_roll after - r == k * (head_roll (pose self) - r).
Proof.
  intro H. cbv zeta. induction n as [|n (IHy & IHp & IHr)].
  - simpl. repeat split; ring.
  - destruct (settle_fallback n y p r self H) as [Hk Hf].
    destruct (smooth_pose_fallback y p r _ Hk) as (_ & _ & Hpose).
    rewrite settle_succ, Hpose, Hf.
    cbn [head_yaw head_pitch head_roll].
    assert (Hpow : smooth_factor self ^ Z.of_nat (S n)
                   == smooth_factor self * smooth_factor self ^ Z.of_nat n).
    { rewrite Nat2Z.inj_succ, <- Z.add_1_l.
      destruct (Qeq_dec (smooth_factor self) 0) as [E0|Hne].
      - rewrite E0. rewrite Qpower_0 by lia. ring.
      - rewrite Qpower_plus by exact Hne. now rewrite Qpower_1_r. }
    rewrite Hpow.
    repeat split.
    + transitivity (smooth_factor self
                    * (head_yaw (pose (settle n y p r self)) - y));
        [ring|rewrite IHy; ring].
    + transitivity (smooth_factor self
                    * (head_pitch (pose (settle n y p r self)) - p));
        [ring|rewrite IHp; ring].
    + transitivity (smooth_factor self
                    * (head_roll (pose (settle n y p r self)) - r));
        [ring|rewrite IHr; ring].
Qed.

End DirectionFacts.

(** ** Gaze shift events *)

Lemma skipn_repeat {A} (x : A) (m n : nat) :
  skipn m (repeat x n) = repeat x (n - m).
Proof.
  revert m. induction n as [|n IH]; intro m.
  - now rewrite skipn_nil.
  - destruct m as [|m]; [reflexivity|]. simpl. apply IH.
Qed.

Lemma map_constant {A B} (f : A -> B) (b : B) (l : list A) :
  Forall (fun a => f a = b) l -> map f l = repeat b (length l).
Proof.
  induction 1 as [|a l Ha _ IH]; [reflexivity|]. simpl. now rewrite Ha, IH.
Qed.

(** The window after at least 30 true flags and then [j] false ones. *)
Lemma window_after_turning_away (n j : nat) :
  (30 <= n)%nat -> (j <= 30)%nat ->
  last_n 30 (repeat true n ++ repeat false j)
  = repeat true (30 - j) ++ repeat false j.
Proof.
  intros Hn Hj. unfold last_n.
  rewrite length_app, !repeat_length, skipn_app, repeat_length, skipn_repeat.
  replace (n + j - 30 - n)%nat with 0%nat by lia.
  replace (n - (n + j - 30))%nat with (30 - j)%nat by lia.
  reflexivity.
Qed.

Lemma fraction_true_window (j : nat) :
  (j <= 9)%nat ->
  Qle_bool (7 # 10) (fraction_true (repeat true (30 - j) ++ repeat false j))
  = true.
Proof.
  intro Hj.
  do 10 (destruct j as [|j]; [reflexivity|]). lia.
Qed.

Section GazeShiftFacts.
Import FacialMonitoringAgent.
Context {K : PoseFilter}.

Lemma feed_pose_gaze_shift (p : Q * Q) (self : t) :
  yaw_threshold self = 10 -> pitch_threshold self = 10 ->
  gaze_shift_count (counters (feed_pose p self))
  = if Bool.eqb (raw_flag p) (looking_at_monitor (attention self))
    then gaze_shift_count (counters self)
    else S (gaze_shift_count (counters self)).
Proof.
  intros Hy Hp. unfold feed_pose, update_head_direction, within_thresholds.
  simpl. rewrite Hy, Hp. fold (raw_flag p).
  now destruct (Bool.eqb _ _).
Qed.

(** X25. [gaze_shift_count] counts the frames whose raw flag differs from
    [looking_at_monitor], not the changes of [looking_at_monitor]: after 30
    or more frames with the head within the thresholds, each of up to 9
    frames with the head outside them adds one gaze shift, while
    [looking_at_monitor] stays true throughout. *)
Theorem turning_away_counts_a_gaze_shift_per_frame (now : Q)
        (centred away : list (Q * Q)) :
  (30 <= length centred)%nat ->
  Forall (fun p => raw_flag p = true) centred ->
  (length away <= 9)%nat ->
  Forall (fun p => raw_flag p = false) away ->
  let before := feed_poses centred (init now) in
  let after := feed_poses away before in
  looking_at_monitor (attention after) = true
  /\ gaze_shift_count (counters after)
     = (gaze_shift_count (counters before) + length away)%nat.
Proof.
  intros Hlen Hcentred Hshort Haway before after. subst after.
  destruct (feed_poses_window centred (init now))
    as (Hy & Hp & Hthr & Hwin);
    [reflexivity|reflexivity|simpl; lia|].
  fold before in Hy, Hp, Hthr, Hwin.
  assert (Hbound : (length (screen_attention_history (attention before))
                    <= history_maxlen)%nat).
  { rewrite Hwin, length_last_n. unfold history_maxlen. lia. }
  assert (Hbefore : looking_at_monitor (attention before) = true).
  { assert (Hne : centred <> [])
      by (intro E; rewrite E in Hlen; simpl in Hlen; lia).
    destruct (exists_last Hne) as (rest0 & p0 & E0).
    destruct (feed_poses_window rest0 (init now)) as (_ & _ & Hthr0 & _);
      [reflexivity|reflexivity|simpl; lia|].
    assert (Hvote : looking_at_monitor (attention before)
                    = Qle_bool (7 # 10)
                        (fraction_true
                           (screen_attention_history (attention before)))).
    { subst before. rewrite E0, feed_poses_snoc, feed_pose_vote.
      now rewrite Hthr0. }
    rewrite Hvote, Hwin. simpl app.
    rewrite (map_constant raw_flag true _ Hcentred).
    pose proof (window_after_turning_away (length centred) 0 Hlen) as W.
    simpl in W. rewrite app_nil_r in W. unfold history_maxlen. rewrite W by lia.
    reflexivity. }
  induction away as [|p rest IH] using rev_ind.
  - simpl. split; [exact Hbefore|lia].
  - apply Forall_app in Haway as [Hrest Hp0].
    inversion Hp0 as [|? ? Hflag _]; subst.
    rewrite length_app in Hshort |- *. simpl in Hshort |- *.
    destruct IH as [IHlook IHcount]; [lia|exact Hrest|].
    destruct (feed_poses_window rest before Hy Hp Hbound)
      as (Hy' & Hp' & Hthr' & _).
    destruct (feed_poses_window (rest ++ [p]) before Hy Hp Hbound)
      as (_ & _ & _ & Hwin').
    cbv zeta in *.
    rewrite feed_poses_snoc. split.
    + rewrite feed_pose_vote, <- feed_poses_snoc, Hthr', Hthr, Hwin', Hwin.
      simpl attention_threshold.
      rewrite last_n_app_last_n, map_app.
      rewrite (map_constant raw_flag true _ Hcentred),
        (map_constant raw_flag false _ Hrest).
      simpl map. rewrite Hflag.
      replace (repeat false (length rest) ++ [false])
        with (repeat false (S (length rest)))
        by (rewrite <- repeat_cons; reflexivity).
      unfold history_maxlen.
      change (screen_attention_history (attention (init now))) with (@nil bool).
      rewrite app_nil_l, window_after_turning_away by lia.
      apply fraction_true_window. lia.
    + rewrite feed_pose_gaze_shift by assumption.
      rewrite Hflag, IHlook. simpl. rewrite IHcount. lia.
Qed.

End GazeShiftFacts.

(** ** Frame skipping *)

Lemma div_succ_multiple (n L : nat) :
  (0 < L)%nat -> (S n mod L = 0)%nat -> (S n / L = S (n / L))%nat.
Proof.
  intros HL H.
  pose proof (Nat.div_mod_eq (S n) L) as E1.
  pose proof (Nat.div_mod_eq n L) as E2.
  pose proof (Nat.mod_upper_bound n L) as B2.
  rewrite H in E1. nia.
Qed.

Lemma div_succ_other (n L : nat) :
  (0 < L)%nat -> (S n mod L <> 0)%nat -> (S n / L = n / L)%nat.
Proof.
  intros HL H.
  pose proof (Nat.div_mod_eq (S n) L) as E1.
  pose proof (Nat.div_mod_eq n L) as E2.
  pose proof (Nat.mod_upper_bound n L) as B2.
  pose proof (Nat.mod_upper_bound (S n) L) as B1.
  nia.
Qed.

Lemma mod_lcm (m a b : nat) :
  (0 < a)%nat -> (0 < b)%nat ->
  (m mod Nat.lcm a b = 0)%nat <-> (m mod a = 0 /\ m mod b = 0)%nat.
Proof.
  intros Ha Hb.
  assert (HL : Nat.lcm a b <> 0%nat).
  { intro E. apply Nat.lcm_eq_0 in E. lia. }
  rewrite !Nat.Lcm0.mod_divide. split.
  - intro H. split.
    + eapply Nat.divide_trans; [apply Nat.divide_lcm_l|exact H].
    + eapply Nat.divide_trans; [apply Nat.divide_lcm_r|exact H].
  - intros [H1 H2]. now apply Nat.lcm_least.
Qed.

Section FrameSkippingFacts.
Import FacialMonitoringAgent.
Context {M : MathLib} {K : PoseFilter}.
Local Arguments Nat.modulo : simpl never.
Local Arguments Nat.div : simpl never.
Local Arguments Nat.lcm : simpl never.

Lemma process_frame_skipping (f : positive) (frame : Frame) (clock : Clock)
      (s s' : t) :
  process_frame frame clock s = Ok s' -> skipping_at f s -> skipping_at f s'.
Proof.
  intros Hrun (Hf & Hskip & Hlog).
  pose proof (Pos2Nat.is_pos f) as Hpos.
  assert (HL : (0 < Nat.lcm 90 (Pos.to_nat f))%nat).
  { destruct (Nat.lcm 90 (Pos.to_nat f)) eqn:E; [|lia].
    apply Nat.lcm_eq_0 in E. lia. }
  set (n := frame_count (performance s)) in *.
  assert (Hentry : performance (counted clock s)
                   = mkPerformance (S n)
                       (deque_append history_maxlen (at_entry clock)
                                     (frame_times (performance s)))
                       f (S n mod Pos.to_nat f)).
  { unfold counted, record_frame_time. simpl. rewrite Hf, Hskip.
    f_equal. fold n.
    rewrite <- (Nat.add_1_r (n mod Pos.to_nat f)), <- (Nat.add_1_r n).
    now rewrite Nat.Div0.add_mod_idemp_l. }
  unfold skipping_at.
  destruct (process_frame_stages _ _ _ _ Hrun)
    as [[Hne ->]|(Hdue & s1 & s2 & H1 & H2 & H3)].
  - rewrite Hentry in Hne |- *. simpl in Hne |- *.
    split; [reflexivity|]. split; [reflexivity|].
    change (log_file (counted clock s)) with (log_file s). rewrite Hlog.
    symmetry. apply div_succ_other; [exact HL|].
    intro E. apply mod_lcm in E as [_ E]; [|lia|exact Hpos]. contradiction.
  - rewrite Hentry in Hdue. simpl in Hdue.
    assert (Hs1 : performance s1 = performance (counted clock s)
                  /\ log_file s1 = log_file s).
    { destruct H1 as [[_ ->]|(landmarks & rest & _ & Hface)].
      - now split.
      - destruct (process_face_keeps _ _ _ _ _ Hface)
          as ((Hl & _ & Hp & _) & _). now split. }
    destruct Hs1 as [Hp1 Hl1].
    assert (Hs2 : frame_count (performance s2) = S n
                  /\ processing_frequency (performance s2) = f
                  /\ frame_skip_counter (performance s2)
                     = (S n mod Pos.to_nat f)%nat
                  /\ log_file s2 = log_file s).
    { destruct H2 as [-> | ->]; unfold record_frame_time; simpl;
        rewrite Hp1, Hentry; simpl; now repeat split. }
    destruct Hs2 as (Hc2 & Hf2 & Hk2 & Hl2).
    destruct H3 as [[H90 ->]|[H90 ->]].
    + rewrite log_data_performance, Hc2, Hf2, Hk2.
      split; [reflexivity|]. split; [reflexivity|].
      destruct (log_data_row (at_log clock) s2) as (row & -> & _).
      rewrite length_app, Hl2, Hlog. simpl length.
      rewrite div_succ_multiple; [lia|exact HL|].
      apply mod_lcm; [lia|exact Hpos|]. rewrite Hc2 in H90. now split.
    + rewrite Hc2, Hf2, Hk2, Hl2, Hlog.
      split; [reflexivity|]. split; [reflexivity|].
      symmetry. apply div_succ_other; [exact HL|].
      intro E. apply mod_lcm in E as [E _]; [|lia|exact Hpos].
      rewrite Hc2 in H90. contradiction.
Qed.

(** X26. In a session started from [__init__] with the processing
    frequency set to [frequency]: the frequency in force is [frequency]
    clamped to 1..10, say [f]; after the [k+1]-th frame the skip counter is
    [(k+1) mod f], and [(k+1) / lcm(90, f)] rows have been logged, since a
    row is written only on a processed frame whose number is a multiple of
    90. *)
Theorem frame_skipping_stretches_the_log_interval (now : Q) (frequency : Z)
        (frames : list (Frame * Clock)) (k : nat) (s : t) :
  nth_error (run frames (set_processing_frequency frequency (init now))) k
  = Some s ->
  let f := Z.to_nat (Z.max 1 (Z.min 10 frequency)) in
  Pos.to_nat (processing_frequency (performance s)) = f
  /\ frame_skip_counter (performance s) = (S k mod f)%nat
  /\ length (log_file s) = (S k / Nat.lcm 90 f)%nat.
Proof.
  intros Hk f.
  set (start := set_processing_frequency frequency (init now)) in *.
  set (p := processing_frequency (performance start)).
  assert (Hp : Pos.to_nat p = f).
  { subst p start f. unfold set_processing_frequency. simpl.
    destruct (frequency <? 1)%Z eqn:E1.
    { apply Z.ltb_lt in E1.
      replace (Z.max 1 (Z.min 10 frequency)) with 1%Z by lia. reflexivity. }
    apply Z.ltb_ge in E1.
    destruct (10 <? frequency)%Z eqn:E2.
    { apply Z.ltb_lt in E2.
      replace (Z.max 1 (Z.min 10 frequency)) with 10%Z by lia. reflexivity. }
    apply Z.ltb_ge in E2.
    replace (Z.max 1 (Z.min 10 frequency)) with frequency by lia.
    destruct frequency as [|q|q]; lia. }
  assert (Hall : Forall (skipping_at p) (run frames start)).
  { apply run_invariant; [apply process_frame_skipping|].
    unfold skipping_at. subst p. simpl.
    split; [reflexivity|].
    rewrite Nat.Div0.mod_0_l, Nat.Div0.div_0_l. now split. }
  rewrite Forall_forall in Hall.
  destruct (Hall s (nth_error_In _ _ Hk)) as (Hf & Hskip & Hlog).
  pose proof (run_frame_count _ _ _ _ Hk) as Hcount.
  change (frame_count (performance start)) with 0%nat in Hcount.
  simpl in Hcount. rewrite Hcount in Hskip, Hlog.
  rewrite Hf, Hp in *. now repeat split.
Qed.

End FrameSkippingFacts.

(** ** The image resolution *)

Section ResolutionFacts.
Import FacialMonitoringAgent.
Context {M : MathLib} {K : PoseFilter}.
Local Arguments nth_error : simpl never.

Lemma get_landmark_position_scaled (landmarks : Landmarks) (idx : nat)
      (w h kw kh : Q) (p p' : Point) :
  get_landmark_position landmarks idx w h = Ok p ->
  get_landmark_position landmarks idx (kw * w) (kh * h) = Ok p' ->
  scaled_point kw kh p p'.
Proof.
  unfold get_landmark_position, landmark_at.
  destruct (nth_error landmarks idx) as [[x y]|]; simpl; [|discriminate].
  intros H H'. injection H as <-. injection H' as <-.
  split; simpl; ring.
Qed.

Lemma Qltb_scaled (k a a' : Q) :
  0 < k -> a' == k * a -> Qltb 0 a' = Qltb 0 a.
Proof.
  intros Hk E. case_Qltb 0 a'; case_Qltb 0 a; try reflexivity; exfalso.
  - rewrite E in E0.
    assert (H : 0 <= k * - a) by (apply Qmult_le_0_compat; lra).
    lra.
  - rewrite E in E0.
    assert (H : 0 < k * a) by (apply Qmult_lt_0_compat; lra).
    lra.
Qed.

Lemma eye_gaze_scaled (kw kh : Q) (o t b i c o' t' b' i' c' : Point) :
  0 < kw -> 0 < kh ->
  scaled_point kw kh o o' -> scaled_point kw kh t t' ->
  scaled_point kw kh b b' -> scaled_point kw kh i i' ->
  scaled_point kw kh c c' ->
  fst (eye_gaze o' t' b' i' c') == fst (eye_gaze o t b i c)
  /\ snd (eye_gaze o' t' b' i' c') == snd (eye_gaze o t b i c).
Proof.
  intros Hw Hh [Ho _] [_ Ht] [_ Hb] [Hi _] [Hcx Hcy]. unfold eye_gaze.
  assert (Ew : fst i' - fst o' == kw * (fst i - fst o))
    by (rewrite Hi, Ho; ring).
  assert (Eh : snd b' - snd t' == kh * (snd b - snd t))
    by (rewrite Hb, Ht; ring).
  rewrite (Qltb_scaled kw _ _ Hw Ew), (Qltb_scaled kh _ _ Hh Eh).
  case_Qltb 0 (fst i - fst o); simpl andb; [|split; reflexivity].
  case_Qltb 0 (snd b - snd t); [|split; reflexivity].
  cbn [fst snd]. split.
  - rewrite Ew, Hcx, Ho. field. split; lra.
  - rewrite Eh, Hcy, Ht. field. split; lra.
Qed.

Lemma scaled_centre (kw kh : Q) (o t b i o' t' b' i' : Point) :
  scaled_point kw kh o o' -> scaled_point kw kh t t' ->
  scaled_point kw kh b b' -> scaled_point kw kh i i' ->
  scaled_point kw kh
    ((fst o + fst i) / 2, (snd t + snd b) / 2)
    ((fst o' + fst i') / 2, (snd t' + snd b') / 2).
Proof.
  intros [Ho _] [_ Ht] [_ Hb] [Hi _]. split; cbn [fst snd].
  - rewrite Ho, Hi. field.
  - rewrite Ht, Hb. field.
Qed.

(** X27. The gaze estimate does not depend on the image size: scaling
    width and height by positive factors leaves success or failure and the
    combined gaze unchanged. *)
Theorem gaze_estimate_is_resolution_independent (landmarks : Landmarks)
        (w h kw kh : Q) :
  0 < kw -> 0 < kh ->
  match estimate_gaze landmarks w h,
        estimate_gaze landmarks (kw * w) (kh * h) with
  | Ok (gx, gy), Ok (gx', gy') => gx' == gx /\ gy' == gy
  | Raise e, Raise e' => e' = e
  | _, _ => False
  end.
Proof.
  intros Hw Hh.
  destruct (Nat.lt_ge_cases (length landmarks) 387) as [Hlt|Hge].
  { now rewrite !estimate_gaze_short. }
  destruct (estimate_gaze_ok landmarks w h Hge) as ([gx gy] & E).
  destruct (estimate_gaze_ok landmarks (kw * w) (kh * h) Hge)
    as ([gx' gy'] & E').
  rewrite E, E'.
  destruct (estimate_gaze_value _ _ _ _ _ E)
    as (lo & lt & lb & li & ro & rt & rb & ri & lir & rir & H33 & H159 & H145
        & H133 & H362 & H386 & H374 & H263 & Hiris & -> & ->).
  destruct (estimate_gaze_value _ _ _ _ _ E')
    as (lo' & lt' & lb' & li' & ro' & rt' & rb' & ri' & lir' & rir' & H33'
        & H159' & H145' & H133' & H362' & H386' & H374' & H263' & Hiris'
        & -> & ->).
  pose proof (get_landmark_position_scaled _ _ _ _ _ _ _ _ H33 H33') as S33.
  pose proof (get_landmark_position_scaled _ _ _ _ _ _ _ _ H159 H159') as S159.
  pose proof (get_landmark_position_scaled _ _ _ _ _ _ _ _ H145 H145') as S145.
  pose proof (get_landmark_position_scaled _ _ _ _ _ _ _ _ H133 H133') as S133.
  pose proof (get_landmark_position_scaled _ _ _ _ _ _ _ _ H362 H362') as S362.
  pose proof (get_landmark_position_scaled _ _ _ _ _ _ _ _ H386 H386') as S386.
  pose proof (get_landmark_position_scaled _ _ _ _ _ _ _ _ H374 H374') as S374.
  pose proof (get_landmark_position_scaled _ _ _ _ _ _ _ _ H263 H263') as S263.
  assert (Sl : scaled_point kw kh lir lir' /\ scaled_point kw kh rir rir').
  { destruct Hiris as [[H468 H473]|(Hlen & -> & ->)];
      destruct Hiris' as [[H468' H473']|(Hlen' & -> & ->)].
    - split; eapply get_landmark_position_scaled; eassumption.
    - apply get_landmark_position_length in H473. lia.
    - apply get_landmark_position_length in H473'. lia.
    - split; now apply scaled_centre. }
  destruct Sl as [Sl Sr].
  destruct (eye_gaze_scaled kw kh lo lt lb li lir lo' lt' lb' li' lir')
    as [Elx Ely]; try assumption.
  destruct (eye_gaze_scaled kw kh ro rt rb ri rir ro' rt' rb' ri' rir')
    as [Erx Ery]; try assumption.
  rewrite Elx, Ely, Erx, Ery. split; reflexivity.
Qed.

End ResolutionFacts.

(** ** Concrete instances of the further conditional properties *)

Section MoreInstances.
Import FacialMonitoringAgent.

(** One blink at time 10 is still reported as one blink per minute an hour
    into the session. *)
Lemma blink_rate_ignores_age_between_blinks_witness :
  BlinkDetector.rate_per_minute
    (fst (BlinkDetector.process_landmarks (M := example_math)
            look_right 3600 stale_detector)) == 1.
Proof.
  destruct (blink_rate_ignores_age_between_blinks (M := example_math)
              look_right 3600 stale_detector) as [_ Hrate].
  - vm_compute. lia.
  - reflexivity.
  - apply Qle_bool_iff. reflexivity.
  - rewrite Hrate. reflexivity.
Defined.

(** The 90th frame of a session is the first one logged. *)
Lemma frames_are_counted_and_logged_every_90_witness :
  frame_count (performance after_90_faceless_frames) = 90%nat
  /\ length (log_file after_90_faceless_frames) = 1%nat.
Proof.
  destruct (frames_are_counted_and_logged_every_90 (M := example_math)
              0 (faceless_session 90) 89 after_90_faceless_frames)
    as (Hcount & Hlog & _).
  - vm_compute. reflexivity.
  - split; [exact Hcount|exact Hlog].
Defined.

Lemma gaze_is_centred_without_iris_landmarks_witness :
  exists gx gy,
    estimate_gaze coarse_mesh 1 1 = Ok (gx, gy) /\ gx == 0 /\ gy == 0.
Proof.
  apply (gaze_is_centred_without_iris_landmarks coarse_mesh 1 1).
  vm_compute. lia.
Defined.

Lemma look_right_irises_inside : irises_inside look_right 1 1.
Proof.
  unfold irises_inside. cbv zeta. intros.
  repeat match goal with
  | H : get_landmark_position _ _ _ _ = Ok _ |- _ =>
      vm_compute in H; injection H as <-
  end.
  unfold iris_in_box. simpl. unfold Qle. simpl. lia.
Defined.

Lemma gaze_in_bounds_when_irises_inside_witness :
  -1 <= fst right_gaze <= 1 /\ -1 <= snd right_gaze <= 1.
Proof.
  destruct (gaze_in_bounds_when_irises_inside (M := example_math)
              look_right 1 1 (fst right_gaze) (snd right_gaze))
    as (Hx & Hy & _).
  - exact look_right_irises_inside.
  - reflexivity.
  - split; [exact Hx|exact Hy].
Defined.

(** One frame with the gaze on screen takes the ratio to 0.05, the bound
    for one frame. *)
Lemma screen_attention_ratio_warms_up_slowly_witness :
  screen_attention_ratio (gaze_tracking after_one_face_frame) <= 5 # 100.
Proof.
  apply (screen_attention_ratio_warms_up_slowly (M := example_math)
           0 [(mkFrame 360 640 [look_right], tick 0)] 0 after_one_face_frame).
  vm_compute. reflexivity.
Defined.

Lemma partial_face_mesh_aborts_the_frame_witness :
  process_frame (M := example_math) (K := example_filter)
                (mkFrame 360 640 [partial_mesh]) (tick 0) (init 0)
  = Raise IndexError.
Proof.
  apply (partial_face_mesh_aborts_the_frame (M := example_math)
           partial_mesh [] (mkFrame 360 640 [partial_mesh]) (tick 0) (init 0)).
  - reflexivity.
  - reflexivity.
  - vm_compute. lia.
Defined.

(** Twice the resolution, twice the yaw. *)
Lemma head_pose_is_measured_in_pixels_witness :
  match detect_head_pose (M := example_math) (K := example_filter)
          (Some look_right) 640 360 (init 0),
        detect_head_pose (M := example_math) (K := example_filter)
          (Some look_right) (2 * 640) (2 * 360) (init 0) with
  | Ok (raw, _), Ok (raw', _) =>
      yaw_of raw' == 2 * yaw_of raw /\ pitch_of raw' == 2 * pitch_of raw
  | Raise e, Raise e' => e' = e
  | _, _ => False
  end.
Proof.
  apply (head_pose_is_measured_in_pixels (M := example_math)
           look_right 640 360 2 2 (init 0)).
  reflexivity.
Defined.

(** Calibration started at time 1, the pose of [look_right] sampled at
    times 1 and 2 and handed in once more at time 4. *)
Lemma calibration_zeroes_a_steady_pose_witness :
  let done :=
    snd (process_calibration (yaw_of look_right_pose)
           (pitch_of look_right_pose) (roll_of look_right_pose) 4
           (collect look_right_pose [1; 2]
              (start_calibration 1 (init (K := example_filter) 0)))) in
  exists pose,
    detect_head_pose (M := example_math) (Some look_right) 640 360 done
    = Ok (pose, set_face_detected true done)
    /\ yaw_of pose == 0 /\ pitch_of pose == 0 /\ roll_of pose == 0.
Proof.
  destruct (calibration_zeroes_a_steady_pose (M := example_math)
              look_right 640 360 1 4 [1; 2] (init (K := example_filter) 0)
              (set_face_detected true (start_calibration 1 (init 0)))
              look_right_pose) as [_ Hpose].
  - vm_compute. reflexivity.
  - discriminate.
  - repeat constructor.
  - apply Qle_bool_iff. reflexivity.
  - exact Hpose.
Defined.

(** Two steps towards yaw 10 from yaw 0 leave 0.64 of the distance. *)
Lemma ema_fallback_closes_in_on_a_steady_pose_witness :
  head_yaw (pose (settle 2 10 0 0 unfiltered_agent)) - 10
  == (64 # 100) * (0 - 10).
Proof.
  destruct (ema_fallback_closes_in_on_a_steady_pose
              2 10 0 0 unfiltered_agent) as (Hyaw & _ & _).
  - reflexivity.
  - rewrite Hyaw. reflexivity.
Defined.

(** A requested frequency of 25 is clamped to 10: the first frame is
    skipped and nothing is logged. *)
Lemma frame_skipping_stretches_the_log_interval_witness :
  Pos.to_nat (processing_frequency (performance after_one_fast_frame))
  = 10%nat
  /\ frame_skip_counter (performance after_one_fast_frame) = 1%nat
  /\ length (log_file after_one_fast_frame) = 0%nat.
Proof.
  apply (frame_skipping_stretches_the_log_interval (M := example_math)
           0 25 (faceless_session 1) 0 after_one_fast_frame).
  vm_compute. reflexivity.
Defined.

Lemma gaze_estimate_is_resolution_independent_witness :
  match estimate_gaze look_right 640 360,
        estimate_gaze look_right (2 * 640) (3 * 360) with
  | Ok (gx, gy), Ok (gx', gy') => gx' == gx /\ gy' == gy
  | Raise e, Raise e' => e' = e
  | _, _ => False
  end.
Proof.
  apply (gaze_estimate_is_resolution_independent look_right 640 360 2 3);
    reflexivity.
Defined.

(** Thirty centred frames, then nine frames with a yaw of 20. *)
Lemma turning_away_counts_a_gaze_shift_per_frame_witness :
  let before := feed_poses (repeat (0, 0) 30) (init (K := example_filter) 0) in
  let after := feed_poses (repeat (20, 0) 9) before in
  looking_at_monitor (attention after) = true
  /\ gaze_shift_count (counters after) = 9%nat.
Proof.
  destruct (turning_away_counts_a_gaze_shift_per_frame (K := example_filter)
              0 (repeat (0, 0) 30) (repeat (20, 0) 9)) as [Hlook Hcount].
  - simpl. lia.
  - repeat constructor.
  - simpl. lia.
  - repeat constructor.
  - split; [exact Hlook|]. rewrite Hcount. reflexivity.
Defined.


(** Both readings of the first frame are 7. *)
Lemma equal_frame_times_crash_the_fps_display_witness :
  process_frame (M := example_math) (K := example_filter) no_face_frame
                (mkClock 7 7 7 7 7 7 8) (init 0)
  = Raise ZeroDivisionError.
Proof.
  apply (equal_frame_times_crash_the_fps_display (M := example_math)
           no_face_frame (mkClock 7 7 7 7 7 7 8) (init 0)).
  - reflexivity.
  - reflexivity.
  - reflexivity.
  - reflexivity.
Defined.

End MoreInstances.
